(** * trading-app: trade valuation, market-data fetch, batch refresh and
      portfolio report

    A shallow embedding of [App/models.py], [App/services.py], [App/views.py]
    and [App/forms.py], and the properties of the specification settled on
    it.

    Layout: Python values and exceptions, the [decimal] arithmetic the models
    compute with, the models ([Stock], [Trade]), the market-data service, the
    views, and then the theorems. *)

From Stdlib Require Import ZArith Lia Bool List Ascii String.
From Stdlib Require Import Floats.SpecFloat.
From stdpp Require Import base option list gmap strings.

Local Open Scope Z_scope.

(* ===================================================================== *)
(** * Exceptions and the result of a call *)
(* ===================================================================== *)

(** The exception classes the modelled code can meet.  [RequestException]
    stands for [requests.RequestException] and all of its subclasses
    (connection errors, timeouts, body decoding errors). *)
Inductive exn_class : Type :=
| TypeError
| AttributeError
| ValueError
| InvalidOperation
| DivisionByZero
| RequestException
| ZeroDivisionError
| FieldError
| ValidationError
| DatabaseError.

(** An exception instance: its class and [str(e)]. *)
Record exn : Type := Exn { exn_cls : exn_class; exn_msg : string }.

#[global] Instance exn_class_eq_dec : EqDecision exn_class.
Proof. solve_decision. Defined.

(** A Python call either returns a value or raises. *)
Inductive result (A : Type) : Type :=
| Ok (a : A)
| Raise (e : exn).
Arguments Ok {A} a.
Arguments Raise {A} e.

Definition rbind {A B} (r : result A) (k : A -> result B) : result B :=
  match r with
  | Ok a => k a
  | Raise e => Raise e
  end.

Declare Scope result_scope.
Delimit Scope result_scope with result.
Notation "'let?' x ':=' r 'in' k" := (rbind r (fun x => k))
  (at level 10, x name, r at level 100, k at level 200) : result_scope.

Definition is_ok {A} (r : result A) : bool :=
  match r with Ok _ => true | Raise _ => false end.

(* ===================================================================== *)
(** * Python's [decimal.Decimal] under the default context *)
(* ===================================================================== *)

(** A finite decimal is a coefficient and an exponent, of value
    [coef * 10 ^ dexp].  The coefficient carries the sign, so the two signed
    zeros of [decimal] are one value here; Python compares them equal and
    both are false in a condition.  The default context has 28 digits of
    precision and rounds half to even; its exponent limits (+-999999) are
    out of reach of two-decimal columns and are left out. *)
Module Decimal.

Record t : Type := mk { coef : Z; dexp : Z }.

#[global] Instance eq_dec : EqDecision t.
Proof. solve_decision. Defined.

Definition prec : Z := 28.

(** [len(str(n))] for [0 <= n]. *)
Fixpoint ndigits_fuel (fuel : nat) (n : Z) : Z :=
  match fuel with
  | O => 1
  | S fuel' => if n <? 10 then 1 else 1 + ndigits_fuel fuel' (n / 10)
  end.

Definition ndigits (n : Z) : Z := ndigits_fuel (Z.to_nat (Z.log2 n)) n.

(** [d.adjusted()]: the exponent of the most significant digit. *)
Definition adjusted (d : t) : Z := dexp d + ndigits (Z.abs (coef d)) - 1.

(** Drop the last [k] digits of [c >= 0], rounding half to even. *)
Definition round_half_even (c k : Z) : Z :=
  let p := 10 ^ k in
  let q := c / p in
  let r := c mod p in
  if (2 * r >? p) || ((2 * r =? p) && Z.odd q) then q + 1 else q.

(** [Decimal._fix]: round to the context precision. *)
Definition fix_ (d : t) : t :=
  let a := Z.abs (coef d) in
  let n := ndigits a in
  if a =? 0 then d
  else if n >? prec then
    let k := n - prec in
    let c1 := round_half_even a k in
    if ndigits c1 >? prec
    then mk (Z.sgn (coef d) * (c1 / 10)) (dexp d + k + 1)
    else mk (Z.sgn (coef d) * c1) (dexp d + k)
  else d.

(** [Decimal(n)] for an [int]. *)
Definition of_int (n : Z) : t := mk n 0.

Definition neg (a : t) : t := mk (- coef a) (dexp a).

(** The exact sum, on the smaller exponent. *)
Definition add_exact (a b : t) : t :=
  let m := Z.min (dexp a) (dexp b) in
  mk (coef a * 10 ^ (dexp a - m) + coef b * 10 ^ (dexp b - m)) m.

Definition mul_exact (a b : t) : t :=
  mk (coef a * coef b) (dexp a + dexp b).

Definition add (a b : t) : t := fix_ (add_exact a b).
Definition sub (a b : t) : t := add a (neg b).
Definition mul (a b : t) : t := fix_ (mul_exact a b).

(** The loop of [__truediv__] on an exact quotient: strip trailing zeros
    while the exponent is below the ideal one. *)
Fixpoint strip_zeros (fuel : nat) (c e ideal : Z) : Z * Z :=
  match fuel with
  | O => (c, e)
  | S fuel' =>
      if (e <? ideal) && (c mod 10 =? 0)
      then strip_zeros fuel' (c / 10) (e + 1) ideal
      else (c, e)
  end.

(** [a / b] ([Decimal.__truediv__]). *)
Definition div (a b : t) : result t :=
  if coef b =? 0 then
    if coef a =? 0
    then Raise (Exn InvalidOperation "[<class 'decimal.DivisionUndefined'>]")
    else Raise (Exn DivisionByZero "[<class 'decimal.DivisionByZero'>]")
  else if coef a =? 0 then Ok (fix_ (mk 0 (dexp a - dexp b)))
  else
    let sign := Z.sgn (coef a) * Z.sgn (coef b) in
    let ca := Z.abs (coef a) in
    let cb := Z.abs (coef b) in
    let shift := ndigits cb - ndigits ca + prec + 1 in
    let e := dexp a - dexp b - shift in
    let num := if 0 <=? shift then ca * 10 ^ shift else ca in
    let den := if 0 <=? shift then cb else cb * 10 ^ (- shift) in
    let q := num / den in
    let r := num mod den in
    if r =? 0 then
      let ideal := dexp a - dexp b in
      let '(q', e') := strip_zeros (Z.to_nat (ideal - e)) q e ideal in
      Ok (fix_ (mk (sign * q') e'))
    else
      let q' := if q mod 5 =? 0 then q + 1 else q in
      Ok (fix_ (mk (sign * q') e)).

(** [Decimal._rescale(e)]: the value on exponent [e], rounded half to
    even when digits are lost. *)
Definition rescale (a : t) (e : Z) : t :=
  if dexp a >=? e
  then mk (coef a * 10 ^ (dexp a - e)) e
  else mk (Z.sgn (coef a) * round_half_even (Z.abs (coef a)) (e - dexp a)) e.

(** [a.quantize(Decimal((0, (1,), e)))]. *)
Definition quantize (a : t) (e : Z) : result t :=
  if coef a =? 0 then Ok (fix_ (mk 0 e))
  else if adjusted a - e + 1 >? prec
  then Raise (Exn InvalidOperation "[<class 'decimal.InvalidOperation'>]")
  else
    let ans := rescale a e in
    if ndigits (Z.abs (coef ans)) >? prec
    then Raise (Exn InvalidOperation "[<class 'decimal.InvalidOperation'>]")
    else Ok (fix_ ans).

(** [round(a, n)] ([Decimal.__round__] with a digit count). *)
Definition round (a : t) (n : Z) : result t := quantize a (- n).

(** [bool(a)]. *)
Definition truthy (a : t) : bool := negb (coef a =? 0).

(** Numeric comparison, as [<], [==] and [>] do it. *)
Definition compare (a b : t) : comparison :=
  let m := Z.min (dexp a) (dexp b) in
  (coef a * 10 ^ (dexp a - m) ?= coef b * 10 ^ (dexp b - m)).

Definition ltb (a b : t) : bool :=
  match compare a b with Lt => true | _ => false end.
Definition gtb (a b : t) : bool :=
  match compare a b with Gt => true | _ => false end.
Definition eqb (a b : t) : bool :=
  match compare a b with Eq => true | _ => false end.
Definition leb (a b : t) : bool := negb (gtb a b).

(** The value [c / 100] as a two-decimal column returns it. *)
Definition cents (c : Z) : t := mk c (-2).

End Decimal.

Abbreviation decimal := Decimal.t.

(* ===================================================================== *)
(** * Python values *)
(* ===================================================================== *)

(** What a decoded JSON body, a dictionary entry or an attribute of a model
    instance can hold.  A [dict] is the list of its items, looked up by key;
    a [float] is an IEEE 754 value. *)
#[warnings="-register-all"]
Inductive pyval : Type :=
| PNone
| PBool (b : bool)
| PInt (z : Z)
| PFloat (f : spec_float)
| PStr (s : string)
| PDec (d : decimal)
| PList (l : list pyval)
| PDict (items : list (string * pyval)).

(** [bool(v)], the test of [if v:] and [not v]. *)
Definition truthy (v : pyval) : bool :=
  match v with
  | PNone => false
  | PBool b => b
  | PInt z => negb (z =? 0)
  | PFloat f => match f with S754_zero _ => false | _ => true end
  | PStr s => negb (String.eqb s "")
  | PDec d => Decimal.truthy d
  | PList l => match l with [] => false | _ => true end
  | PDict items => match items with [] => false | _ => true end
  end.

Definition is_none (v : pyval) : bool :=
  match v with PNone => true | _ => false end.

(** [v == 0]. *)
Definition eq_zero (v : pyval) : bool :=
  match v with
  | PBool b => negb b
  | PInt z => z =? 0
  | PFloat f => match f with S754_zero _ => true | _ => false end
  | PDec d => Decimal.coef d =? 0
  | _ => false
  end.

Fixpoint assoc (k : string) (items : list (string * pyval)) : option pyval :=
  match items with
  | [] => None
  | (k', v) :: rest => if String.eqb k k' then Some v else assoc k rest
  end.

(** [type(v).__name__], as an error message spells it. *)
Definition type_name (v : pyval) : string :=
  match v with
  | PNone => "NoneType"
  | PBool _ => "bool"
  | PInt _ => "int"
  | PFloat _ => "float"
  | PStr _ => "str"
  | PDec _ => "decimal.Decimal"
  | PList _ => "list"
  | PDict _ => "dict"
  end.

(** [v.get(k)]: [None] for a missing key, [AttributeError] when [v] has no
    [get], that is when it is not a [dict]. *)
Definition py_get (v : pyval) (k : string) : result pyval :=
  match v with
  | PDict items => Ok (default PNone (assoc k items))
  | _ =>
      Raise (Exn AttributeError
               ("'" ++ type_name v ++ "' object has no attribute 'get'")%string)
  end.

(** [-v]; a [str] has no unary minus. *)
Definition py_neg (v : pyval) : result pyval :=
  match v with
  | PBool b => Ok (PInt (if b then -1 else 0))
  | PInt z => Ok (PInt (- z))
  | PFloat f => Ok (PFloat (SFopp f))
  | PDec d => Ok (PDec (Decimal.neg d))
  | PStr _ => Raise (Exn TypeError "bad operand type for unary -: 'str'")
  | PNone => Raise (Exn TypeError "bad operand type for unary -: 'NoneType'")
  | PList _ => Raise (Exn TypeError "bad operand type for unary -: 'list'")
  | PDict _ => Raise (Exn TypeError "bad operand type for unary -: 'dict'")
  end.

(** ** The int [0] and decimals

    The totals and percentages below start from, or fall back to, the
    literal [0], an [int]; everything else they meet is a [Decimal]. *)
Inductive num : Type :=
| Int0
| Dec (d : decimal).

#[global] Instance num_eq_dec : EqDecision num.
Proof. solve_decision. Defined.

(** An [int] operand of a [Decimal] operation is converted exactly. *)
Definition num_dec (x : num) : decimal :=
  match x with Int0 => Decimal.of_int 0 | Dec d => d end.

Definition num_add (x y : num) : num :=
  match x, y with
  | Int0, Int0 => Int0
  | _, _ => Dec (Decimal.add (num_dec x) (num_dec y))
  end.

Definition num_sub (x y : num) : num :=
  match x, y with
  | Int0, Int0 => Int0
  | _, _ => Dec (Decimal.sub (num_dec x) (num_dec y))
  end.

Definition num_truthy (x : num) : bool :=
  match x with Int0 => false | Dec d => Decimal.truthy d end.

(** [sum(xs)]: [0 + x1 + x2 + ...]. *)
Definition py_sum (xs : list decimal) : num :=
  fold_left (fun acc x => num_add acc (Dec x)) xs Int0.

(** ** Strings *)

Definition upper_ascii (c : ascii) : ascii :=
  let n := nat_of_ascii c in
  if (Nat.leb 97 n && Nat.leb n 122)%bool then ascii_of_nat (n - 32)%nat else c.

(** [s.upper()] on ASCII text. *)
Fixpoint upper (s : string) : string :=
  match s with
  | EmptyString => EmptyString
  | String c s' => String (upper_ascii c) (upper s')
  end.

(* ===================================================================== *)
(** * models.py *)
(* ===================================================================== *)

Record User : Type := { user_id : Z; username : string }.

#[global] Instance User_eq_dec : EqDecision User.
Proof. solve_decision. Defined.

(** A [Stock] row.  Every price column is [DecimalField(decimal_places=2,
    null=True)]; [created_at] is a timestamp.  The primary key is the
    implicit [id] column: it is the key of the row in its table. *)
Module Stock.

Record t : Type := {
  symbol : string;
  name : string;
  current_price : option decimal;
  change : option decimal;
  change_percent : option decimal;
  volume : option Z;
  tp1 : option decimal; tp2 : option decimal; tp3 : option decimal;
  sl1 : option decimal; sl2 : option decimal; sl3 : option decimal;
  rsi : option decimal;
  ltp1 : option decimal; ltp2 : option decimal; ltp3 : option decimal;
  low : option decimal;
  high : option decimal;
  created_at : Z
}.

End Stock.

(** [if x:] on a nullable decimal holds when [x] is set and not zero;
    [if_set x] is its value then. *)
Definition if_set (x : option decimal) : option decimal :=
  match x with
  | Some d => if Decimal.truthy d then Some d else None
  | None => None
  end.

Module Trade.

(** A [Trade] instance with its [stock] resolved.  The class body binds
    [pl_percent] twice, first to a column and then to the property, so the
    property is what the class keeps and there is no such column. *)
Record t : Type := {
  user : User;
  stock : Stock.t;
  quantity : Z;
  buying_price : decimal;
  buy_date : Z;
  mtp : option decimal;
  msl : option decimal;
  profit_expected : option decimal;
  profit_percent : option decimal;
  loss_expected : option decimal;
  loss_recent : option decimal;
  pl_ratio : option decimal;
  rate_difference : option decimal;
  comments : string;
  max_profit : option decimal;
  min_profit_loss : option decimal;
  created_at : Z
}.

Definition total_cost (self : t) : decimal :=
  Decimal.mul (Decimal.of_int (quantity self)) (buying_price self).

(** [self.stock.current_price if self.stock else None]; a model instance
    is always true. *)
Definition current_price (self : t) : option decimal :=
  Stock.current_price (stock self).

Definition current_value (self : t) : option decimal :=
  match if_set (current_price self) with
  | Some p => Some (Decimal.mul (Decimal.of_int (quantity self)) p)
  | None => None
  end.

Definition unrealized_pl (self : t) : option decimal :=
  match current_value self with
  | Some v => Some (Decimal.sub v (total_cost self))
  | None => None
  end.

Definition pl_percent (self : t) : result num :=
  if Decimal.truthy (total_cost self) then
    match unrealized_pl self with
    | Some pl =>
        (let? r := Decimal.div pl (total_cost self) in
         let? p := Decimal.round (Decimal.mul r (Decimal.of_int 100)) 2 in
         Ok (Dec p))%result
    | None => Ok Int0
    end
  else Ok Int0.

(** ** Attribute assignment

    [save] assigns to [self] statement by statement, so an exception in
    the middle leaves the earlier assignments in place: a computation
    takes the instance and returns it with the outcome. *)
Definition M (A : Type) : Type := t -> result A * t.

Definition ret {A} (a : A) : M A := fun self => (Ok a, self).
Definition bind {A B} (m : M A) (k : A -> M B) : M B :=
  fun self =>
    match m self with
    | (Ok a, self') => k a self'
    | (Raise e, self') => (Raise e, self')
    end.
Definition read {A} (f : t -> A) : M A := fun self => (Ok (f self), self).
Definition lift {A} (r : result A) : M A := fun self => (r, self).
Definition assign (f : t -> t) : M unit := fun self => (Ok tt, f self).

Declare Scope trade_scope.
Delimit Scope trade_scope with trade.
Notation "x <- m ;; k" := (bind m (fun x => k))
  (at level 100, m at next level, right associativity) : trade_scope.
Notation "m ;; k" := (bind m (fun _ => k))
  (at level 100, right associativity) : trade_scope.

Definition set_profit_expected (v : option decimal) (self : t) : t :=
  {| user := user self; stock := stock self;
     quantity := quantity self; buying_price := buying_price self;
     buy_date := buy_date self; mtp := mtp self; msl := msl self;
     profit_expected := v; profit_percent := profit_percent self;
     loss_expected := loss_expected self; loss_recent := loss_recent self;
     pl_ratio := pl_ratio self; rate_difference := rate_difference self;
     comments := comments self; max_profit := max_profit self;
     min_profit_loss := min_profit_loss self; created_at := created_at self |}.

Definition set_profit_percent (v : option decimal) (self : t) : t :=
  {| user := user self; stock := stock self;
     quantity := quantity self; buying_price := buying_price self;
     buy_date := buy_date self; mtp := mtp self; msl := msl self;
     profit_expected := profit_expected self; profit_percent := v;
     loss_expected := loss_expected self; loss_recent := loss_recent self;
     pl_ratio := pl_ratio self; rate_difference := rate_difference self;
     comments := comments self; max_profit := max_profit self;
     min_profit_loss := min_profit_loss self; created_at := created_at self |}.

Definition set_loss_expected (v : option decimal) (self : t) : t :=
  {| user := user self; stock := stock self;
     quantity := quantity self; buying_price := buying_price self;
     buy_date := buy_date self; mtp := mtp self; msl := msl self;
     profit_expected := profit_expected self; profit_percent := profit_percent self;
     loss_expected := v; loss_recent := loss_recent self;
     pl_ratio := pl_ratio self; rate_difference := rate_difference self;
     comments := comments self; max_profit := max_profit self;
     min_profit_loss := min_profit_loss self; created_at := created_at self |}.

Definition set_loss_recent (v : option decimal) (self : t) : t :=
  {| user := user self; stock := stock self;
     quantity := quantity self; buying_price := buying_price self;
     buy_date := buy_date self; mtp := mtp self; msl := msl self;
     profit_expected := profit_expected self; profit_percent := profit_percent self;
     loss_expected := loss_expected self; loss_recent := v;
     pl_ratio := pl_ratio self; rate_difference := rate_difference self;
     comments := comments self; max_profit := max_profit self;
     min_profit_loss := min_profit_loss self; created_at := created_at self |}.

Definition set_pl_ratio (v : option decimal) (self : t) : t :=
  {| user := user self; stock := stock self;
     quantity := quantity self; buying_price := buying_price self;
     buy_date := buy_date self; mtp := mtp self; msl := msl self;
     profit_expected := profit_expected self; profit_percent := profit_percent self;
     loss_expected := loss_expected self; loss_recent := loss_recent self;
     pl_ratio := v; rate_difference := rate_difference self;
     comments := comments self; max_profit := max_profit self;
     min_profit_loss := min_profit_loss self; created_at := created_at self |}.

Definition set_rate_difference (v : option decimal) (self : t) : t :=
  {| user := user self; stock := stock self;
     quantity := quantity self; buying_price := buying_price self;
     buy_date := buy_date self; mtp := mtp self; msl := msl self;
     profit_expected := profit_expected self; profit_percent := profit_percent self;
     loss_expected := loss_expected self; loss_recent := loss_recent self;
     pl_ratio := pl_ratio self; rate_difference := v;
     comments := comments self; max_profit := max_profit self;
     min_profit_loss := min_profit_loss self; created_at := created_at self |}.

Section Save.

(** [super().save], the write of the ORM: it returns or
    raises, and hands the instance back. *)
Variable super_save : M unit.

Definition save : M unit :=
  ((* profit expected *)
   self <- read id ;;
   match if_set (mtp self) with
   | Some m =>
       assign (set_profit_expected
                 (Some (Decimal.mul (Decimal.sub m (buying_price self))
                                    (Decimal.of_int (quantity self))))) ;;
       self <- read id ;;
       if Decimal.truthy (buying_price self) then
         r <- lift (Decimal.div (Decimal.sub m (buying_price self))
                                (buying_price self)) ;;
         p <- lift (Decimal.round (Decimal.mul r (Decimal.of_int 100)) 2) ;;
         assign (set_profit_percent (Some p))
       else assign (set_profit_percent None)
   | None =>
       assign (set_profit_expected None) ;;
       assign (set_profit_percent None)
   end ;;
   (* loss expected *)
   self <- read id ;;
   match if_set (msl self) with
   | Some s =>
       assign (set_loss_expected
                 (Some (Decimal.mul (Decimal.sub (buying_price self) s)
                                    (Decimal.of_int (quantity self)))))
   | None => assign (set_loss_expected None)
   end ;;
   (* profit/loss ratio *)
   self <- read id ;;
   match if_set (mtp self), if_set (msl self) with
   | Some m, Some s =>
       if Decimal.truthy (buying_price self) then
         let profit_per_share := Decimal.sub m (buying_price self) in
         let loss_per_share := Decimal.sub (buying_price self) s in
         if Decimal.gtb loss_per_share (Decimal.of_int 0) then
           r <- lift (Decimal.div profit_per_share loss_per_share) ;;
           p <- lift (Decimal.round r 2) ;;
           assign (set_pl_ratio (Some p))
         else assign (set_pl_ratio None)
       else assign (set_pl_ratio None)
   | _, _ => assign (set_pl_ratio None)
   end ;;
   (* rate difference *)
   self <- read id ;;
   match if_set (current_price self) with
   | Some p =>
       assign (set_rate_difference
                 (Some (Decimal.sub p (buying_price self))))
   | None => assign (set_rate_difference None)
   end ;;
   (* recent loss *)
   self <- read id ;;
   match if_set (msl self), if_set (current_price self) with
   | Some _, Some p =>
       if Decimal.ltb p (buying_price self) then
         assign (set_loss_recent
                   (Some (Decimal.mul (Decimal.sub (buying_price self) p)
                                      (Decimal.of_int (quantity self)))))
       else assign (set_loss_recent None)
   | _, _ => assign (set_loss_recent None)
   end ;;
   super_save)%trade.

End Save.

(** What the ORM write may do to the instance: on an insert it sets the
    implicit key and [created_at] ([auto_now_add]); it assigns no other
    attribute. *)
Definition columns_kept (self self' : t) : Prop :=
  user self' = user self /\ stock self' = stock self /\
  quantity self' = quantity self /\ buying_price self' = buying_price self /\
  buy_date self' = buy_date self /\ mtp self' = mtp self /\ msl self' = msl self /\
  profit_expected self' = profit_expected self /\
  profit_percent self' = profit_percent self /\
  loss_expected self' = loss_expected self /\
  loss_recent self' = loss_recent self /\
  pl_ratio self' = pl_ratio self /\
  rate_difference self' = rate_difference self /\
  comments self' = comments self /\
  max_profit self' = max_profit self /\
  min_profit_loss self' = min_profit_loss self.

Definition orm_write (super_save : M unit) : Prop :=
  forall self, columns_kept self (snd (super_save self)).

(** An ORM write that succeeds, as the insert of a new row at time [now]. *)
Definition orm_insert (now : Z) : M unit :=
  fun self =>
    (Ok tt,
     {| user := user self; stock := stock self;
        quantity := quantity self; buying_price := buying_price self;
        buy_date := buy_date self; mtp := mtp self; msl := msl self;
        profit_expected := profit_expected self;
        profit_percent := profit_percent self;
        loss_expected := loss_expected self; loss_recent := loss_recent self;
        pl_ratio := pl_ratio self; rate_difference := rate_difference self;
        comments := comments self; max_profit := max_profit self;
        min_profit_loss := min_profit_loss self; created_at := now |}).

End Trade.

(* ===================================================================== *)
(** * services.py *)
(* ===================================================================== *)

Module Services.

(** The body of an HTTP response: text that does not decode as JSON, or
    the decoded value. *)
Inductive body : Type :=
| NotJson
| Json (v : pyval).

Record Response : Type := { status_code : Z; content : body }.

(** [response.json()].  A body that does not decode raises
    [requests.exceptions.JSONDecodeError], a [RequestException]. *)
Definition json (r : Response) : result pyval :=
  match content r with
  | Json v => Ok v
  | NotJson => Raise (Exn RequestException "Expecting value: line 1 column 1 (char 0)")
  end.

(** The dictionary [fetch_stock_from_psx] returns. *)
Record Quote : Type := {
  q_symbol : string;
  q_name : string;
  q_price : pyval;
  q_change : pyval;
  q_change_percent : pyval;
  q_volume : pyval;
  q_high : pyval;
  q_low : pyval
}.

Definition headers : list (string * string) :=
  [("User-Agent", "Mozilla/5.0");
   ("Accept", "application/json");
   ("Referer", "https://psxterminal.com/")].

(** [try: body except requests.RequestException: return None]. *)
Definition except_RequestException {A} (r : result (option A)) : result (option A) :=
  match r with
  | Raise e =>
      (* the handler prints a diagnostic line and returns None *)
      if decide (exn_cls e = RequestException) then Ok None else Raise e
  | _ => r
  end.

Section Fetch.

(** The table of [company_names.py], which is not among the sources. *)
Variable COMPANY_NAMES : gmap string string.

(** [requests.get(url, headers=..., timeout=...)]: the provider's answer
    to one request, or the exception the call raises ([Timeout] and
    [ConnectionError] are [RequestException]s). *)
Variable requests_get : string -> list (string * string) -> Z -> result Response.

Definition fetch_stock_from_psx (symbol : string) : result (option Quote) :=
  if String.eqb symbol "" then Ok None
  else
    let url := ("https://psxterminal.com/api/ticks/REG/" ++ upper symbol)%string in
    except_RequestException
      (let? response := requests_get url headers 10 in
       if negb (status_code response =? 200) then Ok None
       else
         let? payload := json response in
         let? success := py_get payload "success" in
         if negb (truthy success) then Ok None
         else
           let? data := py_get payload "data" in
           if negb (truthy data) then Ok None
           else
             let? price := py_get data "price" in
             if is_none price then Ok None
             else
               let? change := py_get data "change" in
               let? change_percent := py_get data "changePercent" in
               let? volume := py_get data "volume" in
               let? high := py_get data "high" in
               let? low := py_get data "low" in
               Ok (Some {| q_symbol := symbol;
                           q_name := default (upper symbol)
                                       (COMPANY_NAMES !! upper symbol);
                           q_price := price;
                           q_change := change;
                           q_change_percent := change_percent;
                           q_volume := volume;
                           q_high := high;
                           q_low := low |}))%result.

End Fetch.

End Services.

(* ===================================================================== *)
(** * views.py *)
(* ===================================================================== *)

Module Views.

Import Services.

(** ** Requests and responses *)

Record Request : Type := {
  req_user : option User;          (* [None]: nobody is logged in *)
  method : string;
  GET : gmap string string
}.

Inductive HttpResponse (A : Type) : Type :=
| RedirectToLogin
| Render (template : string) (context : A)
| JsonResponse (status : Z) (data : A).
Arguments RedirectToLogin {A}.
Arguments Render {A} template context.
Arguments JsonResponse {A} status data.

(** [request.GET.get(key, dflt)]. *)
Definition GET_get (request : Request) (key dflt : string) : string :=
  default dflt (GET request !! key).

(** ** String methods, on ASCII text *)

Definition is_space (c : ascii) : bool :=
  let n := nat_of_ascii c in
  ((Nat.leb 9 n && Nat.leb n 13) || (Nat.leb 28 n && Nat.leb n 32))%bool.

Fixpoint lstrip (s : string) : string :=
  match s with
  | String c s' => if is_space c then lstrip s' else s
  | EmptyString => EmptyString
  end.

Fixpoint rstrip (s : string) : string :=
  match s with
  | String c s' =>
      match rstrip s' with
      | EmptyString => if is_space c then EmptyString else String c EmptyString
      | r => String c r
      end
  | EmptyString => EmptyString
  end.

Definition strip (s : string) : string := rstrip (lstrip s).

Definition lower_ascii (c : ascii) : ascii :=
  let n := nat_of_ascii c in
  if (Nat.leb 65 n && Nat.leb n 90)%bool then ascii_of_nat (n + 32)%nat else c.

Fixpoint lower (s : string) : string :=
  match s with
  | EmptyString => EmptyString
  | String c s' => String (lower_ascii c) (lower s')
  end.

(** [s.split(sep)] for a one-character separator. *)
Fixpoint split (sep : ascii) (s : string) : list string :=
  match s with
  | EmptyString => [EmptyString]
  | String c s' =>
      if Ascii.eqb c sep then EmptyString :: split sep s'
      else match split sep s' with
           | w :: ws => String c w :: ws
           | [] => [String c EmptyString]
           end
  end.

(** ** Query sets

    A query set is the list of the rows it yields.  [order_by] is a stable
    sort on the ordering key. *)

Section Sort.
Context {A K : Type} (leb : K -> K -> bool) (key : A -> K).

Fixpoint insert_sorted (x : A) (l : list A) : list A :=
  match l with
  | [] => [x]
  | y :: l' => if leb (key x) (key y) then x :: l else y :: insert_sorted x l'
  end.

Definition sort_by (l : list A) : list A := foldr insert_sorted [] l.
End Sort.

(** A value of an SQL expression: [None] is NULL, which every arithmetic
    operator propagates.  The database computes on exact numerics. *)
Definition sql : Type := option decimal.

Definition sql_mul (a b : sql) : sql :=
  match a, b with
  | Some x, Some y => Some (Decimal.mul_exact x y)
  | _, _ => None
  end.

Definition sql_sub (a b : sql) : sql :=
  match a, b with
  | Some x, Some y => Some (Decimal.add_exact x (Decimal.neg y))
  | _, _ => None
  end.

Definition Coalesce (a : sql) (d : decimal) : sql :=
  match a with Some x => Some x | None => Some d end.

(** The ascending order of a nullable key.  Where NULL sorts depends on the
    database: [nulls_low] holds when it sorts below every value (SQLite,
    MySQL) and fails when it sorts above (PostgreSQL, Oracle). *)
Definition sql_leb (nulls_low : bool) (a b : sql) : bool :=
  match a, b with
  | None, None => true
  | None, Some _ => nulls_low
  | Some _, None => negb nulls_low
  | Some x, Some y => Decimal.leb x y
  end.

(** [(F("quantity") * Coalesce(F("stock__current_price"), Decimal(0)))
     - (F("quantity") * F("buying_price"))] *)
Definition profit_pl (t : Trade.t) : sql :=
  sql_sub
    (sql_mul (Some (Decimal.of_int (Trade.quantity t)))
             (Coalesce (Stock.current_price (Trade.stock t)) (Decimal.of_int 0)))
    (sql_mul (Some (Decimal.of_int (Trade.quantity t))) (Some (Trade.buying_price t))).

(** [(F("quantity") * F("stock__current_price"))
     - (F("quantity") * F("buying_price"))] *)
Definition loss_pl (t : Trade.t) : sql :=
  sql_sub
    (sql_mul (Some (Decimal.of_int (Trade.quantity t))) (Stock.current_price (Trade.stock t)))
    (sql_mul (Some (Decimal.of_int (Trade.quantity t))) (Some (Trade.buying_price t))).

(** [trades.annotate(pl=expr)]: every row with its value of [pl]. *)
Definition annotate (expr : Trade.t -> sql) (trades : list Trade.t)
  : list (Trade.t * sql) :=
  map (fun t => (t, expr t)) trades.

(** [annotated.order_by(arg)], for the one name the annotated query set
    is ordered by: ["pl"] ascending, ["-pl"] descending. *)
Definition order_by_pl (nulls_low : bool) (arg : pyval)
    (rows : list (Trade.t * sql)) : result (list Trade.t) :=
  match arg with
  | PStr "pl" => Ok (map fst (sort_by (sql_leb nulls_low) snd rows))
  | PStr "-pl" =>
      Ok (map fst (sort_by (fun a b => sql_leb nulls_low b a) snd rows))
  | _ => Raise (Exn FieldError "Cannot resolve keyword into field")
  end.

(** ** portfolio_dashboard *)

Record DashboardContext : Type := {
  holdings : list Trade.t;
  ctx_total_cost : num;
  ctx_total_value : num;
  ctx_unrealized_pl : num;
  ctx_pl_percentage : num;
  active_trades : nat;
  user_name : string;
  ctx_sort_by : string;
  ctx_stock_filter : string
}.

(** [x / y] between the numbers of the totals. *)
Definition num_div (x y : num) : result decimal :=
  match x, y with
  | Int0, Int0 => Raise (Exn ZeroDivisionError "division by zero")
  | _, _ => Decimal.div (num_dec x) (num_dec y)
  end.

Section Dashboard.

Variable nulls_low : bool.

(** The rows of the [Trade] table, each with its [stock] joined. *)
Variable Trade_objects : list Trade.t.

Definition sorted_trades (sort_by_ : string) (trades : list Trade.t)
  : result (list Trade.t) :=
  if String.eqb sort_by_ "symbol" then
    Ok (sort_by String.leb (fun t => Stock.symbol (Trade.stock t)) trades)
  else if String.eqb sort_by_ "date" then
    Ok (sort_by Z.geb Trade.buy_date trades)
  else if String.eqb sort_by_ "profit" then
    (let annotated := annotate profit_pl trades in
     let? arg := py_neg (PStr "pl") in
     order_by_pl nulls_low arg annotated)%result
  else if String.eqb sort_by_ "loss" then
    order_by_pl nulls_low (PStr "pl") (annotate loss_pl trades)
  else Ok trades.

Definition total_cost_of (trades : list Trade.t) : num :=
  py_sum (map (fun t => Decimal.mul (Decimal.of_int (Trade.quantity t))
                                    (Trade.buying_price t)) trades).

Definition total_value_of (trades : list Trade.t) : num :=
  py_sum (omap (fun t =>
                  match if_set (Stock.current_price (Trade.stock t)) with
                  | Some p => Some (Decimal.mul (Decimal.of_int (Trade.quantity t)) p)
                  | None => None
                  end) trades).

Definition pl_percentage_of (total_unrealized_pl total_cost : num)
  : result num :=
  if num_truthy total_cost then
    (let? r := num_div total_unrealized_pl total_cost in
     let? p := Decimal.round (Decimal.mul r (Decimal.of_int 100)) 2 in
     Ok (Dec p))%result
  else Ok Int0.

Definition portfolio_dashboard (request : Request)
  : result (HttpResponse DashboardContext) :=
  match req_user request with
  | None => Ok RedirectToLogin
  | Some u =>
      let trades := filter (fun t => Trade.user t = u) Trade_objects in
      (* filter *)
      let stock_filter := strip (GET_get request "stock" "") in
      let trades :=
        if negb (String.eqb stock_filter "") then
          filter (fun t => upper (Stock.symbol (Trade.stock t)) = upper stock_filter) trades
        else trades in
      (* sort *)
      let sort_by_ := GET_get request "sort" "symbol" in
      (let? trades := sorted_trades sort_by_ trades in
       (* totals *)
       let total_cost := total_cost_of trades in
       let total_value := total_value_of trades in
       let total_unrealized_pl := num_sub total_value total_cost in
       let? pl_percentage := pl_percentage_of total_unrealized_pl total_cost in
       Ok (Render "App/portfolio/dashboard.html"
             {| holdings := trades;
                ctx_total_cost := total_cost;
                ctx_total_value := total_value;
                ctx_unrealized_pl := total_unrealized_pl;
                ctx_pl_percentage := pl_percentage;
                active_trades := length trades;
                user_name := username u;
                ctx_sort_by := sort_by_;
                ctx_stock_filter := stock_filter |}))%result
  end.

End Dashboard.

(** ** refresh_stock_prices_api *)

(** One record of the ["stocks"] list of the answer; [None] is JSON
    [null]. *)
Record StockEntry : Type := {
  e_id : Z;
  e_symbol : string;
  e_current_price : option spec_float;
  e_change : option spec_float;
  e_change_percent : option spec_float;
  e_volume : option Z;
  e_high : option spec_float;
  e_low : option spec_float
}.

Record ErrorEntry : Type := { err_symbol : string; err_error : string }.

Inductive RefreshJson : Type :=
| JError (error : string)
| JRefreshed (success : bool) (updated : nat)
             (stocks : list StockEntry) (errors : list ErrorEntry).

(** A [Stock] instance after the six quote attributes were assigned: an
    attribute holds whatever was assigned to it, here the values of the
    quote, until the row is written. *)
Record StockInstance : Type := {
  pk : Z;
  loaded : Stock.t;
  a_current_price : pyval;
  a_change : pyval;
  a_change_percent : pyval;
  a_volume : pyval;
  a_high : pyval;
  a_low : pyval
}.

(** [stock.x = market_data.get(x)] for the six attributes. *)
Definition assign_quote (k : Z) (stock : Stock.t) (market_data : Quote)
  : StockInstance :=
  {| pk := k; loaded := stock;
     a_current_price := q_price market_data;
     a_change := q_change market_data;
     a_change_percent := q_change_percent market_data;
     a_volume := q_volume market_data;
     a_high := q_high market_data;
     a_low := q_low market_data |}.

(** What the loop carries: the [Stock] table and the two lists. *)
Record RefreshState : Type := {
  table : gmap Z Stock.t;
  updated_stocks : list StockEntry;
  errors : list ErrorEntry
}.

Definition append_error (st : RefreshState) (sym msg : string) : RefreshState :=
  {| table := table st;
     updated_stocks := updated_stocks st;
     errors := errors st ++ [ {| err_symbol := sym; err_error := msg |} ] |}.

Definition append_updated (st : RefreshState) (e : StockEntry) : RefreshState :=
  {| table := table st;
     updated_stocks := updated_stocks st ++ [e];
     errors := errors st |}.

Definition write_row (st : RefreshState) (k : Z) (row : Stock.t) : RefreshState :=
  {| table := <[k := row]> (table st);
     updated_stocks := updated_stocks st;
     errors := errors st |}.

Section Refresh.

Variable COMPANY_NAMES : gmap string string.
Variable requests_get : string -> list (string * string) -> Z -> result Response.

(** The built-ins [float(v)] and [int(v)]. *)
Variable py_float : pyval -> result spec_float.
Variable py_int : pyval -> result Z.

(** [stock.save()]: the row the ORM writes for the instance, or the
    exception of a value it cannot store. *)
Variable Stock_save : StockInstance -> result Stock.t.

(** [float(v) if v else None] and [int(v) if v else None]. *)
Definition float_or_none (v : pyval) : result (option spec_float) :=
  if truthy v then (let? f := py_float v in Ok (Some f))%result else Ok None.

Definition int_or_none (v : pyval) : result (option Z) :=
  if truthy v then (let? n := py_int v in Ok (Some n))%result else Ok None.

Definition stock_entry (stock : StockInstance) : result StockEntry :=
  (let? current_price := float_or_none (a_current_price stock) in
   let? change := float_or_none (a_change stock) in
   let? change_percent := float_or_none (a_change_percent stock) in
   let? volume := int_or_none (a_volume stock) in
   let? high := float_or_none (a_high stock) in
   let? low := float_or_none (a_low stock) in
   Ok {| e_id := pk stock;
         e_symbol := Stock.symbol (loaded stock);
         e_current_price := current_price;
         e_change := change;
         e_change_percent := change_percent;
         e_volume := volume;
         e_high := high;
         e_low := low |})%result.

(** The body of the loop for one stock, with its [try] and
    [except Exception]: what the body did before an exception stays
    done. *)
Definition refresh_one (st : RefreshState) (item : Z * Stock.t) : RefreshState :=
  let '(k, stock) := item in
  match fetch_stock_from_psx COMPANY_NAMES requests_get (Stock.symbol stock) with
  | Raise e => append_error st (Stock.symbol stock) (exn_msg e)
  | Ok None => append_error st (Stock.symbol stock) "No data available from API"
  | Ok (Some market_data) =>
      if is_none (q_price market_data)
      then append_error st (Stock.symbol stock) "No data available from API"
      else
        let stock' := assign_quote k stock market_data in
        match Stock_save stock' with
        | Raise e => append_error st (Stock.symbol stock) (exn_msg e)
        | Ok row =>
            let st := write_row st k row in
            match stock_entry stock' with
            | Raise e => append_error st (Stock.symbol stock) (exn_msg e)
            | Ok entry => append_updated st entry
            end
        end
  end.

Definition refresh_loop (db : gmap Z Stock.t) (stocks_to_refresh : list (Z * Stock.t))
  : RefreshState :=
  fold_left refresh_one stocks_to_refresh
    {| table := db; updated_stocks := []; errors := [] |}.

(** [[int(id.strip()) for id in stock_ids.split(",") if id.strip()]] *)
Fixpoint id_list_of (parts : list string) : result (list Z) :=
  match parts with
  | [] => Ok []
  | id :: rest =>
      if negb (String.eqb (strip id) "") then
        (let? n := py_int (PStr (strip id)) in
         let? ns := id_list_of rest in
         Ok (n :: ns))%result
      else id_list_of rest
  end.

(** [[s.strip().upper() for s in symbols.split(",") if s.strip()]] *)
Definition symbol_list_of (parts : list string) : list string :=
  map (fun s => upper (strip s))
      (filter (fun s => strip s <> EmptyString) parts).

(** The selection of the request: the rows to refresh, or the answer that
    rejects the request. *)
Definition select_stocks (request : Request) (db : gmap Z Stock.t)
  : result (HttpResponse RefreshJson + list (Z * Stock.t)) :=
  let stock_ids := strip (GET_get request "ids" "") in
  let symbols := strip (GET_get request "symbols" "") in
  let refresh_all := String.eqb (lower (GET_get request "all" "")) "true" in
  if refresh_all then Ok (inr (map_to_list db))
  else if negb (String.eqb stock_ids "") then
    match id_list_of (split "," stock_ids) with
    | Ok id_list =>
        Ok (inr (filter (fun item => item.1 ∈ id_list) (map_to_list db)))
    | Raise e =>
        if decide (exn_cls e = ValueError)
        then Ok (inl (JsonResponse 400 (JError "Invalid stock IDs format")))
        else Raise e
    end
  else if negb (String.eqb symbols "") then
    let symbol_list := symbol_list_of (split "," symbols) in
    Ok (inr (filter (fun item => Stock.symbol item.2 ∈ symbol_list)
                    (map_to_list db)))
  else
    Ok (inl (JsonResponse 400
      (JError "Please provide 'ids', 'symbols', or 'all=true' parameter"))).

Definition refresh_stock_prices_api (request : Request) (db : gmap Z Stock.t)
  : result (HttpResponse RefreshJson) * gmap Z Stock.t :=
  match req_user request with
  | None => (Ok RedirectToLogin, db)
  | Some _ =>
      if negb (String.eqb (method request) "GET") then
        (Ok (JsonResponse 405 (JError "Method not allowed")), db)
      else
        match select_stocks request db with
        | Raise e => (Raise e, db)
        | Ok (inl response) => (Ok response, db)
        | Ok (inr stocks_to_refresh) =>
            match stocks_to_refresh with
            | [] => (Ok (JsonResponse 404 (JError "No stocks found")), db)
            | _ =>
                let st := refresh_loop db stocks_to_refresh in
                (Ok (JsonResponse 200
                       (JRefreshed true (length (updated_stocks st))
                                   (updated_stocks st) (errors st))),
                 table st)
            end
        end
  end.

End Refresh.

End Views.

(* ===================================================================== *)
(** * The write of a Stock row *)
(* ===================================================================== *)

(** What [stock.save()] stores for the attributes of an instance, as Django
    prepares them: a [DecimalField(max_digits, decimal_places=2)] converts
    the value to a [Decimal] ([to_python]) and rounds it to two places in a
    context of [max_digits] digits ([format_number]); a [BigIntegerField]
    applies [int].  This is the value the SQLite, MySQL and Oracle back ends
    store; PostgreSQL receives the unrounded [Decimal] and rounds a tie away
    from zero instead of half to even. *)
Module Orm.
Import Views.

(** [Decimal._fix] in a context of precision [p]. *)
Definition fix_at (p : Z) (d : decimal) : decimal :=
  let a := Z.abs (Decimal.coef d) in
  let n := Decimal.ndigits a in
  if a =? 0 then d
  else if n >? p then
    let k := n - p in
    let c1 := Decimal.round_half_even a k in
    if Decimal.ndigits c1 >? p
    then Decimal.mk (Z.sgn (Decimal.coef d) * (c1 / 10)) (Decimal.dexp d + k + 1)
    else Decimal.mk (Z.sgn (Decimal.coef d) * c1) (Decimal.dexp d + k)
  else d.

(** [a.quantize(Decimal((0, (1,), e)), context=Context(prec=p))]; [None]
    when it raises [InvalidOperation]. *)
Definition quantize_at (p : Z) (a : decimal) (e : Z) : option decimal :=
  if Decimal.coef a =? 0 then Some (fix_at p (Decimal.mk 0 e))
  else if Decimal.adjusted a - e + 1 >? p then None
  else
    let ans := Decimal.rescale a e in
    if Decimal.ndigits (Z.abs (Decimal.coef ans)) >? p then None
    else Some (fix_at p ans).

(** [Decimal.from_float(f)]: the exact value of a finite float,
    [m * 2 ^ e = m * 5 ^ (- e) * 10 ^ e] for a negative [e].  Python writes
    it on the lowest terms of [m * 2 ^ e]; the value is the same. *)
Definition of_float (f : spec_float) : option decimal :=
  match f with
  | S754_zero _ => Some (Decimal.mk 0 0)
  | S754_finite s m e =>
      let c := if s then Z.neg m else Z.pos m in
      Some (if 0 <=? e then Decimal.mk (c * 2 ^ e) 0
            else Decimal.mk (c * 5 ^ (- e)) e)
  | S754_infinity _ => None
  | S754_nan => None
  end.

Section Columns.

(** The built-in [int(v)], and [decimal.Decimal(v)] for a text or a list
    ([None] when the constructor raises, or gives a value that is not
    finite). *)
Variable py_int : pyval -> result Z.
Variable py_Decimal : pyval -> option decimal.

(** [DecimalField.to_python(v)]; the outer [None] is its
    [ValidationError]. *)
Definition to_python (max_digits : Z) (v : pyval) : option (option decimal) :=
  match v with
  | PNone => Some None
  | PFloat f =>
      match of_float f with
      | Some d => Some (Some (fix_at max_digits d))
      | None => None
      end
  | PInt z => Some (Some (Decimal.of_int z))
  | PBool b => Some (Some (Decimal.of_int (if b then 1 else 0)))
  | PDec d => Some (Some d)
  | PStr _ | PList _ =>
      match py_Decimal v with
      | Some d => Some (Some d)
      | None => None
      end
  | PDict _ => None
  end.

(** The value a [DecimalField(max_digits, 2)] stores for [v]; the outer
    [None] when the field rejects it. *)
Definition decimal_column (max_digits : Z) (v : pyval) : option (option decimal) :=
  match to_python max_digits v with
  | Some (Some d) =>
      match quantize_at max_digits d (-2) with
      | Some q => Some (Some q)
      | None => None
      end
  | Some None => Some None
  | None => None
  end.

(** The value a [BigIntegerField] stores for [v]. *)
Definition integer_column (v : pyval) : option (option Z) :=
  match v with
  | PNone => Some None
  | _ =>
      match py_int v with
      | Ok n => Some (Some n)
      | Raise _ => None
      end
  end.

(** The row stored for an instance: the six attributes the refresh assigns,
    each by its column, and the other columns as they were loaded. *)
Definition stored_row (stock : StockInstance) : option Stock.t :=
  let row := loaded stock in
  match decimal_column 10 (a_current_price stock),
        decimal_column 10 (a_change stock),
        decimal_column 6 (a_change_percent stock),
        integer_column (a_volume stock),
        decimal_column 10 (a_low stock),
        decimal_column 10 (a_high stock) with
  | Some current_price, Some change, Some change_percent,
    Some volume, Some low, Some high =>
      Some {| Stock.symbol := Stock.symbol row; Stock.name := Stock.name row;
              Stock.current_price := current_price;
              Stock.change := change;
              Stock.change_percent := change_percent;
              Stock.volume := volume;
              Stock.tp1 := Stock.tp1 row; Stock.tp2 := Stock.tp2 row;
              Stock.tp3 := Stock.tp3 row;
              Stock.sl1 := Stock.sl1 row; Stock.sl2 := Stock.sl2 row;
              Stock.sl3 := Stock.sl3 row;
              Stock.rsi := Stock.rsi row;
              Stock.ltp1 := Stock.ltp1 row; Stock.ltp2 := Stock.ltp2 row;
              Stock.ltp3 := Stock.ltp3 row;
              Stock.low := low;
              Stock.high := high;
              Stock.created_at := Stock.created_at row |}
  | _, _, _, _, _, _ => None
  end.

(** A write with a database that accepts every row: it stores the row, and
    raises when a field rejects its value. *)
Definition Stock_save (stock : StockInstance) : result Stock.t :=
  match stored_row stock with
  | Some row => Ok row
  | None => Raise (Exn ValidationError "value rejected by its field")
  end.

End Columns.

End Orm.

(* ===================================================================== *)
(** * What the properties are stated with *)
(* ===================================================================== *)

(** The formulas of the specification, the values the database stores, the
    totals of a list of holdings, the outcome of one stock in a batch, and
    the sample data of the worked examples. *)

(** A value as a [DecimalField(max_digits=10, decimal_places=2)] column
    returns it. *)
Definition column (d : decimal) : Prop :=
  Decimal.dexp d = -2 /\ Z.abs (Decimal.coef d) < 10 ^ 10.

(** Section 4.1 of the specification gives each derived field as a formula
    of the inputs (quantity, buying price, target, stop, current price).
    They are written down here from its words; [TradeFacts.save_run] below
    compares [Trade.save] with them. *)
Module Valuation.
Section Formulas.
Variable t : Trade.t.

Definition profit_expected_of : option decimal :=
  match if_set (Trade.mtp t) with
  | Some m => Some (Decimal.mul (Decimal.sub m (Trade.buying_price t))
                                (Decimal.of_int (Trade.quantity t)))
  | None => None
  end.

Definition profit_percent_of : result (option decimal) :=
  match if_set (Trade.mtp t), if_set (Some (Trade.buying_price t)) with
  | Some m, Some b =>
      (let? r := Decimal.div (Decimal.sub m b) b in
       let? p := Decimal.round (Decimal.mul r (Decimal.of_int 100)) 2 in
       Ok (Some p))%result
  | _, _ => Ok None
  end.

Definition loss_expected_of : option decimal :=
  match if_set (Trade.msl t) with
  | Some s => Some (Decimal.mul (Decimal.sub (Trade.buying_price t) s)
                                (Decimal.of_int (Trade.quantity t)))
  | None => None
  end.

Definition pl_ratio_of : result (option decimal) :=
  match if_set (Trade.mtp t), if_set (Trade.msl t),
        if_set (Some (Trade.buying_price t)) with
  | Some m, Some s, Some b =>
      if Decimal.gtb (Decimal.sub b s) (Decimal.of_int 0) then
        (let? r := Decimal.div (Decimal.sub m b) (Decimal.sub b s) in
         let? p := Decimal.round r 2 in
         Ok (Some p))%result
      else Ok None
  | _, _, _ => Ok None
  end.

Definition rate_difference_of : option decimal :=
  match if_set (Trade.current_price t) with
  | Some p => Some (Decimal.sub p (Trade.buying_price t))
  | None => None
  end.

Definition loss_recent_of : option decimal :=
  match if_set (Trade.msl t), if_set (Trade.current_price t) with
  | Some _, Some p =>
      if Decimal.ltb p (Trade.buying_price t)
      then Some (Decimal.mul (Decimal.sub (Trade.buying_price t) p)
                             (Decimal.of_int (Trade.quantity t)))
      else None
  | _, _ => None
  end.

End Formulas.
End Valuation.

Module TradeDefs.

(** The formulas read the inputs only. *)
Definition same_inputs (t t' : Trade.t) : Prop :=
  Trade.stock t' = Trade.stock t /\ Trade.quantity t' = Trade.quantity t /\
  Trade.buying_price t' = Trade.buying_price t /\
  Trade.mtp t' = Trade.mtp t /\ Trade.msl t' = Trade.msl t.

(** The six derived fields. *)
Definition derived_fields (t : Trade.t) :=
  (Trade.profit_expected t, Trade.profit_percent t, Trade.loss_expected t,
   Trade.pl_ratio t, Trade.rate_difference t, Trade.loss_recent t).

Definition demo_user : User := {| user_id := 1; username := "trader" |}.

Definition demo_stock (sym : string) (price : option decimal) : Stock.t :=
  {| Stock.symbol := sym; Stock.name := sym;
     Stock.current_price := price; Stock.change := None;
     Stock.change_percent := None; Stock.volume := None;
     Stock.tp1 := None; Stock.tp2 := None; Stock.tp3 := None;
     Stock.sl1 := None; Stock.sl2 := None; Stock.sl3 := None;
     Stock.rsi := None;
     Stock.ltp1 := None; Stock.ltp2 := None; Stock.ltp3 := None;
     Stock.low := None; Stock.high := None; Stock.created_at := 0 |}.

(** A position as the form hands it to [save]: the inputs set, nothing
    derived yet. *)
Definition demo_trade (sym : string) (q : Z) (bp : decimal)
    (target stop price : option decimal) : Trade.t :=
  {| Trade.user := demo_user; Trade.stock := demo_stock sym price;
     Trade.quantity := q; Trade.buying_price := bp; Trade.buy_date := 738000;
     Trade.mtp := target; Trade.msl := stop;
     Trade.profit_expected := None; Trade.profit_percent := None;
     Trade.loss_expected := None; Trade.loss_recent := None;
     Trade.pl_ratio := None; Trade.rate_difference := None;
     Trade.comments := ""; Trade.max_profit := None;
     Trade.min_profit_loss := None; Trade.created_at := 0 |}.

(** What the statements of [save] before the ORM call may change: the six
    derived fields and nothing else. *)
Definition only_derived_changed (t t1 : Trade.t) : Prop :=
  Trade.user t1 = Trade.user t /\ Trade.stock t1 = Trade.stock t /\
  Trade.quantity t1 = Trade.quantity t /\
  Trade.buying_price t1 = Trade.buying_price t /\
  Trade.buy_date t1 = Trade.buy_date t /\
  Trade.mtp t1 = Trade.mtp t /\ Trade.msl t1 = Trade.msl t /\
  Trade.comments t1 = Trade.comments t /\
  Trade.max_profit t1 = Trade.max_profit t /\
  Trade.min_profit_loss t1 = Trade.min_profit_loss t /\
  Trade.created_at t1 = Trade.created_at t.

(** The inputs as the form or the database hands them over: two-decimal
    values of at most ten digits. *)
Definition stored_inputs (t : Trade.t) : Prop :=
  column (Trade.buying_price t) /\
  (forall m, Trade.mtp t = Some m -> column m) /\
  (forall s, Trade.msl t = Some s -> column s).

End TradeDefs.

Module ServicesDefs.
Import Services.

(** A provider that answers every request with status 200 and the JSON
    array [[]]. *)
Definition array_provider : string -> list (string * string) -> Z -> result Response :=
  fun _ _ _ => Ok {| status_code := 200; content := Json (PList []) |}.

(** A provider that answers with a JSON object whose ["data"] is a list. *)
Definition list_data_provider : string -> list (string * string) -> Z -> result Response :=
  fun _ _ _ =>
    Ok {| status_code := 200;
          content := Json (PDict [("success", PBool true);
                                  ("data", PList [PInt 1])]) |}.

End ServicesDefs.

Module DashboardDefs.
Import Views.

(** A request of a logged-in user for the dashboard. *)
Definition dashboard_request (u : User) (sort : string) : Request :=
  {| req_user := Some u; method := "GET"; GET := {[ "sort" := sort ]} |}.

(** The ranking term of the specification: quantity x (current price, or 0
    when absent) - quantity x buying price. *)
Definition ranking_term (t : Trade.t) : decimal :=
  let price := default (Decimal.of_int 0) (Stock.current_price (Trade.stock t)) in
  Decimal.add_exact
    (Decimal.mul_exact (Decimal.of_int (Trade.quantity t)) price)
    (Decimal.neg (Decimal.mul_exact (Decimal.of_int (Trade.quantity t))
                                    (Trade.buying_price t))).

(** Each element is at most the next one. *)
Fixpoint ascending {A} (leb : A -> A -> bool) (l : list A) : bool :=
  match l with
  | x :: (y :: _) as l' => leb x y && ascending leb l'
  | _ => true
  end.

(** Three holdings of one share each: AAA bought at 10.00 and not quoted,
    BBB bought at 100.00 and quoted at 50.00, CCC bought at 10.00 and quoted
    at 15.00.  Their ranking terms are -10.00, -50.00 and 5.00. *)
Definition three_holdings : list Trade.t :=
  [TradeDefs.demo_trade "AAA" 1 (Decimal.cents 1000) None None None;
   TradeDefs.demo_trade "BBB" 1 (Decimal.cents 10000) None None
     (Some (Decimal.cents 5000));
   TradeDefs.demo_trade "CCC" 1 (Decimal.cents 1000) None None
     (Some (Decimal.cents 1500))].

Definition symbols_of (response : result (HttpResponse DashboardContext))
  : list string :=
  match response with
  | Ok (Render _ ctx) => map (fun t => Stock.symbol (Trade.stock t)) (holdings ctx)
  | _ => []
  end.

Definition ranks_of (response : result (HttpResponse DashboardContext))
  : list decimal :=
  match response with
  | Ok (Render _ ctx) => map ranking_term (holdings ctx)
  | _ => []
  end.

(** The totals of the specification, in hundredths: the cost over all
    holdings, the value over the holdings whose stock has a price. *)
Fixpoint cost_cents (trades : list Trade.t) : Z :=
  match trades with
  | [] => 0
  | t :: rest =>
      Trade.quantity t * Decimal.coef (Trade.buying_price t) + cost_cents rest
  end.

Fixpoint value_cents (trades : list Trade.t) : Z :=
  match trades with
  | [] => 0
  | t :: rest =>
      match Stock.current_price (Trade.stock t) with
      | Some p => Trade.quantity t * Decimal.coef p + value_cents rest
      | None => value_cents rest
      end
  end.

(** [x] is the amount of [c] hundredths: the decimal [c / 100] on two
    places, or the int [0] of an empty sum. *)
Definition is_amount (x : num) (c : Z) : Prop :=
  (x = Int0 /\ c = 0) \/ x = Dec (Decimal.cents c).

(** A holding as the database returns it: a [PositiveIntegerField] quantity
    and two-decimal prices. *)
Definition stored_trade (t : Trade.t) : Prop :=
  0 <= Trade.quantity t < 2 ^ 31 /\
  column (Trade.buying_price t) /\
  forall p, Stock.current_price (Trade.stock t) = Some p -> column p.

Fixpoint zsum (xs : list Z) : Z :=
  match xs with [] => 0 | x :: rest => x + zsum rest end.

Fixpoint abs_sum (xs : list Z) : Z :=
  match xs with [] => 0 | x :: rest => Z.abs x + abs_sum rest end.

(** A stored holding costs, and is worth, less than [2^31 * 10^10]
    hundredths. *)
Definition holding_bound : Z := 2 ^ 31 * 10 ^ 10.

Definition cost_terms (trades : list Trade.t) : list Z :=
  map (fun t => Trade.quantity t * Decimal.coef (Trade.buying_price t)) trades.

Definition value_terms (trades : list Trade.t) : list Z :=
  omap (fun t =>
          match if_set (Stock.current_price (Trade.stock t)) with
          | Some p => Some (Trade.quantity t * Decimal.coef p)
          | None => None
          end) trades.

(** The holdings of the report: the trades of the user, on the stock of
    the filter when there is one. *)
Definition filtered_holdings (Trade_objects : list Trade.t) (u : User)
    (request : Request) : list Trade.t :=
  let trades := filter (fun t => Trade.user t = u) Trade_objects in
  let stock_filter := strip (GET_get request "stock" "") in
  if negb (String.eqb stock_filter "") then
    filter (fun t => upper (Stock.symbol (Trade.stock t)) = upper stock_filter)
           trades
  else trades.

(** The example of the specification: two holdings, one quoted and one
    not.  10 shares bought at 100.00 and quoted at 110.00, 5 shares bought
    at 20.00 and not quoted: cost 1100.00, value 1100.00. *)
Definition two_holdings : list Trade.t :=
  [TradeDefs.demo_trade "PSO" 10 (Decimal.cents 10000) None None
     (Some (Decimal.cents 11000));
   TradeDefs.demo_trade "LUCK" 5 (Decimal.cents 2000) None None None].

Definition two_holdings_context : DashboardContext :=
  {| holdings := [TradeDefs.demo_trade "LUCK" 5 (Decimal.cents 2000) None None None;
                  TradeDefs.demo_trade "PSO" 10 (Decimal.cents 10000) None None
                    (Some (Decimal.cents 11000))];
     ctx_total_cost := Dec (Decimal.cents 110000);
     ctx_total_value := Dec (Decimal.cents 110000);
     ctx_unrealized_pl := Dec (Decimal.cents 0);
     ctx_pl_percentage := Dec (Decimal.cents 0);
     active_trades := 2;
     user_name := "trader";
     ctx_sort_by := "symbol";
     ctx_stock_filter := "" |}.

End DashboardDefs.

Module RefreshDefs.
Import Services Views.

(** What happens to one stock of the selection, by itself: it is fetched,
    written and listed, or it fails with a reason, after its row was
    written or before. *)
Inductive item_outcome : Type :=
| Refreshed (row : Stock.t) (entry : StockEntry)
| Failed (written : option Stock.t) (reason : string).

Definition written_of (o : item_outcome) : option Stock.t :=
  match o with Refreshed row _ => Some row | Failed written _ => written end.

Definition entry_of (o : item_outcome) : option StockEntry :=
  match o with Refreshed _ entry => Some entry | Failed _ _ => None end.

Definition error_of (sym : string) (o : item_outcome) : option ErrorEntry :=
  match o with
  | Refreshed _ _ => None
  | Failed _ reason => Some {| err_symbol := sym; err_error := reason |}
  end.

Section Outcome.
Variable COMPANY_NAMES : gmap string string.
Variable requests_get : string -> list (string * string) -> Z -> result Response.
Variable py_float : pyval -> result spec_float.
Variable py_int : pyval -> result Z.
Variable Stock_save : StockInstance -> result Stock.t.

Definition outcome_of (item : Z * Stock.t) : item_outcome :=
  match fetch_stock_from_psx COMPANY_NAMES requests_get (Stock.symbol item.2) with
  | Raise e => Failed None (exn_msg e)
  | Ok None => Failed None "No data available from API"
  | Ok (Some market_data) =>
      if is_none (q_price market_data)
      then Failed None "No data available from API"
      else
        match Stock_save (assign_quote item.1 item.2 market_data) with
        | Raise e => Failed None (exn_msg e)
        | Ok row =>
            match stock_entry py_float py_int (assign_quote item.1 item.2 market_data) with
            | Raise e => Failed (Some row) (exn_msg e)
            | Ok entry => Refreshed row entry
            end
        end
  end.

Definition write_outcome (tb : gmap Z Stock.t) (item : Z * Stock.t)
  : gmap Z Stock.t :=
  match written_of (outcome_of item) with
  | Some row => <[item.1 := row]> tb
  | None => tb
  end.

(** What a record reports for a value of the quote: null for a value that
    is false in a condition ([None], a zero, an empty text), and its [float]
    (its [int], for the volume) otherwise. *)
Definition reported_float (v : pyval) (field : option spec_float) : Prop :=
  if truthy v then exists f, py_float v = Ok f /\ field = Some f
  else field = None.

Definition reported_int (v : pyval) (field : option Z) : Prop :=
  if truthy v then exists n, py_int v = Ok n /\ field = Some n
  else field = None.

(** [entry] is the record of the stock of key [k] and row [s] for the quote
    [market_data]. *)
Definition entry_for (k : Z) (s : Stock.t) (market_data : Quote)
    (entry : StockEntry) : Prop :=
  e_id entry = k /\
  e_symbol entry = Stock.symbol s /\
  reported_float (q_price market_data) (e_current_price entry) /\
  reported_float (q_change market_data) (e_change entry) /\
  reported_float (q_change_percent market_data) (e_change_percent entry) /\
  reported_int (q_volume market_data) (e_volume entry) /\
  reported_float (q_high market_data) (e_high entry) /\
  reported_float (q_low market_data) (e_low entry).

(** Building the record for the quote raised [e]: the [float] or the [int]
    of one of its values did. *)
Definition conversion_raised (market_data : Quote) (e : exn) : Prop :=
  (exists v,
     v ∈ [q_price market_data; q_change market_data;
          q_change_percent market_data; q_high market_data;
          q_low market_data] /\
     truthy v = true /\ py_float v = Raise e) \/
  (truthy (q_volume market_data) = true /\
   py_int (q_volume market_data) = Raise e).

End Outcome.

(** [float] and [int] on the numbers of a quote. *)
Definition demo_float (v : pyval) : result spec_float :=
  match v with
  | PFloat f => Ok f
  | PInt z => Ok (binary_normalize 53 1024 z 0 false)
  | PBool b => Ok (binary_normalize 53 1024 (if b then 1 else 0) 0 false)
  | _ => Raise (Exn TypeError "float() argument must be a string or a real number")
  end.

Definition demo_int (v : pyval) : result Z :=
  match v with
  | PInt z => Ok z
  | PBool b => Ok (if b then 1 else 0)
  | _ => Raise (Exn ValueError "invalid literal for int() with base 10")
  end.

(** [Decimal(s)] on a plain numeral: an optional sign, digits, and an
    optional point with digits.  Text of another form (an exponent,
    [Infinity], [NaN]) and lists are not read here; no quote below holds
    one. *)
Fixpoint digits_of (s : string) (acc : Z) : option Z :=
  match s with
  | EmptyString => Some acc
  | String c s' =>
      let n := nat_of_ascii c in
      if (Nat.leb 48 n && Nat.leb n 57)%bool
      then digits_of s' (10 * acc + Z.of_nat (n - 48))
      else None
  end.

Fixpoint split_point (s : string) : string * option string :=
  match s with
  | EmptyString => (EmptyString, None)
  | String c s' =>
      if Ascii.eqb c "."
      then (EmptyString, Some s')
      else let '(whole, fraction) := split_point s' in (String c whole, fraction)
  end.

Definition numeral (s : string) : option decimal :=
  let '(whole, fraction) := split_point s in
  let fraction := default EmptyString fraction in
  if (String.length whole + String.length fraction =? 0)%nat then None
  else
    match digits_of (whole ++ fraction)%string 0 with
    | Some c => Some (Decimal.mk c (- Z.of_nat (String.length fraction)))
    | None => None
    end.

Definition demo_Decimal (v : pyval) : option decimal :=
  match v with
  | PStr s =>
      match strip s with
      | String "-" digits => Decimal.neg <$> numeral digits
      | String "+" digits => numeral digits
      | digits => numeral digits
      end
  | _ => None
  end.

(** The write of the examples: every row is accepted and stored as its
    columns convert it. *)
Definition demo_save : StockInstance -> result Stock.t :=
  Orm.Stock_save demo_int demo_Decimal.

(** The float [2 ^ -8 = 0.00390625]. *)
Definition small_percent : spec_float :=
  S754_finite false 4503599627370496 (-60).

Definition demo_quote (price change : Z) (change_percent : spec_float)
    (volume high low : Z) : Response :=
  {| status_code := 200;
     content := Json (PDict [("success", PBool true);
                             ("data", PDict [("price", PInt price);
                                             ("change", PInt change);
                                             ("changePercent", PFloat change_percent);
                                             ("volume", PInt volume);
                                             ("high", PInt high);
                                             ("low", PInt low)])]) |}.

(** The provider quotes PSO, with no change and a change of 0.00390625 per
    cent, and LUCK, and answers 404 for the rest. *)
Definition demo_provider (url : string) (_ : list (string * string)) (_ : Z)
  : result Response :=
  if String.eqb url "https://psxterminal.com/api/ticks/REG/PSO"
  then Ok (demo_quote 110 0 small_percent 1200 112 108)
  else if String.eqb url "https://psxterminal.com/api/ticks/REG/LUCK"
  then Ok (demo_quote 95 (-2) (S754_zero false) 300 99 94)
  else Ok {| status_code := 404; content := NotJson |}.

Definition demo_table : gmap Z Stock.t :=
  <[1 := TradeDefs.demo_stock "PSO" (Some (Decimal.cents 10000))]>
  (<[2 := TradeDefs.demo_stock "LUCK" None]>
  (<[3 := TradeDefs.demo_stock "ENGRO" (Some (Decimal.cents 30000))]> ∅)).

Definition refresh_all_request : Request :=
  {| req_user := Some TradeDefs.demo_user; method := "GET";
     GET := {[ "all" := "true" ]} |}.

Definition demo_refresh :=
  refresh_stock_prices_api ∅ demo_provider demo_float demo_int demo_save
    refresh_all_request demo_table.

Definition demo_selection : list (Z * Stock.t) :=
  Eval vm_compute in map_to_list demo_table.

(** The float of a whole number. *)
Definition float_of (z : Z) : spec_float := binary_normalize 53 1024 z 0 false.

(** The records the answer has to hold.  PSO: its change is 0 and comes out
    null; its change in per cent is 0.00390625 and comes out as that, though
    the column stores 0.00 for it. *)
Definition PSO_entry : StockEntry :=
  {| e_id := 1; e_symbol := "PSO";
     e_current_price := Some (float_of 110);
     e_change := None;
     e_change_percent := Some small_percent;
     e_volume := Some 1200;
     e_high := Some (float_of 112);
     e_low := Some (float_of 108) |}.

Definition LUCK_entry : StockEntry :=
  {| e_id := 2; e_symbol := "LUCK";
     e_current_price := Some (float_of 95);
     e_change := Some (float_of (-2));
     e_change_percent := None;
     e_volume := Some 300;
     e_high := Some (float_of 99);
     e_low := Some (float_of 94) |}.

Definition ENGRO_error : ErrorEntry :=
  {| err_symbol := "ENGRO"; err_error := "No data available from API" |}.

(** The quote of PSO as [fetch_stock_from_psx] returns it. *)
Definition PSO_quote : Quote :=
  {| q_symbol := "PSO"; q_name := "PSO";
     q_price := PInt 110; q_change := PInt 0;
     q_change_percent := PFloat small_percent;
     q_volume := PInt 1200; q_high := PInt 112; q_low := PInt 108 |}.

End RefreshDefs.

(* ===================================================================== *)
(** * forms.py *)
(* ===================================================================== *)

Module Forms.

(** [v <= 0] and [v < 0] against the int [0]; a value that is not a number
    does not compare with an [int]. *)
Definition py_le0 (v : pyval) : result bool :=
  match v with
  | PBool b => Ok (negb b)
  | PInt z => Ok (z <=? 0)
  | PFloat f => Ok (SFleb f (S754_zero false))
  | PDec d => Ok (Decimal.leb d (Decimal.of_int 0))
  | _ =>
      Raise (Exn TypeError
               ("'<=' not supported between instances of '" ++ type_name v
                ++ "' and 'int'")%string)
  end.

Definition py_lt0 (v : pyval) : result bool :=
  match v with
  | PBool _ => Ok false
  | PInt z => Ok (z <? 0)
  | PFloat f => Ok (SFltb f (S754_zero false))
  | PDec d => Ok (Decimal.ltb d (Decimal.of_int 0))
  | _ =>
      Raise (Exn TypeError
               ("'<' not supported between instances of '" ++ type_name v
                ++ "' and 'int'")%string)
  end.

(** [self.cleaned_data.get(key)] *)
Definition cleaned_get (cleaned_data : gmap string pyval) (key : string) : pyval :=
  default PNone (cleaned_data !! key).

(** [forms.ValidationError(message)]; its [str] is the list of its
    messages. *)
Definition validation_error (message : string) : exn :=
  Exn ValidationError ("['" ++ message ++ "']")%string.

(** The [clean_<field>] methods of [TradeForm]. *)
Module TradeForm.

Definition clean_quantity (cleaned_data : gmap string pyval) : result pyval :=
  let quantity := cleaned_get cleaned_data "quantity" in
  if is_none quantity
  then Raise (validation_error "Quantity must be greater than zero.")
  else
    (let? nonpositive := py_le0 quantity in
     if nonpositive
     then Raise (validation_error "Quantity must be greater than zero.")
     else Ok quantity)%result.

Definition clean_buying_price (cleaned_data : gmap string pyval) : result pyval :=
  let buying_price := cleaned_get cleaned_data "buying_price" in
  if is_none buying_price then Ok buying_price
  else
    (let? negative := py_lt0 buying_price in
     if negative
     then Raise (validation_error "Buying price cannot be negative.")
     else Ok buying_price)%result.

Definition clean_mtp (cleaned_data : gmap string pyval) : result pyval :=
  let mtp := cleaned_get cleaned_data "mtp" in
  if is_none mtp then Ok mtp
  else
    (let? negative := py_lt0 mtp in
     if negative
     then Raise (validation_error "Target price cannot be negative.")
     else Ok mtp)%result.

Definition clean_msl (cleaned_data : gmap string pyval) : result pyval :=
  let msl := cleaned_get cleaned_data "msl" in
  if is_none msl then Ok msl
  else
    (let? negative := py_lt0 msl in
     if negative
     then Raise (validation_error "Stop loss cannot be negative.")
     else Ok msl)%result.

End TradeForm.

End Forms.

(* ===================================================================== *)
(** * views.py: the quote of one symbol *)
(* ===================================================================== *)

Module PriceView.
Import Services Views.

Section Ajax.

Variable COMPANY_NAMES : gmap string string.
Variable requests_get : string -> list (string * string) -> Z -> result Response.
Variable py_float : pyval -> result spec_float.
Variable py_int : pyval -> result Z.

(** [float(v) if v else ""] and [int(v) if v else ""]. *)
Definition float_or_blank (v : pyval) : result pyval :=
  if truthy v then (let? f := py_float v in Ok (PFloat f))%result else Ok (PStr "").

Definition int_or_blank (v : pyval) : result pyval :=
  if truthy v then (let? n := py_int v in Ok (PInt n))%result else Ok (PStr "").

(** The view answers with the dictionary it builds. *)
Definition fetch_stock_price_ajax (request : Request) : result (HttpResponse pyval) :=
  match req_user request with
  | None => Ok RedirectToLogin
  | Some _ =>
      let symbol := upper (strip (GET_get request "symbol" "")) in
      if String.eqb symbol "" then
        Ok (JsonResponse 400 (PDict [("error", PStr "Symbol is required")]))
      else
        (let? data := fetch_stock_from_psx COMPANY_NAMES requests_get symbol in
         let not_found :=
           JsonResponse 404
             (PDict [("error", PStr ("No data found for symbol " ++ symbol))]) in
         match data with
         | None => Ok not_found
         | Some data =>
             if is_none (q_price data) then Ok not_found
             else
               let? price := py_float (q_price data) in
               let? high := float_or_blank (q_high data) in
               let? low := float_or_blank (q_low data) in
               let? volume := int_or_blank (q_volume data) in
               Ok (JsonResponse 200
                     (PDict [("symbol", PStr (q_symbol data));
                             ("name", PStr (q_name data));
                             ("price", PFloat price);
                             ("high", high);
                             ("low", low);
                             ("volume", volume)]))
         end)%result
  end.

End Ajax.

End PriceView.

(* ===================================================================== *)
(** * views.py: deleting a trade, deleting a stock *)
(* ===================================================================== *)

Module DeleteViews.
Import Views.

(** The two tables.  A [Trade] row holds the key of its stock
    ([ForeignKey(Stock, on_delete=models.CASCADE)]) and its columns. *)
Record TradeRow : Type := { stock_id : Z; columns : Trade.t }.

Record Tables : Type := {
  Stock_objects : gmap Z Stock.t;
  Trade_objects : gmap Z TradeRow
}.

(** What a view answers: the login redirect, the 404 of [get_object_or_404],
    a redirect to a named route, or a rendered template. *)
Inductive ViewResponse (A : Type) : Type :=
| LoginRedirect
| Http404
| Redirect (to : string)
| Rendered (template : string) (context : A).
Arguments LoginRedirect {A}.
Arguments Http404 {A}.
Arguments Redirect {A} to.
Arguments Rendered {A} template context.

(** [get_object_or_404(Trade, pk=pk, user=user)] *)
Definition get_trade (db : Tables) (pk : Z) (u : User) : option TradeRow :=
  match Trade_objects db !! pk with
  | Some row => if decide (Trade.user (columns row) = u) then Some row else None
  | None => None
  end.

(** [trade.delete()]: nothing refers to a trade. *)
Definition delete_trade (db : Tables) (pk : Z) : Tables :=
  {| Stock_objects := Stock_objects db;
     Trade_objects := delete pk (Trade_objects db) |}.

(** [stock.delete()]: the row goes, and with it the trades that refer to
    it. *)
Definition delete_stock (db : Tables) (pk : Z) : Tables :=
  {| Stock_objects := delete pk (Stock_objects db);
     Trade_objects := filter (fun kv => stock_id kv.2 <> pk) (Trade_objects db) |}.

Definition trade_delete_view (request : Request) (pk : Z) (db : Tables)
  : ViewResponse TradeRow * Tables :=
  match req_user request with
  | None => (LoginRedirect, db)
  | Some u =>
      match get_trade db pk u with
      | None => (Http404, db)
      | Some trade =>
          if String.eqb (method request) "POST"
          then (Redirect "portfolio_dashboard", delete_trade db pk)
          else (Rendered "App/Trades/trade_confirm_delete.html" trade, db)
      end
  end.

Definition stock_delete_view (request : Request) (pk : Z) (db : Tables)
  : ViewResponse Stock.t * Tables :=
  match req_user request with
  | None => (LoginRedirect, db)
  | Some _ =>
      match Stock_objects db !! pk with
      | None => (Http404, db)
      | Some stock =>
          if String.eqb (method request) "POST"
          then (Redirect "portfolio_dashboard", delete_stock db pk)
          else (Rendered "App/stocks/stock_confirm_delete.html" stock, db)
      end
  end.

(** Every trade refers to a stock of the table. *)
Definition references_hold (db : Tables) : Prop :=
  forall (k : Z) (row : TradeRow),
    Trade_objects db !! k = Some row -> is_Some (Stock_objects db !! stock_id row).

End DeleteViews.

(* ===================================================================== *)
(** * Sample data of the further properties *)
(* ===================================================================== *)

Module Samples.
Import Services Views.

(** A provider that quotes every symbol at 110, with nothing else. *)
Definition flat_provider : string -> list (string * string) -> Z -> result Response :=
  fun _ _ _ =>
    Ok {| status_code := 200;
          content := Json (PDict [("success", PBool true);
                                  ("data", PDict [("price", PInt 110)])]) |}.

(** A provider that cannot be reached. *)
Definition unreachable_provider
  : string -> list (string * string) -> Z -> result Response :=
  fun _ _ _ => Raise (Exn RequestException "Connection refused").

(** Two quoted holdings: CCC gained 5.00, BBB lost 50.00. *)
Definition quoted_holdings : list Trade.t :=
  [TradeDefs.demo_trade "CCC" 1 (Decimal.cents 1000) None None
     (Some (Decimal.cents 1500));
   TradeDefs.demo_trade "BBB" 1 (Decimal.cents 10000) None None
     (Some (Decimal.cents 5000))].

(** The request [?symbols=pso, luck]. *)
Definition symbols_request : Request :=
  {| req_user := Some TradeDefs.demo_user; method := "GET";
     GET := {[ "symbols" := "pso, luck" ]} |}.

(** Another user, two stocks, and a trade of each user on the first stock. *)
Definition other_user : User := {| user_id := 2; username := "guest" |}.

Definition guest_trade : Trade.t :=
  {| Trade.user := other_user; Trade.stock := TradeDefs.demo_stock "PSO" None;
     Trade.quantity := 7; Trade.buying_price := Decimal.cents 9000;
     Trade.buy_date := 738000; Trade.mtp := None; Trade.msl := None;
     Trade.profit_expected := None; Trade.profit_percent := None;
     Trade.loss_expected := None; Trade.loss_recent := None;
     Trade.pl_ratio := None; Trade.rate_difference := None;
     Trade.comments := ""; Trade.max_profit := None;
     Trade.min_profit_loss := None; Trade.created_at := 0 |}.

Definition demo_tables : DeleteViews.Tables :=
  {| DeleteViews.Stock_objects :=
       <[1 := TradeDefs.demo_stock "PSO" None]>
         (<[2 := TradeDefs.demo_stock "LUCK" None]> ∅);
     DeleteViews.Trade_objects :=
       <[10 := {| DeleteViews.stock_id := 1;
                  DeleteViews.columns := TradeDefs.demo_trade "PSO" 5 (Decimal.cents 10000)
                               None None None |}]>
         (<[11 := {| DeleteViews.stock_id := 1;
                     DeleteViews.columns := guest_trade |}]> ∅) |}.

Definition delete_request (u : User) : Request :=
  {| req_user := Some u; method := "POST"; GET := ∅ |}.

End Samples.

(* ===================================================================== *)
(** * Facts about decimals *)
(* ===================================================================== *)

Module DecimalFacts.
Import Decimal.

Lemma ndigits_fuel_bounds (fuel : nat) :
  forall n, 0 < n -> n < 2 ^ (Z.of_nat fuel + 1) ->
    1 <= ndigits_fuel fuel n /\
    10 ^ (ndigits_fuel fuel n - 1) <= n < 10 ^ ndigits_fuel fuel n.
Proof.
  induction fuel as [|fuel IH]; intros n Hpos Hlt.
  - cbn in *. lia.
  - cbn [ndigits_fuel]. destruct (Z.ltb_spec n 10) as [Hs|Hs].
    + cbn. lia.
    + assert (Hq : 0 < n / 10) by (apply Z.div_str_pos; lia).
      assert (Hq2 : n / 10 < 2 ^ (Z.of_nat fuel + 1)).
      { apply Z.div_lt_upper_bound; [lia|].
        replace (Z.of_nat (S fuel) + 1) with (Z.succ (Z.of_nat fuel + 1)) in Hlt by lia.
        rewrite Z.pow_succ_r in Hlt by lia. lia. }
      destruct (IH _ Hq Hq2) as (H1 & Hlo & Hhi).
      set (d := ndigits_fuel fuel (n / 10)) in *.
      replace (1 + d - 1) with (Z.succ (d - 1)) by lia.
      replace (1 + d) with (Z.succ d) by lia.
      rewrite !Z.pow_succ_r by lia.
      pose proof (Z.div_mod n 10 ltac:(lia)) as Hdm.
      pose proof (Z.mod_pos_bound n 10 ltac:(lia)) as Hm.
      lia.
Qed.

Lemma ndigits_bounds n :
  0 < n -> 1 <= ndigits n /\ 10 ^ (ndigits n - 1) <= n < 10 ^ ndigits n.
Proof.
  intros Hpos. unfold ndigits. apply ndigits_fuel_bounds; [done|].
  rewrite Z2Nat.id by apply Z.log2_nonneg.
  replace (Z.log2 n + 1) with (Z.succ (Z.log2 n)) by lia.
  apply Z.log2_spec. done.
Qed.

Lemma ndigits_pos n : 1 <= ndigits n.
Proof.
  destruct (Z_lt_le_dec 0 n) as [H|H]; [by apply ndigits_bounds|].
  unfold ndigits. rewrite Z.log2_nonpos by done. rewrite Z2Nat.inj_0. cbn. lia.
Qed.

(** Fewer than [10 ^ k] means at most [k] digits. *)
Lemma ndigits_le n k : 1 <= k -> n < 10 ^ k -> ndigits n <= k.
Proof.
  intros Hk Hn. destruct (Z_lt_le_dec 0 n) as [H|H].
  - destruct (ndigits_bounds n H) as (H1 & Hlo & _).
    destruct (Z_lt_le_dec k (ndigits n)) as [Hc|]; [|lia].
    assert (10 ^ k <= 10 ^ (ndigits n - 1)) by (apply Z.pow_le_mono_r; lia).
    lia.
  - unfold ndigits. rewrite Z.log2_nonpos by done. rewrite Z2Nat.inj_0. cbn. lia.
Qed.

Lemma ndigits_ge n k : 0 <= k -> 10 ^ k <= n -> k + 1 <= ndigits n.
Proof.
  intros Hk Hn.
  assert (Hpos : 0 < n) by (pose proof (Z.pow_pos_nonneg 10 k); lia).
  destruct (ndigits_bounds n Hpos) as (H1 & _ & Hhi).
  destruct (Z_lt_le_dec (ndigits n) (k + 1)) as [Hc|]; [|lia].
  assert (10 ^ ndigits n <= 10 ^ k) by (apply Z.pow_le_mono_r; lia).
  lia.
Qed.

(** A coefficient within the precision is left as it is. *)
Lemma fix_small d : Z.abs (coef d) < 10 ^ prec -> fix_ d = d.
Proof.
  intros H. unfold fix_.
  destruct (Z.eqb_spec (Z.abs (coef d)) 0); [done|].
  pose proof (ndigits_le (Z.abs (coef d)) prec ltac:(unfold prec; lia) H).
  destruct (Z.gtb_spec (ndigits (Z.abs (coef d))) prec); [lia|done].
Qed.

Lemma add_cents a b :
  Z.abs (a + b) < 10 ^ prec -> add (cents a) (cents b) = cents (a + b).
Proof.
  intros H. unfold add, add_exact, cents. cbn [coef dexp].
  rewrite Z.min_id, Z.sub_diag. rewrite Z.pow_0_r, !Z.mul_1_r.
  by apply fix_small.
Qed.

Lemma sub_cents a b :
  Z.abs (a - b) < 10 ^ prec -> sub (cents a) (cents b) = cents (a - b).
Proof.
  intros H. unfold sub. change (neg (cents b)) with (cents (- b)).
  rewrite add_cents; [done|]. by replace (a + - b) with (a - b) by lia.
Qed.

Lemma mul_int_cents n c :
  Z.abs (n * c) < 10 ^ prec -> mul (of_int n) (cents c) = cents (n * c).
Proof.
  intros H. unfold mul, mul_exact, of_int, cents. cbn [coef dexp].
  by apply fix_small.
Qed.

Lemma mul_cents_int c n :
  Z.abs (c * n) < 10 ^ prec -> mul (cents c) (of_int n) = cents (c * n).
Proof.
  intros H. unfold mul, mul_exact, of_int, cents. cbn [coef dexp].
  by apply fix_small.
Qed.

Lemma add_zero_cents c :
  Z.abs c < 10 ^ prec -> add (of_int 0) (cents c) = cents c.
Proof.
  intros H. unfold add, add_exact, of_int, cents. cbn [coef dexp].
  change (Z.min 0 (-2)) with (-2). change (-2 - -2) with 0.
  rewrite Z.mul_0_l, Z.pow_0_r, Z.mul_1_r, Z.add_0_l.
  by apply fix_small.
Qed.

Lemma sub_zero_cents c :
  Z.abs c < 10 ^ prec -> sub (of_int 0) (cents c) = cents (- c).
Proof.
  intros H. unfold sub. change (neg (cents c)) with (cents (- c)).
  apply add_zero_cents. lia.
Qed.

Lemma ndigits_unique n k :
  10 ^ (k - 1) <= n < 10 ^ k -> 1 <= k -> ndigits n = k.
Proof.
  intros [Hlo Hhi] Hk.
  pose proof (ndigits_le n k Hk Hhi).
  pose proof (ndigits_ge n (k - 1) ltac:(lia) Hlo). lia.
Qed.

Lemma ndigits_mul_pow c j :
  0 < c -> 0 <= j -> ndigits (c * 10 ^ j) = ndigits c + j.
Proof.
  intros Hc Hj. destruct (ndigits_bounds c Hc) as (H1 & Hlo & Hhi).
  assert (0 < 10 ^ j) by (by apply Z.pow_pos_nonneg).
  apply ndigits_unique; [|lia].
  replace (ndigits c + j - 1) with ((ndigits c - 1) + j) by lia.
  rewrite !Z.pow_add_r by lia. nia.
Qed.

Lemma ndigits_div10 c : 10 <= c -> ndigits (c / 10) = ndigits c - 1.
Proof.
  intros Hc. destruct (ndigits_bounds c ltac:(lia)) as (H1 & Hlo & Hhi).
  assert (2 <= ndigits c).
  { pose proof (ndigits_ge c 1 ltac:(lia)) as H. apply H. by cbn. }
  apply ndigits_unique; [|lia].
  replace (ndigits c) with (Z.succ (ndigits c - 1)) in Hhi by lia.
  replace (ndigits c - 1) with (Z.succ (ndigits c - 1 - 1)) in Hlo by lia.
  rewrite Z.pow_succ_r in Hhi, Hlo by lia.
  split.
  - apply Z.div_le_lower_bound; lia.
  - apply Z.div_lt_upper_bound; lia.
Qed.

Lemma ndigits_mono x y : 0 <= x <= y -> ndigits x <= ndigits y.
Proof.
  intros [Hx Hxy]. destruct (Z.eq_dec y 0) as [->|Hy].
  { by replace x with 0 by lia. }
  destruct (ndigits_bounds y ltac:(lia)) as (H1 & _ & Hhi).
  apply ndigits_le; lia.
Qed.

Lemma ndigits_mul_le x y :
  0 < x -> 0 < y -> ndigits (x * y) <= ndigits x + ndigits y.
Proof.
  intros Hx Hy.
  destruct (ndigits_bounds x Hx) as (Hx1 & _ & Hxh).
  destruct (ndigits_bounds y Hy) as (Hy1 & _ & Hyh).
  apply ndigits_le; [lia|]. rewrite Z.pow_add_r by lia. nia.
Qed.

(** ** Rounding *)

Lemma round_half_even_bounds c k :
  0 <= c -> 0 <= k ->
  c / 10 ^ k <= round_half_even c k <= c / 10 ^ k + 1.
Proof.
  intros Hc Hk. unfold round_half_even.
  destruct ((2 * (c mod 10 ^ k) >? 10 ^ k)
            || (2 * (c mod 10 ^ k) =? 10 ^ k) && Z.odd (c / 10 ^ k)); lia.
Qed.

Lemma round_half_even_exact c k :
  0 <= k -> c mod 10 ^ k = 0 -> round_half_even c k = c / 10 ^ k.
Proof.
  intros Hk Hm. unfold round_half_even. rewrite Hm.
  assert (0 < 10 ^ k) by (by apply Z.pow_pos_nonneg).
  destruct (Z.gtb_spec (2 * 0) (10 ^ k)); [lia|].
  destruct (Z.eqb_spec (2 * 0) (10 ^ k)); [lia|]. reflexivity.
Qed.

Lemma abs_sgn_mul c x : c <> 0 -> 0 <= x -> Z.abs (Z.sgn c * x) = x.
Proof.
  intros Hc Hx.
  destruct (Z.sgn_spec c) as [[? ->]|[[? ->]|[? ->]]]; lia.
Qed.

(** [fix_] keeps a number that is not zero within the precision, and moves
    its leading digit up by one place at most. *)
Lemma fix_nonzero d :
  coef d <> 0 ->
  coef (fix_ d) <> 0 /\
  ndigits (Z.abs (coef (fix_ d))) <= prec /\
  adjusted d <= adjusted (fix_ d) <= adjusted d + 1.
Proof.
  intros Hc. unfold fix_.
  set (a := Z.abs (coef d)). assert (Ha : 0 < a) by (subst a; lia).
  destruct (Z.eqb_spec a 0) as [|_]; [lia|].
  destruct (Z.gtb_spec (ndigits a) prec) as [Hn|Hn]; [|fold a; lia].
  destruct (ndigits_bounds a Ha) as (_ & Hlo & Hhi).
  set (n := ndigits a) in *. set (k := n - prec).
  assert (Hk : 0 < k) by (subst k; lia).
  assert (Hpk : 0 < 10 ^ k) by (apply Z.pow_pos_nonneg; lia).
  pose proof (round_half_even_bounds a k ltac:(lia) ltac:(lia)) as Hr.
  assert (Hq : 10 ^ 27 <= a / 10 ^ k < 10 ^ 28).
  { replace (n - 1) with (27 + k) in Hlo by (subst k; unfold prec; lia).
    replace n with (28 + k) in Hhi by (subst k; unfold prec; lia).
    rewrite Z.pow_add_r in Hlo, Hhi by lia. split.
    - apply Z.div_le_lower_bound; lia.
    - apply Z.div_lt_upper_bound; lia. }
  set (c1 := round_half_even a k) in *.
  destruct (Z.gtb_spec (ndigits c1) prec) as [Hc1|Hc1].
  - assert (Hc1' : c1 = 10 ^ 28).
    { destruct (Z.eq_dec c1 (10 ^ 28)); [done|].
      assert (c1 < 10 ^ 28) by lia.
      pose proof (ndigits_le c1 28 ltac:(lia) ltac:(done)). unfold prec in *. lia. }
    rewrite Hc1'. change (10 ^ 28 / 10) with (10 ^ 27).
    unfold adjusted. cbn [coef dexp]. rewrite abs_sgn_mul by (lia || done).
    change (ndigits (10 ^ 27)) with 28. fold a. fold n. subst k. unfold prec.
    split; [|lia]. pose proof (Z.sgn_pos (10^27)).
    destruct (Z.sgn_spec (coef d)) as [[? ->]|[[? ->]|[? ->]]]; lia.
  - assert (Hd : ndigits c1 = 28).
    { pose proof (ndigits_ge c1 27 ltac:(lia) ltac:(lia)). unfold prec in *. lia. }
    unfold adjusted. cbn [coef dexp]. rewrite abs_sgn_mul by lia.
    rewrite Hd. fold a. fold n. subst k. unfold prec.
    split; [|lia].
    destruct (Z.sgn_spec (coef d)) as [[? ->]|[[? ->]|[? ->]]]; lia.
Qed.

(** Times 100 moves the leading digit up by two places. *)
Lemma mul_100_adjusted r :
  coef r <> 0 -> ndigits (Z.abs (coef r)) <= prec ->
  coef (mul r (of_int 100)) <> 0 /\
  adjusted (mul r (of_int 100)) = adjusted r + 2.
Proof.
  intros Hc Hn. unfold mul, mul_exact, of_int. cbn [coef dexp].
  rewrite Z.add_0_r. unfold fix_. cbn [coef dexp].
  set (c := Z.abs (coef r)) in *. assert (Hcp : 0 < c) by (subst c; lia).
  replace (Z.abs (coef r * 100)) with (c * 10 ^ 2) by (subst c; lia).
  destruct (Z.eqb_spec (c * 10 ^ 2) 0) as [|_]; [lia|].
  rewrite (ndigits_mul_pow c 2) by lia.
  assert (H100 : Z.abs (coef r * 100) = c * 10 ^ 2) by (subst c; lia).
  destruct (Z.gtb_spec (ndigits c + 2) prec) as [Hbig|Hsmall].
  - set (k := ndigits c + 2 - prec).
    assert (Hk : 1 <= k <= 2) by (subst k; lia).
    assert (Hexact : round_half_even (c * 10 ^ 2) k = c * 10 ^ (2 - k)).
    { replace (c * 10 ^ 2) with (c * 10 ^ (2 - k) * 10 ^ k).
      2:{ rewrite <- Z.mul_assoc, <- Z.pow_add_r by lia. by replace (2 - k + k) with 2 by lia. }
      assert (0 < 10 ^ k) by (apply Z.pow_pos_nonneg; lia).
      rewrite round_half_even_exact; [|lia|by apply Z.mod_mul; lia].
      apply Z.div_mul. lia. }
    rewrite Hexact. rewrite (ndigits_mul_pow c (2 - k)) by lia.
    destruct (Z.gtb_spec (ndigits c + (2 - k)) prec) as [|_]; [subst k; lia|].
    assert (0 < 10 ^ (2 - k)) by (apply Z.pow_pos_nonneg; lia).
    unfold adjusted. cbn [coef dexp]. rewrite abs_sgn_mul by nia.
    rewrite (ndigits_mul_pow c (2 - k)) by lia. fold c.
    split; [|lia].
    destruct (Z.sgn_spec (coef r * 100)) as [[? ->]|[[? ->]|[? ->]]]; nia.
  - unfold adjusted. cbn [coef dexp]. rewrite H100.
    rewrite (ndigits_mul_pow c 2) by lia. fold c. split; lia.
Qed.

(** Stripping trailing zeros leaves the leading digit where it is. *)
Lemma strip_zeros_adjusted fuel :
  forall c e ideal c' e',
    0 < c -> strip_zeros fuel c e ideal = (c', e') ->
    0 < c' /\ e' + ndigits c' = e + ndigits c /\ ndigits c' <= ndigits c.
Proof.
  induction fuel as [|fuel IH]; intros c e ideal c' e' Hc Hs; cbn in Hs.
  - injection Hs as <- <-. lia.
  - destruct ((e <? ideal) && (c mod 10 =? 0)) eqn:Hcond.
    + apply andb_true_iff in Hcond as [_ Hm]. apply Z.eqb_eq in Hm.
      assert (10 <= c).
      { pose proof (Z.div_mod c 10 ltac:(lia)). lia. }
      assert (0 < c / 10) by (apply Z.div_str_pos; lia).
      destruct (IH _ _ _ _ _ ltac:(done) Hs) as (? & He & Hn).
      rewrite ndigits_div10 in He, Hn by done. lia.
    + injection Hs as <- <-. lia.
Qed.

(** The scaled quotient of [div] has 29 or 30 digits. *)
Lemma div_scaled_quotient ca cb :
  0 < ca -> 0 < cb ->
  let shift := ndigits cb - ndigits ca + prec + 1 in
  let num := if 0 <=? shift then ca * 10 ^ shift else ca in
  let den := if 0 <=? shift then cb else cb * 10 ^ (- shift) in
  0 < den /\ 10 ^ 28 <= num / den < 10 ^ 30.
Proof.
  intros Ha Hb shift num den.
  destruct (ndigits_bounds ca Ha) as (Hla & Halo & Hahi).
  destruct (ndigits_bounds cb Hb) as (Hlb & Hblo & Hbhi).
  set (la := ndigits ca) in *. set (lb := ndigits cb) in *.
  set (A := 10 ^ (la - 1)) in *. set (B := 10 ^ (lb - 1)) in *.
  assert (HA : 10 ^ la = 10 * A).
  { subst A. replace la with (Z.succ (la - 1)) at 1 by lia.
    by rewrite Z.pow_succ_r by lia. }
  assert (HB : 10 ^ lb = 10 * B).
  { subst B. replace lb with (Z.succ (lb - 1)) at 1 by lia.
    by rewrite Z.pow_succ_r by lia. }
  assert (0 < A) by (subst A; apply Z.pow_pos_nonneg; lia).
  assert (0 < B) by (subst B; apply Z.pow_pos_nonneg; lia).
  assert (H29 : 10 ^ 29 = 10 * 10 ^ 28) by reflexivity.
  assert (H30 : 10 ^ 30 = 100 * 10 ^ 28) by reflexivity.
  assert (0 < 10 ^ 28) by reflexivity.
  assert (Hden : 0 < den /\ 10 ^ 28 * den <= num /\ num < 10 ^ 30 * den).
  { subst num den. destruct (Z.leb_spec 0 shift) as [Hs|Hs].
    - assert (E : A * 10 ^ shift = 10 ^ 29 * B).
      { subst A B. rewrite <- !Z.pow_add_r by lia. f_equal.
        subst shift. unfold prec. lia. }
      assert (0 < 10 ^ shift) by (apply Z.pow_pos_nonneg; lia).
      split; [lia|]. split; nia.
    - assert (E : 10 ^ 29 * B * 10 ^ (- shift) = A).
      { subst A B. rewrite <- !Z.pow_add_r by lia. f_equal.
        subst shift. unfold prec. lia. }
      assert (0 < 10 ^ (- shift)) by (apply Z.pow_pos_nonneg; lia).
      split; [nia|]. split; nia. }
  destruct Hden as (Hd & Hlo & Hhi). split; [done|]. split.
  - apply Z.div_le_lower_bound; lia.
  - apply Z.div_lt_upper_bound; lia.
Qed.

Lemma abs_sign_mul a b x :
  a <> 0 -> b <> 0 -> 0 < x ->
  Z.sgn a * Z.sgn b * x <> 0 /\ Z.abs (Z.sgn a * Z.sgn b * x) = x.
Proof.
  intros Ha Hb Hx.
  destruct (Z.sgn_spec a) as [[? ->]|[[? ->]|[? ->]]];
    destruct (Z.sgn_spec b) as [[? ->]|[[? ->]|[? ->]]]; lia.
Qed.

(** A quotient of two numbers that are not zero is defined, is not zero,
    and has its leading digit at most one place above the difference of
    theirs. *)
Lemma div_nonzero a b :
  coef a <> 0 -> coef b <> 0 ->
  exists r, div a b = Ok r /\ coef r <> 0 /\
    ndigits (Z.abs (coef r)) <= prec /\
    adjusted r <= adjusted a - adjusted b + 1.
Proof.
  intros Ha Hb. unfold div.
  destruct (Z.eqb_spec (coef b) 0) as [|_]; [done|].
  destruct (Z.eqb_spec (coef a) 0) as [|_]; [done|].
  set (ca := Z.abs (coef a)). set (cb := Z.abs (coef b)).
  assert (Hca : 0 < ca) by (subst ca; lia).
  assert (Hcb : 0 < cb) by (subst cb; lia).
  destruct (div_scaled_quotient ca cb Hca Hcb) as (Hden & Hq).
  set (shift := ndigits cb - ndigits ca + prec + 1) in *.
  set (num := if 0 <=? shift then ca * 10 ^ shift else ca) in *.
  set (den := if 0 <=? shift then cb else cb * 10 ^ (- shift)) in *.
  set (q := num / den) in *. set (e := dexp a - dexp b - shift).
  assert (H28 : 0 < 10 ^ 28) by reflexivity.
  assert (Hgoal : forall q' e', 0 < q' -> e' + ndigits q' <= e + 30 ->
    let r := fix_ (mk (Z.sgn (coef a) * Z.sgn (coef b) * q') e') in
    coef r <> 0 /\ ndigits (Z.abs (coef r)) <= prec /\
    adjusted r <= adjusted a - adjusted b + 1).
  { intros q' e' Hq' He' r.
    destruct (abs_sign_mul (coef a) (coef b) q' Ha Hb Hq') as (Hnz & Habs).
    destruct (fix_nonzero (mk (Z.sgn (coef a) * Z.sgn (coef b) * q') e'))
      as (H1 & H2 & H3 & H4); [done|].
    split; [done|]. split; [done|]. fold r in H4.
    unfold adjusted at 2 in H4. cbn [coef dexp] in H4. rewrite Habs in H4.
    unfold adjusted at 2 3. fold ca cb. subst e shift. unfold prec in *. lia. }
  destruct (Z.eqb_spec (num mod den) 0) as [Hex|Hinex].
  - destruct (strip_zeros (Z.to_nat (dexp a - dexp b - e)) q e (dexp a - dexp b))
      as [q' e'] eqn:Hs.
    assert (Hqpos : 0 < q) by lia.
    destruct (strip_zeros_adjusted _ _ _ _ _ _ Hqpos Hs) as (Hq' & He' & Hn').
    eexists. split; [reflexivity|]. apply Hgoal; [done|].
    pose proof (ndigits_le q 30 ltac:(lia) ltac:(lia)). lia.
  - eexists. split; [reflexivity|]. apply Hgoal.
    + destruct (q mod 5 =? 0); lia.
    + assert (Hlt : (if q mod 5 =? 0 then q + 1 else q) < 10 ^ 30).
      { destruct (Z.eqb_spec (q mod 5) 0) as [H5|]; [|lia].
        pose proof (Z.div_mod q 5 ltac:(lia)) as Hdm. rewrite H5 in Hdm.
        lia. }
      pose proof (ndigits_le _ 30 ltac:(lia) Hlt). lia.
Qed.

(** A number below [10 ^ 25] rounds to two decimals without an error. *)
Lemma round_defined x :
  (coef x <> 0 -> adjusted x <= 24) -> exists p, round x 2 = Ok p.
Proof.
  intros Hadj. unfold round, quantize. change (Z.opp 2) with (-2).
  destruct (Z.eqb_spec (coef x) 0) as [|Hc]; [by eexists|].
  specialize (Hadj Hc).
  destruct (Z.gtb_spec (adjusted x - -2 + 1) prec) as [Hbig|_];
    [unfold prec in Hbig; lia|].
  set (c := Z.abs (coef x)) in *. assert (Hcp : 0 < c) by (subst c; lia).
  destruct (ndigits_bounds c Hcp) as (Hn1 & Hlo & Hhi).
  assert (Hfit : ndigits (Z.abs (coef (rescale x (-2)))) <= prec).
  { unfold rescale. unfold adjusted in Hadj. fold c in Hadj.
    destruct (Z.geb_spec (dexp x) (-2)) as [He|He]; cbn [coef].
    - rewrite Z.abs_mul. fold c.
      assert (0 < 10 ^ (dexp x - -2)) by (apply Z.pow_pos_nonneg; lia).
      rewrite (Z.abs_eq (10 ^ _)) by lia.
      rewrite ndigits_mul_pow by lia. unfold prec. lia.
    - set (k := -2 - dexp x) in *.
      assert (Hk : 0 < k) by (subst k; lia).
      assert (Hpk : 0 < 10 ^ k) by (apply Z.pow_pos_nonneg; lia).
      pose proof (round_half_even_bounds c k ltac:(lia) ltac:(lia)) as Hr.
      assert (0 <= c / 10 ^ k) by (apply Z.div_pos; lia).
      fold c. rewrite abs_sgn_mul by (done || lia).
      assert (Hq : c / 10 ^ k < 10 ^ 27).
      { apply Z.div_lt_upper_bound; [done|].
        destruct (Z_lt_le_dec (ndigits c) k) as [Hs|Hs].
        - assert (10 ^ ndigits c <= 10 ^ k) by (apply Z.pow_le_mono_r; lia).
          assert (0 < 10 ^ 27) by reflexivity. nia.
        - assert (10 ^ ndigits c <= 10 ^ (k + 27))
            by (apply Z.pow_le_mono_r; lia).
          rewrite Z.pow_add_r in * by lia. lia. }
      apply ndigits_le; [unfold prec; lia|].
      unfold prec. change (10 ^ 28) with (10 * 10 ^ 27). lia. }
  destruct (Z.gtb_spec (ndigits (Z.abs (coef (rescale x (-2))))) prec);
    [lia|eexists; reflexivity].
Qed.

Lemma fix_zero e : fix_ (mk 0 e) = mk 0 e.
Proof. reflexivity. Qed.

(** A percentage: [round(a / b * 100, 2)] is defined when [b] is not zero
    and [a] is less than [10 ^ 22] times [b]. *)
Lemma percent_defined a b :
  coef b <> 0 ->
  (coef a <> 0 -> adjusted a - adjusted b <= 21) ->
  exists r p, div a b = Ok r /\ round (mul r (of_int 100)) 2 = Ok p.
Proof.
  intros Hb Hadj. destruct (Z.eq_dec (coef a) 0) as [Ha|Ha].
  - exists (mk 0 (dexp a - dexp b)).
    assert (Hdiv : div a b = Ok (mk 0 (dexp a - dexp b))).
    { unfold div. destruct (Z.eqb_spec (coef b) 0); [done|].
      by rewrite Ha. }
    destruct (round_defined (mul (mk 0 (dexp a - dexp b)) (of_int 100)))
      as (p & Hp); [by intros []|].
    exists p. done.
  - destruct (div_nonzero a b Ha Hb) as (r & Hdiv & Hr & Hn & Hadjr).
    destruct (mul_100_adjusted r Hr Hn) as (_ & Hm).
    destruct (round_defined (mul r (of_int 100))) as (p & Hp).
    { intros _. specialize (Hadj Ha). lia. }
    exists r, p. done.
Qed.

(** A ratio: [round(a / b, 2)] is defined when [b] is not zero and [a] is
    less than [10 ^ 24] times [b]. *)
Lemma ratio_defined a b :
  coef b <> 0 ->
  (coef a <> 0 -> adjusted a - adjusted b <= 23) ->
  exists r p, div a b = Ok r /\ round r 2 = Ok p.
Proof.
  intros Hb Hadj. destruct (Z.eq_dec (coef a) 0) as [Ha|Ha].
  - exists (mk 0 (dexp a - dexp b)).
    assert (Hdiv : div a b = Ok (mk 0 (dexp a - dexp b))).
    { unfold div. destruct (Z.eqb_spec (coef b) 0); [done|].
      by rewrite Ha. }
    destruct (round_defined (mk 0 (dexp a - dexp b))) as (p & Hp);
      [by intros []|].
    exists p. done.
  - destruct (div_nonzero a b Ha Hb) as (r & Hdiv & Hr & Hn & Hadjr).
    destruct (round_defined r) as (p & Hp).
    { intros _. specialize (Hadj Ha). lia. }
    exists r, p. done.
Qed.

(** The leading digit of an amount in hundredths. *)
Lemma adjusted_cents_le c k :
  1 <= k -> Z.abs c < 10 ^ k -> adjusted (cents c) <= k - 3.
Proof.
  intros Hk Hc. unfold adjusted, cents. cbn [coef dexp].
  pose proof (ndigits_le (Z.abs c) k Hk Hc). lia.
Qed.

Lemma adjusted_cents_ge c : -2 <= adjusted (cents c).
Proof.
  unfold adjusted, cents. cbn [coef dexp].
  pose proof (ndigits_pos (Z.abs c)). lia.
Qed.

Lemma adjusted_ge_exp d : dexp d <= adjusted d.
Proof. unfold adjusted. pose proof (ndigits_pos (Z.abs (coef d))). lia. Qed.

Lemma column_cents d : column d -> d = cents (coef d).
Proof. destruct d as [c e]. unfold column. cbn. intros [-> _]. reflexivity. Qed.

Lemma gtb_cents_zero c : gtb (cents c) (of_int 0) = true -> c <> 0.
Proof. intros H ->. discriminate. Qed.

End DecimalFacts.

(* ===================================================================== *)
(** * Trade.save *)
(* ===================================================================== *)

Module TradeFacts.
Import Valuation TradeDefs.

(** [save] against the formulas.  A percentage or a ratio that cannot be
    rounded raises in the middle, with the fields before it assigned; else
    all six are assigned and the instance goes to the ORM. *)
Lemma save_run (super_save : Trade.M unit) (t : Trade.t) :
  Trade.save super_save t =
  match profit_percent_of t with
  | Raise e => (Raise e, Trade.set_profit_expected (profit_expected_of t) t)
  | Ok pp =>
      let t1 := Trade.set_loss_expected (loss_expected_of t)
                  (Trade.set_profit_percent pp
                     (Trade.set_profit_expected (profit_expected_of t) t)) in
      match pl_ratio_of t with
      | Raise e => (Raise e, t1)
      | Ok r =>
          super_save
            (Trade.set_loss_recent (loss_recent_of t)
               (Trade.set_rate_difference (rate_difference_of t)
                  (Trade.set_pl_ratio r t1)))
      end
  end.
Proof.
  unfold Trade.save, profit_percent_of, pl_ratio_of, profit_expected_of,
    loss_expected_of, rate_difference_of, loss_recent_of.
  unfold Trade.bind, Trade.read, Trade.assign, Trade.lift, Trade.current_price.
  destruct t as [u st q bp bd m s pe pp le lr r rd c mp mpl ca]. cbn.
  repeat match goal with
    | H : ?x = _ |- context [?x] => rewrite H; cbn
    | |- context [if_set ?x] => destruct (if_set x) eqn:?; cbn
    | |- context [Decimal.truthy ?b] => destruct (Decimal.truthy b) eqn:?; cbn
    | |- context [Decimal.gtb ?a ?b] => destruct (Decimal.gtb a b) eqn:?; cbn
    | |- context [Decimal.ltb ?a ?b] => destruct (Decimal.ltb a b) eqn:?; cbn
    | |- context [Decimal.div ?a ?b] => destruct (Decimal.div a b) eqn:?; cbn
    | |- context [Decimal.round ?a ?b] => destruct (Decimal.round a b) eqn:?; cbn
    end; reflexivity.
Qed.

Lemma formulas_same_inputs t t' :
  same_inputs t t' ->
  profit_expected_of t' = profit_expected_of t /\
  profit_percent_of t' = profit_percent_of t /\
  loss_expected_of t' = loss_expected_of t /\
  pl_ratio_of t' = pl_ratio_of t /\
  rate_difference_of t' = rate_difference_of t /\
  loss_recent_of t' = loss_recent_of t.
Proof.
  intros (Hs & Hq & Hb & Hm & Hl).
  unfold profit_expected_of, profit_percent_of, loss_expected_of,
    pl_ratio_of, rate_difference_of, loss_recent_of, Trade.current_price.
  rewrite Hs, Hq, Hb, Hm, Hl. done.
Qed.

Lemma columns_kept_inputs t t' : Trade.columns_kept t t' -> same_inputs t t'.
Proof. unfold Trade.columns_kept, same_inputs. tauto. Qed.

Lemma orm_insert_write now : Trade.orm_write (Trade.orm_insert now).
Proof. intros t. unfold Trade.columns_kept, Trade.orm_insert. cbn. tauto. Qed.

(** C1. The worked example of the specification: quantity 10 bought at
    100.00 with target 120.00 and stop 90.00, the stock quoted at 110.00.
    After [save] the computed quantities and the derived fields are
    total_cost 1000.00, current_value 1100.00, unrealized_pl 100.00,
    pl_percent 10.00, profit_expected 200.00, profit_percent 20.00,
    loss_expected 100.00, pl_ratio 2.00, rate_difference 10.00, and
    loss_recent undefined. *)
Theorem save_worked_example (super_save : Trade.M unit) (t : Trade.t) :
  Trade.orm_write super_save ->
  Trade.quantity t = 10 ->
  Trade.buying_price t = Decimal.cents 10000 ->
  Trade.mtp t = Some (Decimal.cents 12000) ->
  Trade.msl t = Some (Decimal.cents 9000) ->
  Stock.current_price (Trade.stock t) = Some (Decimal.cents 11000) ->
  let t' := (Trade.save super_save t).2 in
  Trade.total_cost t' = Decimal.cents 100000 /\
  Trade.current_value t' = Some (Decimal.cents 110000) /\
  Trade.unrealized_pl t' = Some (Decimal.cents 10000) /\
  Trade.pl_percent t' = Ok (Dec (Decimal.cents 1000)) /\
  Trade.profit_expected t' = Some (Decimal.cents 20000) /\
  Trade.profit_percent t' = Some (Decimal.cents 2000) /\
  Trade.loss_expected t' = Some (Decimal.cents 10000) /\
  Trade.pl_ratio t' = Some (Decimal.cents 200) /\
  Trade.rate_difference t' = Some (Decimal.cents 1000) /\
  Trade.loss_recent t' = None.
Proof.
  intros Horm Hq Hb Hm Hs Hp t'. subst t'. rewrite save_run.
  assert (Hpp : profit_percent_of t = Ok (Some (Decimal.cents 2000))).
  { unfold profit_percent_of. rewrite Hm, Hb. by vm_compute. }
  assert (Hr : pl_ratio_of t = Ok (Some (Decimal.cents 200))).
  { unfold pl_ratio_of. rewrite Hm, Hs, Hb. by vm_compute. }
  rewrite Hpp, Hr. cbv zeta.
  match goal with |- context [super_save ?big] => set (t1 := big) end.
  destruct (Horm t1) as
    (_ & Hst & Hq' & Hb' & _ & _ & _ & Hpe & Hppc & Hle & Hlr & Hplr & Hrd & _).
  set (t' := (super_save t1).2) in *.
  assert (Hq1 : Trade.quantity t' = 10) by (rewrite Hq'; exact Hq).
  assert (Hb1 : Trade.buying_price t' = Decimal.cents 10000)
    by (rewrite Hb'; exact Hb).
  assert (Hp1 : Trade.current_price t' = Some (Decimal.cents 11000)).
  { unfold Trade.current_price. rewrite Hst. exact Hp. }
  assert (Hcv : Trade.current_value t' = Some (Decimal.cents 110000)).
  { unfold Trade.current_value. rewrite Hp1, Hq1. by vm_compute. }
  assert (Htc : Trade.total_cost t' = Decimal.cents 100000).
  { unfold Trade.total_cost. rewrite Hq1, Hb1. by vm_compute. }
  assert (Hup : Trade.unrealized_pl t' = Some (Decimal.cents 10000)).
  { unfold Trade.unrealized_pl. rewrite Hcv, Htc. by vm_compute. }
  repeat split; try assumption.
  - unfold Trade.pl_percent. rewrite Hup, Htc. by vm_compute.
  - rewrite Hpe. subst t1. cbn. unfold profit_expected_of.
    rewrite Hm, Hb, Hq. by vm_compute.
  - rewrite Hle. subst t1. cbn. unfold loss_expected_of.
    rewrite Hs, Hb, Hq. by vm_compute.
  - rewrite Hrd. subst t1. cbn. unfold rate_difference_of, Trade.current_price.
    rewrite Hp, Hb. by vm_compute.
  - rewrite Hlr. subst t1. cbn. unfold loss_recent_of, Trade.current_price.
    rewrite Hs, Hp, Hb. by vm_compute.
Qed.

Lemma save_worked_example_witness :
  let t := demo_trade "PSO" 10 (Decimal.cents 10000)
             (Some (Decimal.cents 12000)) (Some (Decimal.cents 9000))
             (Some (Decimal.cents 11000)) in
  let t' := (Trade.save (Trade.orm_insert 1700000000) t).2 in
  Trade.pl_ratio t' = Some (Decimal.cents 200) /\ Trade.loss_recent t' = None.
Proof.
  intros t t'.
  pose proof (save_worked_example (Trade.orm_insert 1700000000) t
                (orm_insert_write _) eq_refl eq_refl eq_refl eq_refl eq_refl)
    as H.
  split; apply H.
Defined.

(** The instance when [save] reaches the ORM call or raises before it. *)
Lemma save_recomputed (super_save : Trade.M unit) (t : Trade.t) :
  exists t1, only_derived_changed t t1 /\
    (Trade.save super_save t = super_save t1 \/
     exists e, Trade.save super_save t = (Raise e, t1)).
Proof.
  rewrite save_run.
  destruct (profit_percent_of t) as [pp|e].
  - destruct (pl_ratio_of t) as [r|e]; cbv zeta.
    + eexists. split; [|left; reflexivity]. unfold only_derived_changed. cbn. tauto.
    + eexists. split; [|right; eexists; reflexivity].
      unfold only_derived_changed. cbn. tauto.
  - eexists. split; [|right; eexists; reflexivity].
    unfold only_derived_changed. cbn. tauto.
Qed.

(** [save] hands back the inputs it was given. *)
Lemma save_same_inputs (super_save : Trade.M unit) (t : Trade.t) :
  Trade.orm_write super_save -> same_inputs t (Trade.save super_save t).2.
Proof.
  intros Horm.
  destruct (save_recomputed super_save t) as (t1 & Hd & [Hrun | [e Hrun]]);
    rewrite Hrun; cbn [snd].
  - destruct Hd as (? & ? & ? & ? & ? & ? & ? & ? & ? & ? & ?).
    destruct (Horm t1) as
      (? & ? & ? & ? & ? & ? & ? & ? & ? & ? & ? & ? & ? & ? & ? & ?).
    unfold same_inputs. repeat split; congruence.
  - destruct Hd as (? & ? & ? & ? & ? & ? & ? & ? & ? & ? & ?).
    unfold same_inputs. repeat split; congruence.
Qed.

(** C9. [save] writes the six derived fields only: its own statements leave
    every other attribute as it was, and with the ORM write after them the
    inputs quantity, buying_price, buy_date, mtp, msl and comments, the
    fields max_profit and min_profit_loss, and the user and the stock are
    unchanged. *)
Theorem save_frame (super_save : Trade.M unit) (t : Trade.t) :
  Trade.orm_write super_save ->
  let t' := (Trade.save super_save t).2 in
  (exists t1, only_derived_changed t t1 /\
     (t' = t1 \/ t' = (super_save t1).2)) /\
  Trade.quantity t' = Trade.quantity t /\
  Trade.buying_price t' = Trade.buying_price t /\
  Trade.buy_date t' = Trade.buy_date t /\
  Trade.mtp t' = Trade.mtp t /\
  Trade.msl t' = Trade.msl t /\
  Trade.comments t' = Trade.comments t /\
  Trade.max_profit t' = Trade.max_profit t /\
  Trade.min_profit_loss t' = Trade.min_profit_loss t /\
  Trade.user t' = Trade.user t /\
  Trade.stock t' = Trade.stock t.
Proof.
  intros Horm t'. subst t'.
  destruct (save_recomputed super_save t) as (t1 & Hd & [Hrun | [e Hrun]]);
    rewrite Hrun; cbn [snd].
  - split; [exists t1; split; [exact Hd | by right]|].
    destruct Hd as (? & ? & ? & ? & ? & ? & ? & ? & ? & ? & ?).
    destruct (Horm t1) as
      (? & ? & ? & ? & ? & ? & ? & ? & ? & ? & ? & ? & ? & ? & ? & ?).
    repeat split; congruence.
  - split; [exists t1; split; [exact Hd | by left]|].
    destruct Hd as (? & ? & ? & ? & ? & ? & ? & ? & ? & ? & ?).
    repeat split; congruence.
Qed.

Lemma save_frame_witness :
  let t := demo_trade "PSO" 10 (Decimal.cents 10000)
             (Some (Decimal.cents 12000)) (Some (Decimal.cents 9000))
             (Some (Decimal.cents 11000)) in
  Trade.quantity (Trade.save (Trade.orm_insert 1700000000) t).2 = 10 /\
  Trade.mtp (Trade.save (Trade.orm_insert 1700000000) t).2
    = Some (Decimal.cents 12000).
Proof.
  intros t.
  pose proof (save_frame (Trade.orm_insert 1700000000) t (orm_insert_write _))
    as (_ & Hq & _ & _ & Hm & _).
  split; [exact Hq | exact Hm].
Defined.

(** C8. Recomputation is idempotent: saving again with the inputs unchanged
    leaves each of the six derived fields as the first [save] left it,
    whatever the two ORM writes do within their contract. *)
Theorem save_idempotent (super_save super_save' : Trade.M unit) (t : Trade.t) :
  Trade.orm_write super_save ->
  Trade.orm_write super_save' ->
  let t1 := (Trade.save super_save t).2 in
  derived_fields (Trade.save super_save' t1).2 = derived_fields t1.
Proof.
  intros Horm Horm' t1.
  pose proof (save_same_inputs super_save t Horm) as Hin. fold t1 in Hin.
  destruct (formulas_same_inputs t t1 Hin) as (Epe & Epp & Ele & Er & Erd & Elr).
  rewrite (save_run super_save' t1). rewrite Epe, Epp, Ele, Er, Erd, Elr.
  subst t1. rewrite (save_run super_save t) in *.
  destruct (profit_percent_of t) as [pp|e].
  - destruct (pl_ratio_of t) as [r|e]; cbv zeta.
    + match goal with |- context [super_save ?big] => set (b := big) end.
      destruct (Horm b) as
        (_ & _ & _ & _ & _ & _ & _ & Hpe & Hppc & Hle & Hlr & Hplr & Hrd & _).
      match goal with |- context [super_save' ?big] => set (b' := big) end.
      destruct (Horm' b') as
        (_ & _ & _ & _ & _ & _ & _ & Hpe' & Hppc' & Hle' & Hlr' & Hplr' & Hrd' & _).
      unfold derived_fields.
      rewrite Hpe, Hppc, Hle, Hlr, Hplr, Hrd, Hpe', Hppc', Hle', Hlr', Hplr', Hrd'.
      reflexivity.
    + cbn [snd]. unfold derived_fields. reflexivity.
  - cbn [snd]. unfold derived_fields. reflexivity.
Qed.

Lemma save_idempotent_witness :
  let t := demo_trade "PSO" 10 (Decimal.cents 10000)
             (Some (Decimal.cents 12000)) (Some (Decimal.cents 9000))
             (Some (Decimal.cents 9500)) in
  let t1 := (Trade.save (Trade.orm_insert 1700000000) t).2 in
  derived_fields (Trade.save (Trade.orm_insert 1700000060) t1).2
    = derived_fields t1.
Proof.
  intros t.
  exact (save_idempotent (Trade.orm_insert 1700000000)
           (Trade.orm_insert 1700000060) t
           (orm_insert_write _) (orm_insert_write _)).
Defined.

(** A price counts when it is set and not zero. *)
Lemma if_set_Some (x : option decimal) (p : decimal) :
  x = Some p -> Decimal.coef p <> 0 -> if_set x = Some p.
Proof.
  intros -> Hp. unfold if_set, Decimal.truthy.
  destruct (Z.eqb_spec (Decimal.coef p) 0); [done|reflexivity].
Qed.

Lemma if_set_None (x : option decimal) :
  (x = None \/ exists p, x = Some p /\ Decimal.coef p = 0) -> if_set x = None.
Proof.
  intros [-> | (p & -> & Hp)]; [reflexivity|].
  unfold if_set, Decimal.truthy. by rewrite Hp.
Qed.

Lemma if_set_spec (x : option decimal) :
  match if_set x with
  | Some p => x = Some p /\ Decimal.coef p <> 0
  | None => x = None \/ exists p, x = Some p /\ Decimal.coef p = 0
  end.
Proof.
  destruct x as [p|]; cbn; [|by left]. unfold Decimal.truthy.
  destruct (Z.eqb_spec (Decimal.coef p) 0); cbn; [right; by exists p | done].
Qed.

(** The rate difference [save] leaves when it returns. *)
Lemma save_rate_difference (super_save : Trade.M unit) (t : Trade.t) :
  Trade.orm_write super_save ->
  is_ok (Trade.save super_save t).1 = true ->
  Trade.rate_difference (Trade.save super_save t).2 = rate_difference_of t.
Proof.
  intros Horm. rewrite save_run.
  destruct (profit_percent_of t) as [pp|e]; [|discriminate].
  destruct (pl_ratio_of t) as [r|e]; [|discriminate].
  cbv zeta. intros _.
  match goal with |- context [super_save ?big] => set (b := big) end.
  destruct (Horm b) as
    (_ & _ & _ & _ & _ & _ & _ & _ & _ & _ & _ & _ & Hrd & _).
  rewrite Hrd. reflexivity.
Qed.

(** ** [save] on stored values *)

Lemma column_sub a b :
  column a -> column b ->
  Decimal.sub a b = Decimal.cents (Decimal.coef a - Decimal.coef b) /\
  Z.abs (Decimal.coef a - Decimal.coef b) < 10 ^ 11.
Proof.
  intros Ha Hb. rewrite (DecimalFacts.column_cents a Ha) at 1.
  rewrite (DecimalFacts.column_cents b Hb) at 1.
  destruct Ha as (_ & Ha), Hb as (_ & Hb).
  assert (Hlt : Z.abs (Decimal.coef a - Decimal.coef b) < 10 ^ 11) by lia.
  split; [|exact Hlt]. apply DecimalFacts.sub_cents. unfold Decimal.prec. lia.
Qed.

(** The percentage of the target is always defined on stored inputs: the
    division is guarded and the quotient is small enough to round. *)
Lemma profit_percent_defined (t : Trade.t) :
  stored_inputs t -> exists pp, profit_percent_of t = Ok pp.
Proof.
  intros (Hb & Hm & _). unfold profit_percent_of.
  pose proof (if_set_spec (Trade.mtp t)) as Hsm.
  destruct (if_set (Trade.mtp t)) as [m|]; [|by eexists].
  pose proof (if_set_spec (Some (Trade.buying_price t))) as Hsb.
  destruct (if_set (Some (Trade.buying_price t))) as [b|]; [|by eexists].
  destruct Hsm as (Hmtp & _), Hsb as ([= <-] & Hbz).
  destruct (column_sub m (Trade.buying_price t) (Hm m Hmtp) Hb) as (-> & Hd).
  destruct (DecimalFacts.percent_defined
              (Decimal.cents (Decimal.coef m - Decimal.coef (Trade.buying_price t)))
              (Trade.buying_price t) Hbz) as (r & p & -> & Hp).
  { intros _.
    pose proof (DecimalFacts.adjusted_cents_le _ 11 ltac:(lia) Hd).
    pose proof (DecimalFacts.adjusted_ge_exp (Trade.buying_price t)).
    destruct Hb as (Hexp & _). lia. }
  cbn [rbind]. rewrite Hp. by eexists.
Qed.

Lemma pl_ratio_defined (t : Trade.t) :
  stored_inputs t -> exists r, pl_ratio_of t = Ok r.
Proof.
  intros (Hb & Hm & Hs). unfold pl_ratio_of.
  pose proof (if_set_spec (Trade.mtp t)) as Hsm.
  destruct (if_set (Trade.mtp t)) as [m|]; [|by eexists].
  pose proof (if_set_spec (Trade.msl t)) as Hss.
  destruct (if_set (Trade.msl t)) as [s|]; [|by eexists].
  pose proof (if_set_spec (Some (Trade.buying_price t))) as Hsb.
  destruct (if_set (Some (Trade.buying_price t))) as [b|]; [|by eexists].
  destruct Hsm as (Hmtp & _), Hss as (Hmsl & _), Hsb as ([= <-] & Hbz).
  destruct (column_sub m (Trade.buying_price t) (Hm m Hmtp) Hb) as (-> & Hd).
  destruct (column_sub (Trade.buying_price t) s Hb (Hs s Hmsl)) as (-> & Hd').
  destruct (Decimal.gtb _ (Decimal.of_int 0)) eqn:Hgt; [|by eexists].
  apply DecimalFacts.gtb_cents_zero in Hgt.
  destruct (DecimalFacts.ratio_defined
              (Decimal.cents (Decimal.coef m - Decimal.coef (Trade.buying_price t)))
              (Decimal.cents (Decimal.coef (Trade.buying_price t) - Decimal.coef s))
              Hgt) as (r & p & -> & Hp).
  { intros _.
    pose proof (DecimalFacts.adjusted_cents_le _ 11 ltac:(lia) Hd).
    pose proof (DecimalFacts.adjusted_cents_ge
                  (Decimal.coef (Trade.buying_price t) - Decimal.coef s)).
    lia. }
  cbn [rbind]. rewrite Hp. by eexists.
Qed.

(** On stored inputs [save] never raises by itself: it assigns the six
    fields by the formulas and hands the instance to the ORM, so it returns
    whenever the ORM write does. *)
Lemma save_reaches_orm (super_save : Trade.M unit) (t : Trade.t) :
  stored_inputs t ->
  exists pp r,
    profit_percent_of t = Ok pp /\ pl_ratio_of t = Ok r /\
    Trade.save super_save t
    = super_save
        (Trade.set_loss_recent (loss_recent_of t)
           (Trade.set_rate_difference (rate_difference_of t)
              (Trade.set_pl_ratio r
                 (Trade.set_loss_expected (loss_expected_of t)
                    (Trade.set_profit_percent pp
                       (Trade.set_profit_expected (profit_expected_of t) t)))))).
Proof.
  intros Hst.
  destruct (profit_percent_defined t Hst) as (pp & Hpp).
  destruct (pl_ratio_defined t Hst) as (r & Hr).
  exists pp, r. rewrite save_run, Hpp, Hr. done.
Qed.

(** C6, as the code has it.  A current price counts when it is present and
    not zero: then current_value is quantity x current_price and, once
    [save] has returned, rate_difference is current_price - buying_price;
    on two-decimal column values both are exact.  With the price absent or
    equal to zero both are undefined. *)
Theorem current_value_rate_difference
    (super_save : Trade.M unit) (t : Trade.t) :
  Trade.orm_write super_save ->
  is_ok (Trade.save super_save t).1 = true ->
  let t' := (Trade.save super_save t).2 in
  (forall p, Stock.current_price (Trade.stock t) = Some p ->
     Decimal.coef p <> 0 ->
     Trade.current_value t
       = Some (Decimal.mul (Decimal.of_int (Trade.quantity t)) p) /\
     Trade.rate_difference t' = Some (Decimal.sub p (Trade.buying_price t))) /\
  (forall cp cb, Stock.current_price (Trade.stock t) = Some (Decimal.cents cp) ->
     Trade.buying_price t = Decimal.cents cb ->
     cp <> 0 -> Z.abs cp < 10 ^ 10 -> Z.abs cb < 10 ^ 10 ->
     0 <= Trade.quantity t < 2 ^ 31 ->
     Trade.current_value t = Some (Decimal.cents (Trade.quantity t * cp)) /\
     Trade.rate_difference t' = Some (Decimal.cents (cp - cb))) /\
  ((Stock.current_price (Trade.stock t) = None \/
    exists p, Stock.current_price (Trade.stock t) = Some p /\ Decimal.coef p = 0) ->
     Trade.current_value t = None /\ Trade.rate_difference t' = None).
Proof.
  intros Horm Hok t'. subst t'.
  rewrite (save_rate_difference _ _ Horm Hok).
  unfold Trade.current_value, rate_difference_of, Trade.current_price.
  assert (Hgen : forall p, Stock.current_price (Trade.stock t) = Some p ->
     Decimal.coef p <> 0 ->
     match if_set (Stock.current_price (Trade.stock t)) with
     | Some p0 => Some (Decimal.mul (Decimal.of_int (Trade.quantity t)) p0)
     | None => None
     end = Some (Decimal.mul (Decimal.of_int (Trade.quantity t)) p) /\
     match if_set (Stock.current_price (Trade.stock t)) with
     | Some p0 => Some (Decimal.sub p0 (Trade.buying_price t))
     | None => None
     end = Some (Decimal.sub p (Trade.buying_price t))).
  { intros p Hp Hnz. by rewrite (if_set_Some _ p Hp Hnz). }
  split; [exact Hgen|]. split.
  - intros cp cb Hp Hb Hnz Hcp Hcb Hq.
    destruct (Hgen _ Hp Hnz) as (-> & ->). rewrite Hb.
    assert (Hprod : Z.abs (Trade.quantity t * cp) < 10 ^ Decimal.prec).
    { rewrite Z.abs_mul. unfold Decimal.prec.
      assert (Z.abs (Trade.quantity t) * Z.abs cp <= 2 ^ 31 * 10 ^ 10)
        by (apply Z.mul_le_mono_nonneg; lia).
      change (2 ^ 31 * 10 ^ 10) with 21474836480000000000 in *.
      change (10 ^ 28) with 10000000000000000000000000000. lia. }
    rewrite DecimalFacts.mul_int_cents by exact Hprod.
    rewrite DecimalFacts.sub_cents; [done|].
    unfold Decimal.prec. change (10 ^ 10) with 10000000000 in *.
    change (10 ^ 28) with 10000000000000000000000000000. lia.
  - intros Hnone. by rewrite (if_set_None _ Hnone).
Qed.

Lemma current_value_rate_difference_witness :
  let t := demo_trade "PSO" 10 (Decimal.cents 10000)
             (Some (Decimal.cents 12000)) (Some (Decimal.cents 9000))
             (Some (Decimal.cents 9500)) in
  Trade.current_value t = Some (Decimal.cents 95000) /\
  Trade.rate_difference (Trade.save (Trade.orm_insert 1700000000) t).2
    = Some (Decimal.cents (-500)).
Proof.
  intros t.
  pose proof (current_value_rate_difference (Trade.orm_insert 1700000000) t
                (orm_insert_write _) eq_refl) as (_ & H & _).
  apply (H 9500 10000); try reflexivity; cbn; lia.
Defined.

(** C6 as the specification states it fails on a price of zero: the price
    is present, and both quantities are undefined. *)
Lemma zero_price_is_no_price :
  ~ (forall (super_save : Trade.M unit) (t : Trade.t) (p : decimal),
       Trade.orm_write super_save ->
       is_ok (Trade.save super_save t).1 = true ->
       Stock.current_price (Trade.stock t) = Some p ->
       Trade.current_value t
         = Some (Decimal.mul (Decimal.of_int (Trade.quantity t)) p) /\
       Trade.rate_difference (Trade.save super_save t).2
         = Some (Decimal.sub p (Trade.buying_price t))).
Proof.
  intros H.
  destruct (H (Trade.orm_insert 1700000000)
              (demo_trade "PSO" 10 (Decimal.cents 10000)
                 (Some (Decimal.cents 12000)) (Some (Decimal.cents 9000))
                 (Some (Decimal.cents 0)))
              (Decimal.cents 0) (orm_insert_write _) eq_refl eq_refl)
    as (Hcv & _).
  vm_compute in Hcv. discriminate.
Qed.

End TradeFacts.

(* ===================================================================== *)
(** * fetch_stock_from_psx *)
(* ===================================================================== *)

Module ServicesFacts.
Import Services ServicesDefs.

Section Outcomes.
Variable COMPANY_NAMES : gmap string string.
Variable requests_get : string -> list (string * string) -> Z -> result Response.
Variable symbol : string.

Let url : string := ("https://psxterminal.com/api/ticks/REG/" ++ upper symbol)%string.
Let fetch := fetch_stock_from_psx COMPANY_NAMES requests_get symbol.

(** The request goes to the upper-cased symbol, with a timeout of 10. *)
Lemma fetch_empty_symbol : symbol = "" -> fetch = Ok None.
Proof. intros ->. reflexivity. Qed.

Lemma fetch_unfold :
  symbol <> "" ->
  fetch =
  except_RequestException
    (let? response := requests_get url headers 10 in
     if negb (status_code response =? 200) then Ok None
     else
       let? payload := json response in
       let? success := py_get payload "success" in
       if negb (truthy success) then Ok None
       else
         let? data := py_get payload "data" in
         if negb (truthy data) then Ok None
         else
           let? price := py_get data "price" in
           if is_none price then Ok None
           else
             let? change := py_get data "change" in
             let? change_percent := py_get data "changePercent" in
             let? volume := py_get data "volume" in
             let? high := py_get data "high" in
             let? low := py_get data "low" in
             Ok (Some {| q_symbol := symbol;
                         q_name := default (upper symbol)
                                     (COMPANY_NAMES !! upper symbol);
                         q_price := price;
                         q_change := change;
                         q_change_percent := change_percent;
                         q_volume := volume;
                         q_high := high;
                         q_low := low |}))%result.
Proof.
  intros Hs. unfold fetch, fetch_stock_from_psx.
  destruct (String.eqb_spec symbol ""); [done|reflexivity].
Qed.

(** A network error or a timeout, that is any [RequestException] of the
    call, is "no data". *)
Lemma fetch_request_exception e :
  requests_get url headers 10 = Raise e ->
  exn_cls e = RequestException ->
  fetch = Ok None.
Proof.
  intros Hget Hcls. destruct (decide (symbol = "")) as [->|Hs]; [reflexivity|].
  rewrite fetch_unfold by done. rewrite Hget. cbn.
  destruct (decide (exn_cls e = RequestException)); done.
Qed.

Lemma fetch_bad_status response :
  requests_get url headers 10 = Ok response ->
  status_code response <> 200 ->
  fetch = Ok None.
Proof.
  intros Hget Hst. destruct (decide (symbol = "")) as [->|Hs]; [reflexivity|].
  rewrite fetch_unfold by done. rewrite Hget. cbn.
  destruct (Z.eqb_spec (status_code response) 200); done.
Qed.

(** A body that is not JSON is "no data". *)
Lemma fetch_not_json response :
  requests_get url headers 10 = Ok response ->
  content response = NotJson ->
  fetch = Ok None.
Proof.
  intros Hget Hc. destruct (decide (symbol = "")) as [->|Hs]; [reflexivity|].
  rewrite fetch_unfold by done. rewrite Hget. cbn.
  destruct (status_code response =? 200); [|done].
  cbn. unfold json. rewrite Hc. reflexivity.
Qed.

(** On a JSON object the flag, the data and the price decide. *)
Lemma fetch_object response items :
  symbol <> "" ->
  requests_get url headers 10 = Ok response ->
  status_code response = 200 ->
  content response = Json (PDict items) ->
  fetch =
  if negb (truthy (default PNone (assoc "success" items))) then Ok None
  else
    let data := default PNone (assoc "data" items) in
    if negb (truthy data) then Ok None
    else
      match data with
      | PDict fields =>
          let price := default PNone (assoc "price" fields) in
          if is_none price then Ok None
          else Ok (Some {| q_symbol := symbol;
                           q_name := default (upper symbol)
                                       (COMPANY_NAMES !! upper symbol);
                           q_price := price;
                           q_change := default PNone (assoc "change" fields);
                           q_change_percent :=
                             default PNone (assoc "changePercent" fields);
                           q_volume := default PNone (assoc "volume" fields);
                           q_high := default PNone (assoc "high" fields);
                           q_low := default PNone (assoc "low" fields) |})
      | _ =>
          Raise (Exn AttributeError
                   ("'" ++ type_name data ++ "' object has no attribute 'get'")%string)
      end.
Proof.
  intros Hs Hget Hst Hc. rewrite fetch_unfold by done. rewrite Hget.
  cbn -[assoc]. rewrite Hst. cbn -[assoc]. unfold json. rewrite Hc.
  cbn -[assoc].
  destruct (truthy (default PNone (assoc "success" items)));
    cbn -[assoc]; [|done].
  destruct (default PNone (assoc "data" items))
    as [| b | z | f | s | d | l | fields] eqn:Hd; cbn -[assoc]; try done.
  - by destruct b.
  - by destruct (z =? 0).
  - by destruct f.
  - by destruct (String.eqb s "").
  - by destruct (Decimal.truthy d).
  - by destruct l.
  - destruct fields as [|fld fields']; [done|].
    cbn -[assoc]. set (fs := fld :: fields').
    by destruct (is_none (default PNone (assoc "price" fs))).
Qed.

(** A body that decodes to something else than an object escapes as an
    [AttributeError]. *)
Lemma fetch_not_an_object response v :
  symbol <> "" ->
  requests_get url headers 10 = Ok response ->
  status_code response = 200 ->
  content response = Json v ->
  (forall items, v <> PDict items) ->
  fetch = Raise (Exn AttributeError
                   ("'" ++ type_name v ++ "' object has no attribute 'get'")%string).
Proof.
  intros Hs Hget Hst Hc Hv. rewrite fetch_unfold by done. rewrite Hget. cbn.
  rewrite Hst. cbn. unfold json. rewrite Hc. cbn.
  destruct v; try reflexivity. by destruct (Hv items).
Qed.

End Outcomes.

(** C4 fails on a malformed payload: a well-formed JSON body that is not an
    object, or whose data is not an object, makes the fetch raise
    [AttributeError] past its boundary instead of returning "no data". *)
Theorem fetch_raises_on_malformed_payload (COMPANY_NAMES : gmap string string) :
  fetch_stock_from_psx COMPANY_NAMES array_provider "PSO"
    = Raise (Exn AttributeError "'list' object has no attribute 'get'") /\
  fetch_stock_from_psx COMPANY_NAMES list_data_provider "PSO"
    = Raise (Exn AttributeError "'list' object has no attribute 'get'").
Proof. split; reflexivity. Qed.

End ServicesFacts.

(* ===================================================================== *)
(** * portfolio_dashboard *)
(* ===================================================================== *)

Module DashboardFacts.
Import Views DecimalFacts DashboardDefs.

(** ** The order of the holdings *)

(** C2 fails in the code: with the sort key "profit" the view evaluates
    [-"pl"], the unary minus of a string, and raises [TypeError] before
    any ordering takes place, whatever the trades are. *)
Theorem profit_sort_raises (nulls_low : bool) (Trade_objects : list Trade.t)
    (request : Request) (u : User) :
  req_user request = Some u ->
  GET request !! "sort" = Some "profit" ->
  portfolio_dashboard nulls_low Trade_objects request
    = Raise (Exn TypeError "bad operand type for unary -: 'str'").
Proof.
  intros Hu Hsort. unfold portfolio_dashboard. rewrite Hu.
  cbv zeta. unfold GET_get. rewrite Hsort. reflexivity.
Qed.

Lemma profit_sort_raises_witness :
  portfolio_dashboard true
    [TradeDefs.demo_trade "PSO" 10 (Decimal.cents 10000) None None
       (Some (Decimal.cents 11000))]
    (dashboard_request TradeDefs.demo_user "profit")
    = Raise (Exn TypeError "bad operand type for unary -: 'str'").
Proof.
  apply (profit_sort_raises _ _ _ TradeDefs.demo_user); reflexivity.
Defined.

Lemma profit_pl_ranking_term t : profit_pl t = Some (ranking_term t).
Proof.
  unfold profit_pl, ranking_term, Coalesce.
  by destruct (Stock.current_price (Trade.stock t)).
Qed.

(** C7 fails in the code: the "loss" branch ranks by an expression without
    the [Coalesce] of the "profit" branch, so an unquoted holding has a NULL
    rank and goes to one end of the list, wherever the database puts NULL.
    On the three holdings the ascending order of the ranking term is BBB,
    AAA, CCC; the view answers AAA, BBB, CCC or BBB, CCC, AAA. *)
Theorem loss_sort_ranks_unquoted_as_null :
  map ranking_term three_holdings
    = [Decimal.cents (-1000); Decimal.cents (-5000); Decimal.cents 500] /\
  forall nulls_low : bool,
    let response :=
      portfolio_dashboard nulls_low three_holdings
        (dashboard_request TradeDefs.demo_user "loss") in
    symbols_of response
      = (if nulls_low then ["AAA"; "BBB"; "CCC"] else ["BBB"; "CCC"; "AAA"]) /\
    ascending Decimal.leb (ranks_of response) = false.
Proof.
  split; [by vm_compute|].
  intros [|]; split; by vm_compute.
Qed.

(** ** The totals *)

Lemma abs_sum_nonneg xs : 0 <= abs_sum xs.
Proof. induction xs; cbn; lia. Qed.

Lemma sum_le_abs_sum xs : Z.abs (zsum xs) <= abs_sum xs.
Proof. induction xs as [|x xs IH]; cbn; lia. Qed.

(** The sum of Python, run on hundredths that stay within the precision. *)
Lemma fold_sum_cents (xs : list Z) :
  forall (acc : num) (a : Z),
    is_amount acc a ->
    Z.abs a + abs_sum xs < 10 ^ Decimal.prec ->
    is_amount
      (fold_left (fun acc x => num_add acc (Dec x)) (map Decimal.cents xs) acc)
      (a + zsum xs).
Proof.
  induction xs as [|x xs IH]; intros acc a Hacc Hb.
  - cbn. by rewrite Z.add_0_r.
  - cbn [map fold_left zsum abs_sum] in *.
    pose proof (abs_sum_nonneg xs).
    replace (a + (x + zsum xs)) with ((a + x) + zsum xs) by lia.
    apply IH; [|lia].
    right. destruct Hacc as [[-> ->] | ->]; cbn [num_add num_dec].
    + rewrite DecimalFacts.add_zero_cents by lia. reflexivity.
    + rewrite DecimalFacts.add_cents by lia. reflexivity.
Qed.

Lemma py_sum_cents (xs : list Z) :
  abs_sum xs < 10 ^ Decimal.prec ->
  is_amount (py_sum (map Decimal.cents xs)) (zsum xs).
Proof.
  intros Hb. unfold py_sum.
  apply (fold_sum_cents xs Int0 0); [by left | cbn; lia].
Qed.

Lemma product_bound q c :
  0 <= q < 2 ^ 31 -> Z.abs c < 10 ^ 10 -> Z.abs (q * c) < holding_bound.
Proof.
  intros Hq Hc. rewrite Z.abs_mul. unfold holding_bound.
  destruct (Z.eq_dec q 0) as [->|Hq0]; [cbn; lia|].
  apply Z.mul_lt_mono_nonneg; lia.
Qed.

Lemma product_fits q c :
  0 <= q < 2 ^ 31 -> Z.abs c < 10 ^ 10 -> Z.abs (q * c) < 10 ^ Decimal.prec.
Proof.
  intros Hq Hc. pose proof (product_bound q c Hq Hc) as H.
  unfold holding_bound, Decimal.prec in *.
  change (2 ^ 31 * 10 ^ 10) with 21474836480000000000 in H.
  change (10 ^ 28) with 10000000000000000000000000000. lia.
Qed.

Lemma omap_cons {A B} (f : A -> option B) (x : A) (l : list A) :
  omap f (x :: l)
  = match f x with Some y => y :: omap f l | None => omap f l end.
Proof. reflexivity. Qed.

Lemma cost_terms_sum trades : zsum (cost_terms trades) = cost_cents trades.
Proof.
  induction trades as [|t ts IH]; [done|].
  cbn [cost_terms map zsum cost_cents]. fold (cost_terms ts). by rewrite IH.
Qed.

(** A price of zero is left out of the sum by the code and adds nothing in
    the specification. *)
Lemma value_terms_sum trades :
  zsum (value_terms trades) = value_cents trades.
Proof.
  induction trades as [|t ts IH]; [done|].
  unfold value_terms in *. rewrite omap_cons. cbn [value_cents].
  pose proof (TradeFacts.if_set_spec (Stock.current_price (Trade.stock t))) as Hs.
  destruct (if_set (Stock.current_price (Trade.stock t))) as [p|].
  - destruct Hs as (-> & _). cbn [zsum]. by rewrite IH.
  - destruct Hs as [-> | (p & -> & Hz)]; [exact IH|]. rewrite IH, Hz. lia.
Qed.

Lemma cost_terms_abs trades :
  Forall stored_trade trades ->
  abs_sum (cost_terms trades) <= Z.of_nat (length trades) * holding_bound.
Proof.
  induction 1 as [|t ts (Hq & (_ & Hb) & _) _ IH]; [cbn; lia|].
  cbn [cost_terms map abs_sum length]. fold (cost_terms ts).
  pose proof (product_bound _ _ Hq Hb). lia.
Qed.

Lemma value_terms_abs trades :
  Forall stored_trade trades ->
  abs_sum (value_terms trades) <= Z.of_nat (length trades) * holding_bound.
Proof.
  induction 1 as [|t ts (Hq & _ & Hp) _ IH]; [cbn; lia|].
  unfold value_terms in *. rewrite omap_cons. cbn [length].
  assert (0 <= holding_bound) by (unfold holding_bound; lia).
  pose proof (TradeFacts.if_set_spec (Stock.current_price (Trade.stock t))) as Hs.
  destruct (if_set (Stock.current_price (Trade.stock t))) as [p|]; [|lia].
  destruct Hs as (Hs & _). cbn [abs_sum]. destruct (Hp p Hs) as (_ & Hc).
  pose proof (product_bound _ _ Hq Hc). lia.
Qed.

Lemma total_cost_of_cents trades :
  Forall stored_trade trades ->
  total_cost_of trades = py_sum (map Decimal.cents (cost_terms trades)).
Proof.
  intros Hall. unfold total_cost_of, cost_terms. f_equal.
  rewrite map_map. apply map_ext_Forall.
  eapply Forall_impl; [exact Hall|]. intros t (Hq & Hb & _). cbn beta.
  rewrite (column_cents _ Hb) at 1.
  apply DecimalFacts.mul_int_cents, product_fits; [exact Hq | apply Hb].
Qed.

Lemma total_value_of_cents trades :
  Forall stored_trade trades ->
  total_value_of trades = py_sum (map Decimal.cents (value_terms trades)).
Proof.
  intros Hall. unfold total_value_of, value_terms. f_equal.
  induction Hall as [|t ts (Hq & _ & Hp) _ IH]; [done|].
  rewrite !omap_cons.
  pose proof (TradeFacts.if_set_spec (Stock.current_price (Trade.stock t))) as Hs.
  destruct (if_set (Stock.current_price (Trade.stock t))) as [p|]; [|exact IH].
  destruct Hs as (Hs & _). cbn [map]. rewrite IH. f_equal.
  destruct (Hp p Hs) as (He & Hc).
  rewrite (column_cents p (conj He Hc)) at 1.
  apply DecimalFacts.mul_int_cents, product_fits; [exact Hq | exact Hc].
Qed.

Lemma sub_cents_zero c :
  Z.abs c < 10 ^ Decimal.prec ->
  Decimal.sub (Decimal.cents c) (Decimal.of_int 0) = Decimal.cents c.
Proof.
  intros H. unfold Decimal.sub, Decimal.neg, Decimal.add, Decimal.add_exact,
    Decimal.of_int, Decimal.cents. cbn [Decimal.coef Decimal.dexp].
  change (Z.min (-2) 0) with (-2). change (-2 - -2) with 0.
  change (- 0) with 0. rewrite Z.mul_0_l, Z.pow_0_r, Z.mul_1_r, Z.add_0_r.
  by apply DecimalFacts.fix_small.
Qed.

Lemma num_sub_amount (x y : num) (v c : Z) :
  is_amount x v -> is_amount y c ->
  Z.abs v < 10 ^ Decimal.prec -> Z.abs c < 10 ^ Decimal.prec ->
  Z.abs (v - c) < 10 ^ Decimal.prec ->
  is_amount (num_sub x y) (v - c) /\
  (y = Dec (Decimal.cents c) -> num_sub x y = Dec (Decimal.cents (v - c))).
Proof.
  intros [[-> ->] | ->] [[-> ->] | ->] Hv Hc Hvc; cbn [num_sub num_dec].
  - split; [by left | done].
  - rewrite DecimalFacts.sub_zero_cents by done.
    replace (0 - c) with (- c) by lia. split; [by right | done].
  - rewrite sub_cents_zero by done. rewrite Z.sub_0_r. split; [by right | done].
  - rewrite DecimalFacts.sub_cents by done. split; [by right | done].
Qed.

(** What the view puts in the context, in terms of the holdings it lists. *)
Lemma dashboard_context (nulls_low : bool) (Trade_objects : list Trade.t)
    (request : Request) (template : string) (ctx : DashboardContext) :
  portfolio_dashboard nulls_low Trade_objects request = Ok (Render template ctx) ->
  ctx_total_cost ctx = total_cost_of (holdings ctx) /\
  ctx_total_value ctx = total_value_of (holdings ctx) /\
  ctx_unrealized_pl ctx = num_sub (ctx_total_value ctx) (ctx_total_cost ctx) /\
  pl_percentage_of (ctx_unrealized_pl ctx) (ctx_total_cost ctx)
    = Ok (ctx_pl_percentage ctx) /\
  active_trades ctx = length (holdings ctx).
Proof.
  unfold portfolio_dashboard. destruct (req_user request) as [u|]; [|done].
  cbv zeta.
  match goal with |- context [sorted_trades ?n ?k ?l] =>
    destruct (sorted_trades n k l) as [trades|e] end; [|done].
  cbn [rbind].
  match goal with |- context [pl_percentage_of ?a ?b] =>
    destruct (pl_percentage_of a b) as [pct|e] eqn:Hpct end; [|done].
  cbn [rbind]. intros [= <- <-]. cbn. by rewrite Hpct.
Qed.

(** C3. The totals of the report over the holdings it lists, for stored
    two-decimal values, in hundredths: total_cost is the sum of quantity x
    buying_price over all holdings; total_value is the sum of quantity x
    current_price over the holdings whose stock has a price, the others
    being left out; unrealized_pl is total_value - total_cost; pl_percentage
    is round(unrealized_pl / total_cost x 100, 2) when total_cost is not
    zero and the int 0 otherwise. *)
Theorem dashboard_totals (nulls_low : bool) (Trade_objects : list Trade.t)
    (request : Request) (template : string) (ctx : DashboardContext) :
  portfolio_dashboard nulls_low Trade_objects request = Ok (Render template ctx) ->
  Forall stored_trade (holdings ctx) ->
  Z.of_nat (length (holdings ctx)) <= 10 ^ 7 ->
  let cost := cost_cents (holdings ctx) in
  let value := value_cents (holdings ctx) in
  is_amount (ctx_total_cost ctx) cost /\
  is_amount (ctx_total_value ctx) value /\
  ctx_unrealized_pl ctx = num_sub (ctx_total_value ctx) (ctx_total_cost ctx) /\
  is_amount (ctx_unrealized_pl ctx) (value - cost) /\
  (cost = 0 -> ctx_pl_percentage ctx = Int0) /\
  (cost <> 0 ->
   exists r p,
     Decimal.div (Decimal.cents (value - cost)) (Decimal.cents cost) = Ok r /\
     Decimal.round (Decimal.mul r (Decimal.of_int 100)) 2 = Ok p /\
     ctx_pl_percentage ctx = Dec p).
Proof.
  intros Hview Hall Hlen cost value.
  destruct (dashboard_context _ _ _ _ _ Hview) as (Hc & Hv & Hu & Hp & _).
  clear Hview.
  pose proof (cost_terms_abs _ Hall) as Hca.
  pose proof (value_terms_abs _ Hall) as Hva.
  assert (Hbig : 10 ^ 7 * holding_bound < 10 ^ 27) by (vm_compute; reflexivity).
  assert (0 <= holding_bound) by (unfold holding_bound; lia).
  assert (H27 : 2 * 10 ^ 27 < 10 ^ Decimal.prec) by (vm_compute; reflexivity).
  assert (Hn : Z.of_nat (length (holdings ctx)) * holding_bound < 10 ^ 27) by nia.
  assert (Hcost : is_amount (ctx_total_cost ctx) cost).
  { rewrite Hc, (total_cost_of_cents _ Hall). subst cost.
    rewrite <- cost_terms_sum. apply py_sum_cents. lia. }
  assert (Hvalue : is_amount (ctx_total_value ctx) value).
  { rewrite Hv, (total_value_of_cents _ Hall). subst value.
    rewrite <- value_terms_sum. apply py_sum_cents. lia. }
  assert (Hcb : Z.abs cost < 10 ^ 27).
  { subst cost. rewrite <- cost_terms_sum.
    pose proof (sum_le_abs_sum (cost_terms (holdings ctx))). lia. }
  assert (Hvb : Z.abs value < 10 ^ 27).
  { subst value. rewrite <- value_terms_sum.
    pose proof (sum_le_abs_sum (value_terms (holdings ctx))). lia. }
  destruct (num_sub_amount _ _ _ _ Hvalue Hcost) as (Hua & Hud); try lia.
  rewrite <- Hu in Hua, Hud.
  clear Hbig H27 Hn Hca Hva Hcb Hvb Hlen.
  repeat split; try assumption.
  - intros H0. unfold pl_percentage_of in Hp.
    destruct Hcost as [[Ec _] | Ec]; rewrite Ec in Hp; cbn in Hp.
    + congruence.
    + rewrite H0 in Hp. cbn in Hp. congruence.
  - intros Hnz. destruct Hcost as [[_ H0] | Ec]; [exact (False_ind _ (Hnz H0))|].
    specialize (Hud Ec). unfold pl_percentage_of in Hp.
    rewrite Ec, Hud in Hp. cbn [num_truthy] in Hp.
    assert (Ht : Decimal.truthy (Decimal.cents cost) = true).
    { unfold Decimal.truthy. cbn [Decimal.coef Decimal.cents].
      destruct (Z.eqb_spec cost 0) as [E|E];
        [exact (False_ind _ (Hnz E)) | reflexivity]. }
    rewrite Ht in Hp. cbn [num_div num_dec] in Hp.
    destruct (Decimal.div (Decimal.cents (value - cost)) (Decimal.cents cost))
      as [r|e] eqn:Hdiv; [|done].
    cbn [rbind] in Hp.
    destruct (Decimal.round (Decimal.mul r (Decimal.of_int 100)) 2)
      as [p|e] eqn:Hround; [|done].
    cbn [rbind] in Hp. exists r, p.
    split; [reflexivity|]. split; [exact Hround|]. congruence.
Qed.

(** ** The report is produced *)

Lemma insert_sorted_perm {A K} (leb : K -> K -> bool) (key : A -> K)
    (x : A) (l : list A) :
  insert_sorted leb key x l ≡ₚ x :: l.
Proof.
  induction l as [|y l IH]; cbn; [done|].
  destruct (leb (key x) (key y)); [done|].
  rewrite IH. apply Permutation_swap.
Qed.

Lemma sort_by_perm {A K} (leb : K -> K -> bool) (key : A -> K) (l : list A) :
  sort_by leb key l ≡ₚ l.
Proof.
  induction l as [|x l IH]; cbn; [done|].
  fold (sort_by leb key l). by rewrite insert_sorted_perm, IH.
Qed.

Lemma annotate_fst (expr : Trade.t -> sql) (trades : list Trade.t) :
  (annotate expr trades).*1 = trades.
Proof.
  unfold annotate. induction trades as [|t ts IH]; cbn; [done|].
  by rewrite IH.
Qed.

(** Every sort key but "profit" gives the holdings back, reordered. *)
Lemma sorted_trades_perm (nulls_low : bool) (key : string)
    (trades : list Trade.t) :
  key <> "profit" ->
  exists l, sorted_trades nulls_low key trades = Ok l /\ l ≡ₚ trades.
Proof.
  intros Hkey. unfold sorted_trades.
  destruct (String.eqb key "symbol");
    [eexists; split; [reflexivity | apply sort_by_perm]|].
  destruct (String.eqb key "date");
    [eexists; split; [reflexivity | apply sort_by_perm]|].
  destruct (String.eqb_spec key "profit") as [|_]; [done|].
  destruct (String.eqb key "loss"); [|by eexists].
  eexists. split; [reflexivity|].
  change (map fst ?l) with (l.*1).
  rewrite sort_by_perm. by rewrite annotate_fst.
Qed.

Lemma cost_cents_perm (l l' : list Trade.t) :
  l ≡ₚ l' -> cost_cents l = cost_cents l'.
Proof. induction 1; cbn; lia. Qed.

Lemma value_cents_perm (l l' : list Trade.t) :
  l ≡ₚ l' -> value_cents l = value_cents l'.
Proof.
  induction 1 as [|t l l' _ IH|t t' l|l l' l'' _ IH1 _ IH2]; cbn.
  - done.
  - by rewrite IH.
  - destruct (Stock.current_price (Trade.stock t)),
             (Stock.current_price (Trade.stock t')); lia.
  - congruence.
Qed.

(** The percentage is defined while the unrealized amount stays below
    [10 ^ 22] hundredths. *)
Lemma pl_percentage_defined (total_value total_cost : num) (v c : Z) :
  is_amount total_value v -> is_amount total_cost c ->
  Z.abs v < 10 ^ 27 -> Z.abs c < 10 ^ 27 -> Z.abs (v - c) < 10 ^ 22 ->
  exists p, pl_percentage_of (num_sub total_value total_cost) total_cost = Ok p.
Proof.
  intros Hv Hc Hvb Hcb Hd. unfold pl_percentage_of.
  assert (H27 : 10 ^ 27 < 10 ^ Decimal.prec) by reflexivity.
  assert (H22 : 10 ^ 22 < 10 ^ Decimal.prec) by reflexivity.
  destruct (num_sub_amount _ _ _ _ Hv Hc) as (_ & Hsub); try lia.
  destruct Hc as [[-> ->] | Hc]; [by eexists|].
  rewrite (Hsub Hc), Hc. cbn [num_truthy].
  destruct (Decimal.truthy (Decimal.cents c)) eqn:Ht; [|by eexists].
  assert (Hnz : Decimal.coef (Decimal.cents c) <> 0).
  { unfold Decimal.truthy in Ht. by destruct (Z.eqb_spec (Decimal.coef (Decimal.cents c)) 0). }
  cbn [num_div num_dec].
  destruct (percent_defined (Decimal.cents (v - c)) (Decimal.cents c) Hnz)
    as (r & p & -> & Hp).
  { intros _. pose proof (adjusted_cents_le (v - c) 22 ltac:(lia) Hd).
    pose proof (adjusted_cents_ge c). lia. }
  cbn [rbind]. rewrite Hp. by eexists.
Qed.

(** For every sort key but "profit" the view renders a report on stored
    holdings: no rounding of it can fail while the unrealized amount is
    below [10 ^ 20]. *)
Lemma dashboard_renders (nulls_low : bool) (Trade_objects : list Trade.t)
    (request : Request) (u : User) :
  req_user request = Some u ->
  GET_get request "sort" "symbol" <> "profit" ->
  let held := filtered_holdings Trade_objects u request in
  Forall stored_trade held ->
  Z.of_nat (length held) <= 10 ^ 7 ->
  Z.abs (value_cents held - cost_cents held) < 10 ^ 22 ->
  exists ctx,
    portfolio_dashboard nulls_low Trade_objects request
      = Ok (Render "App/portfolio/dashboard.html" ctx) /\
    holdings ctx ≡ₚ held.
Proof.
  intros Hu Hsort held Hall Hlen Hd.
  unfold portfolio_dashboard. rewrite Hu. cbv zeta.
  fold (filtered_holdings Trade_objects u request). fold held.
  destruct (sorted_trades_perm nulls_low _ held Hsort) as (l & -> & Hperm).
  cbn [rbind].
  assert (Hall' : Forall stored_trade l) by (by rewrite Hperm).
  assert (Hlen' : Z.of_nat (length l) <= 10 ^ 7) by (by rewrite Hperm).
  rewrite <- (cost_cents_perm _ _ Hperm), <- (value_cents_perm _ _ Hperm) in Hd.
  pose proof (cost_terms_abs _ Hall') as Hca.
  pose proof (value_terms_abs _ Hall') as Hva.
  assert (Hbig : 10 ^ 7 * holding_bound < 10 ^ 27) by (vm_compute; reflexivity).
  assert (0 <= holding_bound) by (unfold holding_bound; lia).
  assert (H27 : 10 ^ 27 < 10 ^ Decimal.prec) by reflexivity.
  assert (Hn : Z.of_nat (length l) * holding_bound < 10 ^ 27) by nia.
  assert (Hcost : is_amount (total_cost_of l) (cost_cents l)).
  { rewrite (total_cost_of_cents _ Hall'), <- cost_terms_sum.
    apply py_sum_cents. lia. }
  assert (Hvalue : is_amount (total_value_of l) (value_cents l)).
  { rewrite (total_value_of_cents _ Hall'), <- value_terms_sum.
    apply py_sum_cents. lia. }
  assert (Hcb : Z.abs (cost_cents l) < 10 ^ 27).
  { rewrite <- cost_terms_sum. pose proof (sum_le_abs_sum (cost_terms l)). lia. }
  assert (Hvb : Z.abs (value_cents l) < 10 ^ 27).
  { rewrite <- value_terms_sum. pose proof (sum_le_abs_sum (value_terms l)). lia. }
  destruct (pl_percentage_defined _ _ _ _ Hvalue Hcost Hvb Hcb Hd) as (p & ->).
  cbn [rbind]. eexists. split; [reflexivity|]. exact Hperm.
Qed.

Lemma dashboard_totals_witness :
  is_amount (ctx_total_cost two_holdings_context) 110000 /\
  is_amount (ctx_total_value two_holdings_context) 110000 /\
  ctx_pl_percentage two_holdings_context = Dec (Decimal.cents 0).
Proof.
  assert (Hview : portfolio_dashboard true two_holdings
                    (dashboard_request TradeDefs.demo_user "symbol")
                  = Ok (Render "App/portfolio/dashboard.html" two_holdings_context))
    by (vm_compute; reflexivity).
  assert (Hall : Forall stored_trade (holdings two_holdings_context)).
  { constructor; [|constructor; [|constructor]].
    - split; [cbn; lia|]. split; [split; [reflexivity | cbn; lia]|].
      intros p. cbn. discriminate.
    - split; [cbn; lia|]. split; [split; [reflexivity | cbn; lia]|].
      intros p. cbn. intros [= <-]. split; [reflexivity | cbn; lia]. }
  assert (Hlen : Z.of_nat (length (holdings two_holdings_context)) <= 10 ^ 7)
    by (cbn; lia).
  pose proof (dashboard_totals _ _ _ _ _ Hview Hall Hlen) as (Hc & Hv & _ & _ & _ & _).
  repeat split; [exact Hc | exact Hv].
Defined.

End DashboardFacts.

(* ===================================================================== *)
(** * refresh_stock_prices_api *)
(* ===================================================================== *)

Module RefreshFacts.
Import Services Views RefreshDefs.

Lemma eq_zero_falsy (v : pyval) : eq_zero v = true -> truthy v = false.
Proof.
  destruct v as [| b | z | f | s | d | l | items]; cbn; try discriminate.
  - by destruct b.
  - by intros ->.
  - by destruct f.
  - unfold Decimal.truthy. by intros ->.
Qed.

Section Loop.
Variable COMPANY_NAMES : gmap string string.
Variable requests_get : string -> list (string * string) -> Z -> result Response.
Variable py_float : pyval -> result spec_float.
Variable py_int : pyval -> result Z.
Variable Stock_save : StockInstance -> result Stock.t.

Let fetch := fetch_stock_from_psx COMPANY_NAMES requests_get.
Let refresh_one := refresh_one COMPANY_NAMES requests_get py_float py_int Stock_save.
Let refresh_loop := refresh_loop COMPANY_NAMES requests_get py_float py_int Stock_save.
Let stock_entry := stock_entry py_float py_int.
Local Abbreviation outcome_of :=
  (RefreshDefs.outcome_of COMPANY_NAMES requests_get py_float py_int Stock_save).
Local Abbreviation write_outcome :=
  (RefreshDefs.write_outcome COMPANY_NAMES requests_get py_float py_int Stock_save).

(** One turn of the loop adds the outcome of its stock to the state. *)
Lemma refresh_one_outcome (st : RefreshState) (item : Z * Stock.t) :
  refresh_one st item =
  {| table := write_outcome (table st) item;
     updated_stocks := updated_stocks st ++ option_list (entry_of (outcome_of item));
     errors := errors st
               ++ option_list (error_of (Stock.symbol item.2) (outcome_of item)) |}.
Proof.
  destruct st as [tb upd errs], item as [k stock].
  unfold refresh_one, Views.refresh_one, RefreshDefs.write_outcome,
    RefreshDefs.outcome_of, fetch.
  cbn [fst snd].
  destruct (fetch_stock_from_psx COMPANY_NAMES requests_get (Stock.symbol stock))
    as [[market_data|]|e]; cbn; rewrite ?app_nil_r; try reflexivity.
  destruct (is_none (q_price market_data)); cbn; rewrite ?app_nil_r;
    try reflexivity.
  destruct (Stock_save (assign_quote k stock market_data)) as [row|e]; cbn;
    rewrite ?app_nil_r; try reflexivity.
  unfold stock_entry.
  destruct (Views.stock_entry py_float py_int (assign_quote k stock market_data))
    as [entry|e]; cbn; rewrite ?app_nil_r; reflexivity.
Qed.

(** The loop is the list of the outcomes, stock by stock. *)
Lemma refresh_from (stocks : list (Z * Stock.t)) :
  forall st : RefreshState,
    let st' := fold_left refresh_one stocks st in
    table st' = fold_left write_outcome stocks (table st) /\
    updated_stocks st'
      = updated_stocks st ++ omap (fun item => entry_of (outcome_of item)) stocks /\
    errors st'
      = errors st
        ++ omap (fun item => error_of (Stock.symbol item.2) (outcome_of item)) stocks.
Proof.
  induction stocks as [|item rest IH]; intros st.
  - cbn. by rewrite !app_nil_r.
  - cbn [fold_left]. destruct (IH (refresh_one st item)) as (Ht & Hu & He).
    cbv zeta. rewrite Ht, Hu, He, refresh_one_outcome. cbn [table updated_stocks errors].
    rewrite !DashboardFacts.omap_cons, <- !app_assoc.
    repeat split.
    + f_equal. by destruct (entry_of (outcome_of item)).
    + f_equal. by destruct (error_of (Stock.symbol item.2) (outcome_of item)).
Qed.

Lemma refresh_loop_outcomes (db : gmap Z Stock.t) (stocks : list (Z * Stock.t)) :
  table (refresh_loop db stocks) = fold_left write_outcome stocks db /\
  updated_stocks (refresh_loop db stocks)
    = omap (fun item => entry_of (outcome_of item)) stocks /\
  errors (refresh_loop db stocks)
    = omap (fun item => error_of (Stock.symbol item.2) (outcome_of item)) stocks.
Proof.
  exact (refresh_from stocks {| table := db; updated_stocks := []; errors := [] |}).
Qed.

(** Every stock gives one entry, in one of the two lists. *)
Lemma outcomes_length (stocks : list (Z * Stock.t)) :
  (length (omap (fun item => entry_of (outcome_of item)) stocks)
   + length (omap (fun item => error_of (Stock.symbol item.2) (outcome_of item)) stocks)
   = length stocks)%nat.
Proof.
  induction stocks as [|item rest IH]; [done|].
  rewrite !DashboardFacts.omap_cons.
  destruct (outcome_of item); cbn [entry_of error_of length]; lia.
Qed.

(** The table after the loop: a row outside the selection is untouched. *)
Lemma table_other (stocks : list (Z * Stock.t)) :
  forall (tb : gmap Z Stock.t) (k : Z),
    k ∉ stocks.*1 -> fold_left write_outcome stocks tb !! k = tb !! k.
Proof.
  induction stocks as [|[k0 s0] rest IH]; intros tb k Hk; [done|].
  cbn [fold_left]. rewrite fmap_cons in Hk. cbn [fst] in Hk.
  apply not_elem_of_cons in Hk as [Hne Hrest].
  rewrite IH by done. unfold RefreshDefs.write_outcome. cbn [fst].
  destruct (written_of (outcome_of (k0, s0))); [|done].
  by rewrite lookup_insert_ne.
Qed.

(** A row of the selection holds what its own outcome wrote. *)
Lemma table_selected (stocks : list (Z * Stock.t)) :
  forall (tb : gmap Z Stock.t) (k : Z) (s : Stock.t),
    NoDup stocks.*1 -> (k, s) ∈ stocks ->
    fold_left write_outcome stocks tb !! k
    = match written_of (outcome_of (k, s)) with
      | Some row => Some row
      | None => tb !! k
      end.
Proof.
  induction stocks as [|[k0 s0] rest IH]; intros tb k s Hnd Hin.
  - by apply elem_of_nil in Hin.
  - rewrite fmap_cons in Hnd. cbn [fst] in Hnd.
    apply NoDup_cons in Hnd as [Hk0 Hnd].
    cbn [fold_left]. apply elem_of_cons in Hin as [[= -> ->] | Hin].
    + rewrite table_other by done. unfold RefreshDefs.write_outcome. cbn [fst].
      destruct (written_of (outcome_of (k0, s0))); [|done].
      by rewrite lookup_insert_eq.
    + rewrite (IH _ k s Hnd Hin).
      destruct (written_of (outcome_of (k, s))); [done|].
      unfold RefreshDefs.write_outcome. cbn [fst].
      destruct (written_of (outcome_of (k0, s0))); [|done].
      rewrite lookup_insert_ne; [done|].
      intros ->. apply Hk0. by apply (list_elem_of_fmap_2 fst) in Hin.
Qed.

(** The selection is a part of the table: rows with distinct keys. *)
Lemma select_stocks_rows (request : Request) (db : gmap Z Stock.t)
    (stocks : list (Z * Stock.t)) :
  select_stocks py_int request db = Ok (inr stocks) ->
  NoDup stocks.*1 /\ forall k s, (k, s) ∈ stocks -> db !! k = Some s.
Proof.
  intros Hsel.
  assert (Hsub : sublist stocks (map_to_list db)).
  { unfold select_stocks in Hsel.
    destruct (String.eqb (lower (GET_get request "all" "")) "true").
    { injection Hsel as <-. reflexivity. }
    destruct (negb (String.eqb (strip (GET_get request "ids" "")) "")).
    { destruct (id_list_of py_int (split "," (strip (GET_get request "ids" ""))))
        as [id_list|e].
      - injection Hsel as <-. apply sublist_filter.
      - by destruct (decide (exn_cls e = ValueError)). }
    destruct (negb (String.eqb (strip (GET_get request "symbols" "")) ""));
      [|done].
    injection Hsel as <-. apply sublist_filter. }
  split.
  - assert (Hsub1 : sublist stocks.*1 (map_to_list db).*1)
      by (by apply fmap_sublist).
    exact (sublist_NoDup _ _ (NoDup_fst_map_to_list db) Hsub1).
  - intros k s Hin. apply elem_of_map_to_list.
    eapply elem_of_sublist; [exact Hin | exact Hsub].
Qed.

(** A rejected selection is a client error. *)
Lemma select_stocks_rejects (request : Request) (db : gmap Z Stock.t)
    (response : HttpResponse RefreshJson) :
  select_stocks py_int request db = Ok (inl response) ->
  exists msg, response = JsonResponse 400 (JError msg).
Proof.
  unfold select_stocks.
  destruct (String.eqb (lower (GET_get request "all" "")) "true"); [done|].
  destruct (negb (String.eqb (strip (GET_get request "ids" "")) "")).
  { destruct (id_list_of py_int (split "," (strip (GET_get request "ids" ""))))
      as [id_list|e]; [done|].
    destruct (decide (exn_cls e = ValueError)); [|done].
    intros [= <-]. by eexists. }
  destruct (negb (String.eqb (strip (GET_get request "symbols" "")) ""));
    [done|].
  intros [= <-]. by eexists.
Qed.

(** The answer of the view on a selection that is not empty. *)
Lemma refresh_selected (request : Request) (db : gmap Z Stock.t)
    (stocks : list (Z * Stock.t)) (u : User) :
  req_user request = Some u ->
  method request = "GET" ->
  select_stocks py_int request db = Ok (inr stocks) ->
  stocks <> [] ->
  refresh_stock_prices_api COMPANY_NAMES requests_get py_float py_int Stock_save
    request db
  = (Ok (JsonResponse 200
           (JRefreshed true (length (updated_stocks (refresh_loop db stocks)))
              (updated_stocks (refresh_loop db stocks))
              (errors (refresh_loop db stocks)))),
     table (refresh_loop db stocks)).
Proof.
  intros Hu Hm Hsel Hne. unfold refresh_stock_prices_api.
  rewrite Hu, Hm, Hsel. cbn [String.eqb negb].
  change (String.eqb "GET" "GET") with true. cbn [negb].
  by destruct stocks.
Qed.

Local Abbreviation reported_float := (RefreshDefs.reported_float py_float).
Local Abbreviation reported_int := (RefreshDefs.reported_int py_int).
Local Abbreviation entry_for := (RefreshDefs.entry_for py_float py_int).
Local Abbreviation conversion_raised := (RefreshDefs.conversion_raised py_float py_int).

(** The two conversions of a record, value by value. *)
Lemma float_or_none_spec (v : pyval) :
  match float_or_none py_float v with
  | Ok field => reported_float v field
  | Raise e => truthy v = true /\ py_float v = Raise e
  end.
Proof.
  unfold float_or_none, RefreshDefs.reported_float.
  destruct (truthy v); [|reflexivity].
  destruct (py_float v) as [f|e]; cbn; [by exists f|done].
Qed.

Lemma int_or_none_spec (v : pyval) :
  match int_or_none py_int v with
  | Ok field => reported_int v field
  | Raise e => truthy v = true /\ py_int v = Raise e
  end.
Proof.
  unfold int_or_none, RefreshDefs.reported_int.
  destruct (truthy v); [|reflexivity].
  destruct (py_int v) as [n|e]; cbn; [by exists n|done].
Qed.

Lemma reported_float_zero (v : pyval) (field : option spec_float) :
  reported_float v field -> eq_zero v = true -> field = None.
Proof.
  unfold RefreshDefs.reported_float. intros H Hz.
  by rewrite (eq_zero_falsy v Hz) in H.
Qed.

Lemma reported_int_zero (v : pyval) (field : option Z) :
  reported_int v field -> eq_zero v = true -> field = None.
Proof.
  unfold RefreshDefs.reported_int. intros H Hz.
  by rewrite (eq_zero_falsy v Hz) in H.
Qed.

(** The record built for a quote, or the conversion that raised. *)
Lemma stock_entry_spec (k : Z) (s : Stock.t) (market_data : Quote) :
  match stock_entry (assign_quote k s market_data) with
  | Ok entry => entry_for k s market_data entry
  | Raise e => conversion_raised market_data e
  end.
Proof.
  unfold stock_entry, Views.stock_entry, assign_quote.
  cbn [pk loaded a_current_price a_change a_change_percent a_volume a_high a_low].
  pose proof (float_or_none_spec (q_price market_data)) as H1.
  pose proof (float_or_none_spec (q_change market_data)) as H2.
  pose proof (float_or_none_spec (q_change_percent market_data)) as H3.
  pose proof (int_or_none_spec (q_volume market_data)) as H4.
  pose proof (float_or_none_spec (q_high market_data)) as H5.
  pose proof (float_or_none_spec (q_low market_data)) as H6.
  unfold RefreshDefs.conversion_raised.
  destruct (float_or_none py_float (q_price market_data)) as [f1|e]; cbn [rbind].
  2:{ left. exists (q_price market_data). split; [|exact H1].
      apply list_elem_of_here. }
  destruct (float_or_none py_float (q_change market_data)) as [f2|e]; cbn [rbind].
  2:{ left. exists (q_change market_data). split; [|exact H2].
      apply list_elem_of_further, list_elem_of_here. }
  destruct (float_or_none py_float (q_change_percent market_data)) as [f3|e];
    cbn [rbind].
  2:{ left. exists (q_change_percent market_data). split; [|exact H3].
      do 2 apply list_elem_of_further. apply list_elem_of_here. }
  destruct (int_or_none py_int (q_volume market_data)) as [n|e]; cbn [rbind].
  2:{ right. exact H4. }
  destruct (float_or_none py_float (q_high market_data)) as [f5|e]; cbn [rbind].
  2:{ left. exists (q_high market_data). split; [|exact H5].
      do 3 apply list_elem_of_further. apply list_elem_of_here. }
  destruct (float_or_none py_float (q_low market_data)) as [f6|e]; cbn [rbind].
  2:{ left. exists (q_low market_data). split; [|exact H6].
      do 4 apply list_elem_of_further. apply list_elem_of_here. }
  unfold RefreshDefs.entry_for.
  cbn [e_id e_symbol e_current_price e_change e_change_percent e_volume e_high e_low].
  repeat split; assumption.
Qed.

(** The stock and the quote behind a record of the updated list. *)
Lemma updated_entry (stocks : list (Z * Stock.t)) (entry : StockEntry) :
  entry ∈ omap (fun item => entry_of (outcome_of item)) stocks ->
  exists (k : Z) (s : Stock.t) (market_data : Quote) (row : Stock.t),
    (k, s) ∈ stocks /\
    fetch (Stock.symbol s) = Ok (Some market_data) /\
    Stock_save (assign_quote k s market_data) = Ok row /\
    written_of (outcome_of (k, s)) = Some row /\
    entry_for k s market_data entry.
Proof.
  intros Hin. apply list_elem_of_omap in Hin as ([k s] & Hks & Hout).
  exists k, s.
  unfold RefreshDefs.outcome_of in Hout |- *. unfold fetch. cbn [fst snd] in Hout |- *.
  destruct (fetch_stock_from_psx COMPANY_NAMES requests_get (Stock.symbol s))
    as [[market_data|]|e] eqn:Hfetch; [|done|done].
  destruct (is_none (q_price market_data)); [done|].
  destruct (Stock_save (assign_quote k s market_data)) as [row|e] eqn:Hsave;
    [|done].
  pose proof (stock_entry_spec k s market_data) as Hspec. unfold stock_entry in Hspec.
  destruct (Views.stock_entry py_float py_int (assign_quote k s market_data))
    as [entry'|e]; [|done].
  injection Hout as ->. exists market_data, row. cbn [written_of].
  repeat split; try done; apply Hspec.
Qed.

Lemma error_entry (stocks : list (Z * Stock.t)) (err : ErrorEntry) :
  err ∈ omap (fun item => error_of (Stock.symbol item.2) (outcome_of item)) stocks ->
  exists (k : Z) (s : Stock.t), (k, s) ∈ stocks /\ err_symbol err = Stock.symbol s.
Proof.
  intros Hin. apply list_elem_of_omap in Hin as ([k s] & Hks & Hout).
  exists k, s. split; [exact Hks|]. cbn [snd] in Hout.
  destruct (outcome_of (k, s)); [done|]. by injection Hout as <-.
Qed.

(** C5. A batch refresh over a selection that is not empty answers with
    the count of the updated stocks and the two lists, and treats every
    stock by itself.  Each stock gives exactly one entry.  A stock whose
    fetch raises, gives no quote or no price, or whose write raises, gets an
    error entry with its symbol and the reason, and its row stays as it was.
    For a stock that is fetched, the instance handed to the write carries the
    six values of its quote, and the row written for it is its row in the
    table at the end, whatever happens to the other stocks; the stock is then
    listed as updated by a record with its key, its symbol and the six values
    of the quote (null for a value that is false, its float or int
    otherwise), or, if a conversion of the record raises, as an error with
    that reason.  Every record and every error belongs to a stock of the
    selection, and rows outside the selection are untouched. *)
Theorem batch_refresh (request : Request) (db : gmap Z Stock.t)
    (stocks : list (Z * Stock.t)) (u : User) :
  req_user request = Some u ->
  method request = "GET" ->
  select_stocks py_int request db = Ok (inr stocks) ->
  stocks <> [] ->
  exists (updated : list StockEntry) (errs : list ErrorEntry)
         (db' : gmap Z Stock.t),
    refresh_stock_prices_api COMPANY_NAMES requests_get py_float py_int
      Stock_save request db
    = (Ok (JsonResponse 200 (JRefreshed true (length updated) updated errs)), db') /\
    (length updated + length errs = length stocks)%nat /\
    (forall k, k ∉ stocks.*1 -> db' !! k = db !! k) /\
    (forall k s, (k, s) ∈ stocks ->
      let failed reason :=
        {| err_symbol := Stock.symbol s; err_error := reason |} ∈ errs in
      match fetch (Stock.symbol s) with
      | Raise e => failed (exn_msg e) /\ db' !! k = db !! k
      | Ok None => failed "No data available from API" /\ db' !! k = db !! k
      | Ok (Some market_data) =>
          if is_none (q_price market_data)
          then failed "No data available from API" /\ db' !! k = db !! k
          else
            match Stock_save {| pk := k; loaded := s;
                                a_current_price := q_price market_data;
                                a_change := q_change market_data;
                                a_change_percent := q_change_percent market_data;
                                a_volume := q_volume market_data;
                                a_high := q_high market_data;
                                a_low := q_low market_data |} with
            | Raise e => failed (exn_msg e) /\ db' !! k = db !! k
            | Ok row =>
                db' !! k = Some row /\
                ((exists entry, entry ∈ updated /\ entry_for k s market_data entry) \/
                 (exists e, conversion_raised market_data e /\ failed (exn_msg e)))
            end
      end) /\
    (forall entry, entry ∈ updated ->
       exists k s market_data,
         (k, s) ∈ stocks /\
         fetch (Stock.symbol s) = Ok (Some market_data) /\
         entry_for k s market_data entry) /\
    (forall err, err ∈ errs ->
       exists k s, (k, s) ∈ stocks /\ err_symbol err = Stock.symbol s).
Proof.
  intros Hu Hm Hsel Hne.
  destruct (select_stocks_rows _ _ _ Hsel) as (Hnd & _).
  destruct (refresh_loop_outcomes db stocks) as (Ht & Hupd & Herr).
  exists (updated_stocks (refresh_loop db stocks)),
         (errors (refresh_loop db stocks)),
         (table (refresh_loop db stocks)).
  split; [by apply (refresh_selected _ _ _ u)|].
  split; [rewrite Hupd, Herr; apply outcomes_length|].
  split; [intros k Hk; rewrite Ht; by apply table_other|].
  split.
  2:{ split.
      - intros entry Hin. rewrite Hupd in Hin.
        destruct (updated_entry stocks entry Hin)
          as (k & s & market_data & row & Hks & Hf & _ & _ & He).
        by exists k, s, market_data.
      - intros err Hin. rewrite Herr in Hin. by apply (error_entry stocks). }
  intros k s Hin. cbv zeta.
  pose proof (table_selected stocks db k s Hnd Hin) as Hrow. rewrite <- Ht in Hrow.
  assert (Hentry : forall entry, entry_of (outcome_of (k, s)) = Some entry ->
            entry ∈ updated_stocks (refresh_loop db stocks)).
  { intros entry He. rewrite Hupd. apply list_elem_of_omap. by exists (k, s). }
  assert (Herror : forall reason,
            error_of (Stock.symbol s) (outcome_of (k, s))
              = Some {| err_symbol := Stock.symbol s; err_error := reason |} ->
            {| err_symbol := Stock.symbol s; err_error := reason |}
              ∈ errors (refresh_loop db stocks)).
  { intros reason He. rewrite Herr. apply list_elem_of_omap. by exists (k, s). }
  revert Hrow Hentry Herror. unfold RefreshDefs.outcome_of, fetch.
  cbn [fst snd].
  destruct (fetch_stock_from_psx COMPANY_NAMES requests_get (Stock.symbol s))
    as [[market_data|]|e]; cbn.
  - destruct (is_none (q_price market_data)); cbn.
    { intros Hrow _ Herror. split; [by apply Herror | exact Hrow]. }
    pose proof (stock_entry_spec k s market_data) as Hspec.
    unfold stock_entry, assign_quote in Hspec |- *.
    destruct (Stock_save _) as [row|e]; cbn.
    + destruct (Views.stock_entry py_float py_int _) as [entry|e]; cbn.
      * intros Hrow Hentry _. split; [exact Hrow|]. left. exists entry.
        split; [by apply Hentry | exact Hspec].
      * intros Hrow _ Herror. split; [exact Hrow|]. right. exists e.
        split; [exact Hspec | by apply Herror].
    + intros Hrow _ Herror. split; [by apply Herror | exact Hrow].
  - intros Hrow _ Herror. split; [by apply Herror | exact Hrow].
  - intros Hrow _ Herror. split; [by apply Herror | exact Hrow].
Qed.

(** C10, as the code has it.  A record of the updated list is built from the
    values of the quote as they were assigned to the instance, not from the
    row that was stored: a field is null when the quote's value for it is
    zero (or is false in a condition otherwise), and is the float (the int,
    for the volume) of that value when it is not.  The record belongs to a
    stock of the table whose quote was fetched and whose row was written. *)
Theorem zero_field_is_null (request : Request) (db db' : gmap Z Stock.t)
    (status : Z) (success : bool) (count : nat)
    (updated : list StockEntry) (errs : list ErrorEntry) :
  refresh_stock_prices_api COMPANY_NAMES requests_get py_float py_int
    Stock_save request db
  = (Ok (JsonResponse status (JRefreshed success count updated errs)), db') ->
  forall entry, entry ∈ updated ->
    exists (k : Z) (s : Stock.t) (market_data : Quote) (row : Stock.t),
      db !! k = Some s /\
      fetch (Stock.symbol s) = Ok (Some market_data) /\
      Stock_save {| pk := k; loaded := s;
                    a_current_price := q_price market_data;
                    a_change := q_change market_data;
                    a_change_percent := q_change_percent market_data;
                    a_volume := q_volume market_data;
                    a_high := q_high market_data;
                    a_low := q_low market_data |} = Ok row /\
      db' !! k = Some row /\
      e_id entry = k /\ e_symbol entry = Stock.symbol s /\
      (eq_zero (q_price market_data) = true -> e_current_price entry = None) /\
      (eq_zero (q_change market_data) = true -> e_change entry = None) /\
      (eq_zero (q_change_percent market_data) = true ->
       e_change_percent entry = None) /\
      (eq_zero (q_volume market_data) = true -> e_volume entry = None) /\
      (eq_zero (q_high market_data) = true -> e_high entry = None) /\
      (eq_zero (q_low market_data) = true -> e_low entry = None) /\
      reported_float (q_price market_data) (e_current_price entry) /\
      reported_float (q_change market_data) (e_change entry) /\
      reported_float (q_change_percent market_data) (e_change_percent entry) /\
      reported_int (q_volume market_data) (e_volume entry) /\
      reported_float (q_high market_data) (e_high entry) /\
      reported_float (q_low market_data) (e_low entry).
Proof.
  intros Hview entry Hin. unfold refresh_stock_prices_api in Hview.
  destruct (req_user request) as [u|]; [|done].
  destruct (negb (String.eqb (method request) "GET")); [done|].
  destruct (select_stocks py_int request db) as [[response|stocks]|e] eqn:Hsel;
    [ | | done].
  { destruct (select_stocks_rejects _ _ _ Hsel) as (msg & ->). done. }
  destruct stocks as [|item rest]; [done|].
  set (stocks := item :: rest) in *.
  injection Hview as _ _ _ Hupd' _ Hdb. subst updated db'.
  destruct (select_stocks_rows _ _ _ Hsel) as (Hnd & Hrows).
  destruct (refresh_loop_outcomes db stocks) as (Ht & Hupd & _).
  fold refresh_loop in Hin |- *. rewrite Hupd in Hin.
  destruct (updated_entry stocks entry Hin)
    as (k & s & market_data & row & Hks & Hf & Hsave & Hw & He).
  exists k, s, market_data, row.
  split; [by apply Hrows|]. split; [exact Hf|]. split; [exact Hsave|].
  split.
  { rewrite Ht, (table_selected stocks db k s Hnd Hks). by rewrite Hw. }
  destruct He as (Hid & Hsym & H1 & H2 & H3 & H4 & H5 & H6).
  split; [exact Hid|]. split; [exact Hsym|].
  split; [by apply reported_float_zero|].
  split; [by apply reported_float_zero|].
  split; [by apply reported_float_zero|].
  split; [by apply reported_int_zero|].
  split; [by apply reported_float_zero|].
  split; [by apply reported_float_zero|].
  repeat split; assumption.
Qed.

End Loop.

(** ** A run: three stocks, of which the provider knows two *)

(** The run of the specification's example, computed: of three stocks one
    fails; the answer lists the two others, and their rows hold the quoted
    prices on two decimals. *)
Lemma demo_refresh_run :
  demo_refresh.1
  = Ok (JsonResponse 200 (JRefreshed true 2 [LUCK_entry; PSO_entry] [ENGRO_error])) /\
  Stock.current_price <$> demo_refresh.2 !! 1 = Some (Some (Decimal.cents 11000)) /\
  Stock.change <$> demo_refresh.2 !! 1 = Some (Some (Decimal.cents 0)) /\
  Stock.change_percent <$> demo_refresh.2 !! 1 = Some (Some (Decimal.cents 0)) /\
  Stock.current_price <$> demo_refresh.2 !! 2 = Some (Some (Decimal.cents 9500)) /\
  demo_refresh.2 !! 3 = demo_table !! 3.
Proof. repeat split; by vm_compute. Qed.

Lemma demo_refresh_answer :
  demo_refresh
  = (Ok (JsonResponse 200
           (JRefreshed true 2 [LUCK_entry; PSO_entry] [ENGRO_error])),
     demo_refresh.2).
Proof.
  destruct demo_refresh_run as (Hrun & _). rewrite <- Hrun. by destruct demo_refresh.
Qed.

Lemma batch_refresh_witness :
  exists (updated : list StockEntry) (errs : list ErrorEntry)
         (db' : gmap Z Stock.t),
    demo_refresh
    = (Ok (JsonResponse 200 (JRefreshed true 2 updated errs)), db') /\
    updated ≡ₚ [PSO_entry; LUCK_entry] /\
    errs = [ENGRO_error] /\
    (exists row,
       db' !! 1 = Some row /\
       demo_save (assign_quote 1 (TradeDefs.demo_stock "PSO"
                                    (Some (Decimal.cents 10000))) PSO_quote)
       = Ok row /\
       Stock.current_price row = Some (Decimal.cents 11000)) /\
    Stock.current_price <$> db' !! 2 = Some (Some (Decimal.cents 9500)) /\
    db' !! 3 = demo_table !! 3.
Proof.
  assert (Hsel : select_stocks demo_int refresh_all_request demo_table
                 = Ok (inr demo_selection)) by (vm_compute; reflexivity).
  assert (Hne : demo_selection <> []) by discriminate.
  destruct (batch_refresh ∅ demo_provider demo_float demo_int demo_save
              refresh_all_request demo_table demo_selection TradeDefs.demo_user
              eq_refl eq_refl Hsel Hne)
    as (updated & errs & db' & Hview & Hlen & Hother & Hstock & _).
  pose proof demo_refresh_answer as Hrun.
  destruct demo_refresh_run as (_ & _ & _ & _ & Hluck & Hengro).
  remember (demo_refresh.2) as final eqn:Hfinal.
  assert (Hshape : updated = [LUCK_entry; PSO_entry] /\ errs = [ENGRO_error]
                   /\ db' = final).
  { change (refresh_stock_prices_api ∅ demo_provider demo_float demo_int demo_save
              refresh_all_request demo_table) with demo_refresh in Hview.
    rewrite Hrun in Hview. clear -Hview.
    injection Hview as H1 H2 H3 H4. subst. repeat split; reflexivity. }
  destruct Hshape as (Hupdated & Herrs & Hdb).
  exists updated, errs, db'.
  split; [by rewrite Hupdated in Hview |- *|].
  split; [rewrite Hupdated; apply perm_swap|]. split; [exact Herrs|].
  assert (Hpso : (1, TradeDefs.demo_stock "PSO" (Some (Decimal.cents 10000)))
                   ∈ demo_selection)
    by (vm_compute; repeat first [left; reflexivity | right]).
  assert (Hquote : fetch_stock_from_psx ∅ demo_provider "PSO" = Ok (Some PSO_quote))
    by (vm_compute; reflexivity).
  pose proof (Hstock _ _ Hpso) as H1. cbv zeta in H1.
  change (Stock.symbol (TradeDefs.demo_stock "PSO" (Some (Decimal.cents 10000))))
    with "PSO" in H1.
  rewrite Hquote in H1. cbv beta iota in H1.
  change (is_none (q_price PSO_quote)) with false in H1. cbv beta iota in H1.
  destruct (demo_save _) as [row|e] eqn:Hsave in H1.
  2:{ vm_compute in Hsave. discriminate Hsave. }
  destruct H1 as (H1 & _).
  split.
  { exists row. split; [exact H1|]. split; [exact Hsave|].
    vm_compute in Hsave. injection Hsave as <-. reflexivity. }
  split; [rewrite Hdb; exact Hluck|].
  rewrite Hdb. exact Hengro.
Defined.

Lemma zero_field_is_null_witness :
  exists (updated : list StockEntry) (errs : list ErrorEntry) (row : Stock.t),
    demo_refresh
    = (Ok (JsonResponse 200 (JRefreshed true 2 updated errs)), demo_refresh.2) /\
    PSO_entry ∈ updated /\
    demo_refresh.2 !! 1 = Some row /\
    demo_save (assign_quote 1 (TradeDefs.demo_stock "PSO"
                                 (Some (Decimal.cents 10000))) PSO_quote)
    = Ok row /\
    q_change PSO_quote = PInt 0 /\
    e_change PSO_entry = None.
Proof.
  pose proof demo_refresh_answer as Hview.
  assert (Hin : PSO_entry ∈ [LUCK_entry; PSO_entry])
    by apply list_elem_of_further, list_elem_of_here.
  destruct (zero_field_is_null ∅ demo_provider demo_float demo_int demo_save
              refresh_all_request demo_table _ _ _ _ _ _ Hview PSO_entry Hin)
    as (k & s & market_data & row & Hdb & Hfetch & Hsave & Hrow & Hid & Hsym
        & _ & Hchange & _).
  cbn [e_id PSO_entry] in Hid. subst k.
  assert (Hs : s = TradeDefs.demo_stock "PSO" (Some (Decimal.cents 10000))).
  { vm_compute in Hdb. by injection Hdb as <-. }
  subst s.
  assert (Hq : market_data = PSO_quote).
  { vm_compute in Hfetch. by injection Hfetch as <-. }
  subst market_data.
  exists [LUCK_entry; PSO_entry], [ENGRO_error], row.
  split; [exact Hview|]. split; [exact Hin|]. split; [exact Hrow|].
  split; [exact Hsave|]. split; [reflexivity|]. apply Hchange. reflexivity.
Defined.

(** C10 as the specification words it fails: a record is not null where the
    stored value is zero only because the column rounded it.  PSO's change in
    per cent is quoted at 0.00390625; the row stores 0.00, and the record
    reports 0.00390625. *)
Lemma stored_zero_is_not_null :
  ~ (forall (request : Request) (db db' : gmap Z Stock.t)
            (status : Z) (success : bool) (count : nat)
            (updated : list StockEntry) (errs : list ErrorEntry),
       refresh_stock_prices_api ∅ demo_provider demo_float demo_int demo_save
         request db
       = (Ok (JsonResponse status (JRefreshed success count updated errs)), db') ->
       forall (entry : StockEntry) (row : Stock.t),
         entry ∈ updated -> db' !! e_id entry = Some row ->
         (forall z, Stock.current_price row = Some z -> Decimal.coef z = 0 ->
                    e_current_price entry = None) /\
         (forall z, Stock.change row = Some z -> Decimal.coef z = 0 ->
                    e_change entry = None) /\
         (forall z, Stock.change_percent row = Some z -> Decimal.coef z = 0 ->
                    e_change_percent entry = None) /\
         (Stock.volume row = Some 0 -> e_volume entry = None) /\
         (forall z, Stock.high row = Some z -> Decimal.coef z = 0 ->
                    e_high entry = None) /\
         (forall z, Stock.low row = Some z -> Decimal.coef z = 0 ->
                    e_low entry = None)).
Proof.
  intros Hclaim.
  pose proof demo_refresh_answer as Hview.
  assert (Hrow : exists row, demo_refresh.2 !! 1 = Some row /\
                   Stock.change_percent row = Some (Decimal.cents 0)).
  { vm_compute. eexists. split; reflexivity. }
  destruct Hrow as (row & Hrow & Hpercent).
  assert (Hin : PSO_entry ∈ [LUCK_entry; PSO_entry])
    by apply list_elem_of_further, list_elem_of_here.
  destruct (Hclaim refresh_all_request demo_table _ _ _ _ _ _ Hview
              PSO_entry row Hin Hrow)
    as (_ & _ & Hzero & _).
  specialize (Hzero _ Hpercent eq_refl). discriminate Hzero.
Qed.

End RefreshFacts.

(* ===================================================================== *)
(** * The valuation of a trade on stored values *)
(* ===================================================================== *)

Module ValuationFacts.
Import Valuation TradeDefs DashboardDefs.

(** Comparisons of two-decimal values are comparisons of their
    hundredths. *)
Lemma compare_cents a b :
  Decimal.compare (Decimal.cents a) (Decimal.cents b) = (a ?= b).
Proof.
  unfold Decimal.compare, Decimal.cents. cbn [Decimal.coef Decimal.dexp].
  change (Z.min (-2) (-2)) with (-2). change (-2 - -2) with 0.
  change (10 ^ 0) with 1. by rewrite !Z.mul_1_r.
Qed.

Lemma compare_cents_zero a :
  Decimal.compare (Decimal.cents a) (Decimal.of_int 0) = (a ?= 0).
Proof.
  unfold Decimal.compare, Decimal.cents, Decimal.of_int.
  cbn [Decimal.coef Decimal.dexp].
  change (Z.min (-2) 0) with (-2). change (-2 - -2) with 0.
  change (10 ^ 0) with 1. by rewrite Z.mul_1_r.
Qed.

Lemma ltb_cents a b :
  Decimal.ltb (Decimal.cents a) (Decimal.cents b) = (a <? b).
Proof. unfold Decimal.ltb, Z.ltb. by rewrite compare_cents. Qed.

Lemma gtb_cents_zero_iff a :
  Decimal.gtb (Decimal.cents a) (Decimal.of_int 0) = (0 <? a).
Proof.
  unfold Decimal.gtb, Z.ltb. rewrite compare_cents_zero.
  rewrite (Z.compare_antisym a 0). by destruct (a ?= 0).
Qed.

(** A value rounded to two places has two places. *)
Lemma round_two_places x p :
  Decimal.round x 2 = Ok p -> p = Decimal.cents (Decimal.coef p).
Proof.
  unfold Decimal.round, Decimal.quantize. change (Z.opp 2) with (-2).
  destruct (Decimal.coef x =? 0); [by intros [= <-]|].
  destruct (_ >? Decimal.prec); [done|].
  set (ans := Decimal.rescale x (-2)).
  destruct (Z.gtb_spec (Decimal.ndigits (Z.abs (Decimal.coef ans))) Decimal.prec)
    as [|Hn]; [done|].
  intros [= <-].
  assert (He : Decimal.dexp ans = -2).
  { subst ans. unfold Decimal.rescale. by destruct (_ >=? _). }
  assert (Hsmall : Z.abs (Decimal.coef ans) < 10 ^ Decimal.prec).
  { destruct (Z.eq_dec (Decimal.coef ans) 0) as [->|Hnz]; [done|].
    destruct (DecimalFacts.ndigits_bounds (Z.abs (Decimal.coef ans)) ltac:(lia))
      as (_ & _ & Hhi).
    eapply Z.lt_le_trans; [exact Hhi|].
    apply Z.pow_le_mono_r; lia. }
  rewrite (DecimalFacts.fix_small _ Hsmall).
  destruct ans as [c e]. cbn in *. by subst e.
Qed.

(** The cost and the value of a stored holding fit the context. *)
Lemma stored_cost (t : Trade.t) :
  stored_trade t ->
  Trade.total_cost t
  = Decimal.cents (Trade.quantity t * Decimal.coef (Trade.buying_price t)).
Proof.
  intros (Hq & Hb & _). unfold Trade.total_cost.
  rewrite (DecimalFacts.column_cents _ Hb) at 1.
  apply DecimalFacts.mul_int_cents.
  destruct Hb as (_ & Hb). by apply DashboardFacts.product_fits.
Qed.

Lemma stored_value (t : Trade.t) (p : decimal) :
  stored_trade t ->
  Stock.current_price (Trade.stock t) = Some p ->
  Decimal.mul (Decimal.of_int (Trade.quantity t)) p
  = Decimal.cents (Trade.quantity t * Decimal.coef p).
Proof.
  intros (Hq & _ & Hp) Hprice. specialize (Hp p Hprice).
  rewrite (DecimalFacts.column_cents _ Hp) at 1.
  apply DecimalFacts.mul_int_cents.
  destruct Hp as (_ & Hp). by apply DashboardFacts.product_fits.
Qed.

Lemma stored_difference (t : Trade.t) (p : decimal) :
  stored_trade t ->
  Stock.current_price (Trade.stock t) = Some p ->
  let q := Trade.quantity t in
  Z.abs (q * Decimal.coef p - q * Decimal.coef (Trade.buying_price t)) < 10 ^ 21.
Proof.
  intros (Hq & (_ & Hb) & Hp) Hprice q. destruct (Hp p Hprice) as (_ & Hc).
  pose proof (DashboardFacts.product_bound q _ Hq Hb) as H1.
  pose proof (DashboardFacts.product_bound q _ Hq Hc) as H2.
  unfold holding_bound in *.
  change (2 ^ 31 * 10 ^ 10) with 21474836480000000000 in *.
  change (10 ^ 21) with 1000000000000000000000. lia.
Qed.

(** X1. On a holding as the database stores it (a quantity below 2^31,
    two-decimal prices of at most ten digits) the computed quantities are
    exact, in hundredths: total_cost is quantity x buying price; with a
    current price that is set and not zero, current_value is quantity x price
    and unrealized_pl is their difference; with the price absent or zero both
    are undefined. *)
Theorem unrealized_pl_in_hundredths (t : Trade.t) :
  stored_trade t ->
  let q := Trade.quantity t in
  let cb := Decimal.coef (Trade.buying_price t) in
  Trade.total_cost t = Decimal.cents (q * cb) /\
  match Stock.current_price (Trade.stock t) with
  | Some p =>
      let cp := Decimal.coef p in
      if cp =? 0
      then Trade.current_value t = None /\ Trade.unrealized_pl t = None
      else Trade.current_value t = Some (Decimal.cents (q * cp)) /\
           Trade.unrealized_pl t = Some (Decimal.cents (q * cp - q * cb))
  | None => Trade.current_value t = None /\ Trade.unrealized_pl t = None
  end.
Proof.
  intros Hst q cb. split; [by apply stored_cost|].
  unfold Trade.unrealized_pl, Trade.current_value, Trade.current_price.
  destruct (Stock.current_price (Trade.stock t)) as [p|] eqn:Hprice; [|done].
  cbv zeta. unfold if_set, Decimal.truthy.
  destruct (Z.eqb_spec (Decimal.coef p) 0) as [|Hnz]; cbn [negb]; [done|].
  rewrite (stored_value t p Hst Hprice), (stored_cost t Hst).
  split; [done|]. f_equal. apply DecimalFacts.sub_cents.
  pose proof (stored_difference t p Hst Hprice) as Hd. cbv zeta in Hd.
  unfold Decimal.prec. fold q cb.
  change (10 ^ 21) with 1000000000000000000000 in Hd.
  change (10 ^ 28) with 10000000000000000000000000000. lia.
Qed.

Lemma unrealized_pl_in_hundredths_witness :
  let t := demo_trade "PSO" 10 (Decimal.cents 10000) None None
             (Some (Decimal.cents 9500)) in
  Trade.total_cost t = Decimal.cents 100000 /\
  Trade.unrealized_pl t = Some (Decimal.cents (-5000)).
Proof.
  intros t.
  assert (Hst : stored_trade t).
  { split; [cbn; lia|]. split; [split; [reflexivity|cbn; lia]|].
    intros p [= <-]. split; [reflexivity|cbn; lia]. }
  destruct (unrealized_pl_in_hundredths t Hst) as (Hc & Hv).
  split; [exact Hc|]. apply Hv.
Defined.

(** ** Signs

    Rounding to the precision, multiplying, dividing and rounding to two
    places keep the sign of a value, or give zero. *)

Lemma sgn_sgn_mul c x : 0 <= x -> Z.sgn (Z.sgn c * x) = Z.sgn c * Z.sgn x.
Proof. intros _. by rewrite Z.sgn_mul, Z.sgn_sgn. Qed.

Lemma round_half_even_nonneg c k : 0 <= c -> 0 <= k -> 0 <= Decimal.round_half_even c k.
Proof.
  intros Hc Hk. pose proof (DecimalFacts.round_half_even_bounds c k Hc Hk).
  assert (0 < 10 ^ k) by (apply Z.pow_pos_nonneg; lia).
  assert (0 <= c / 10 ^ k) by (apply Z.div_pos; lia). lia.
Qed.

Lemma fix_sgn d : Z.sgn (Decimal.coef (Decimal.fix_ d)) = Z.sgn (Decimal.coef d).
Proof.
  destruct (Z.eq_dec (Decimal.coef d) 0) as [Hz|Hnz].
  { unfold Decimal.fix_. rewrite Hz. change (Z.abs 0 =? 0) with true.
    cbv iota. by rewrite Hz. }
  destruct (DecimalFacts.fix_nonzero d Hnz) as (Hfz & _).
  assert (Hweak : exists y, 0 <= y /\
            Decimal.coef (Decimal.fix_ d) = Z.sgn (Decimal.coef d) * y).
  { unfold Decimal.fix_ in *.
    set (a := Z.abs (Decimal.coef d)) in *.
    destruct (a =? 0).
    { exists a. split; [subst a; lia|]. subst a.
      rewrite Z.mul_comm. symmetry. apply Z.abs_sgn. }
    destruct (Z.gtb_spec (Decimal.ndigits a) Decimal.prec) as [Hn|Hn].
    - pose proof (round_half_even_nonneg a (Decimal.ndigits a - Decimal.prec)
                    ltac:(subst a; lia) ltac:(lia)) as Hr.
      destruct (_ >? Decimal.prec); eexists; (split; [|reflexivity]); [|done].
      apply Z.div_pos; lia.
    - exists a. split; [subst a; lia|]. subst a.
      rewrite Z.mul_comm. symmetry. apply Z.abs_sgn. }
  destruct Hweak as (y & Hy & Hc). rewrite Hc in *.
  rewrite sgn_sgn_mul by done.
  assert (0 < y) by (destruct (Z.eq_dec y 0); [subst; lia|lia]).
  rewrite (Z.sgn_pos y) by done. lia.
Qed.

Lemma mul_sgn a b :
  Z.sgn (Decimal.coef (Decimal.mul a b))
  = Z.sgn (Decimal.coef a) * Z.sgn (Decimal.coef b).
Proof. unfold Decimal.mul. rewrite fix_sgn. cbn. apply Z.sgn_mul. Qed.

Lemma strip_zeros_nonneg fuel :
  forall c e ideal, 0 <= c -> 0 <= (Decimal.strip_zeros fuel c e ideal).1.
Proof.
  induction fuel as [|fuel IH]; intros c e ideal Hc; cbn; [done|].
  destruct (_ && _); [|done]. apply IH. apply Z.div_pos; lia.
Qed.

Lemma div_sgn a b r :
  Decimal.div a b = Ok r ->
  Z.sgn (Decimal.coef r) = Z.sgn (Decimal.coef a) * Z.sgn (Decimal.coef b).
Proof.
  intros Hdiv.
  assert (Hb : Decimal.coef b <> 0).
  { intros Hb. unfold Decimal.div in Hdiv. rewrite Hb in Hdiv. cbn in Hdiv.
    by destruct (_ =? 0). }
  destruct (Z.eq_dec (Decimal.coef a) 0) as [Ha|Ha].
  { unfold Decimal.div in Hdiv. rewrite Ha in Hdiv.
    destruct (Z.eqb_spec (Decimal.coef b) 0); [done|]. cbn in Hdiv.
    injection Hdiv as <-. by rewrite fix_sgn, Ha. }
  destruct (DecimalFacts.div_nonzero a b Ha Hb) as (r' & Hr' & Hnz & _).
  rewrite Hdiv in Hr'. injection Hr' as <-.
  assert (Hweak : exists y, 0 <= y /\
            Z.sgn (Decimal.coef r)
            = Z.sgn (Decimal.coef a) * Z.sgn (Decimal.coef b) * Z.sgn y).
  { unfold Decimal.div in Hdiv.
    destruct (Z.eqb_spec (Decimal.coef b) 0); [done|].
    destruct (Z.eqb_spec (Decimal.coef a) 0); [done|].
    cbv zeta in Hdiv.
    set (ca := Z.abs (Decimal.coef a)) in *.
    set (cb := Z.abs (Decimal.coef b)) in *.
    destruct (DecimalFacts.div_scaled_quotient ca cb ltac:(subst ca; lia)
                ltac:(subst cb; lia)) as (Hden & Hq).
    cbv zeta in Hden, Hq.
    set (shift := Decimal.ndigits cb - Decimal.ndigits ca + Decimal.prec + 1) in *.
    set (num := if 0 <=? shift then ca * 10 ^ shift else ca) in *.
    set (den := if 0 <=? shift then cb else cb * 10 ^ (- shift)) in *.
    assert (H28 : 0 < 10 ^ 28) by reflexivity.
    destruct (num mod den =? 0).
    - pose proof (strip_zeros_nonneg
                    (Z.to_nat (Decimal.dexp a - Decimal.dexp b
                               - (Decimal.dexp a - Decimal.dexp b - shift)))
                    (num / den) (Decimal.dexp a - Decimal.dexp b - shift)
                    (Decimal.dexp a - Decimal.dexp b) ltac:(lia)) as Hs.
      destruct (Decimal.strip_zeros _ _ _ _) as [q' e']. cbn [fst] in Hs.
      injection Hdiv as <-. exists q'. split; [exact Hs|].
      rewrite fix_sgn. cbn [Decimal.coef].
      rewrite !Z.sgn_mul, !Z.sgn_sgn. reflexivity.
    - injection Hdiv as <-.
      exists (if num / den mod 5 =? 0 then num / den + 1 else num / den).
      split; [destruct (_ =? 0); lia|].
      rewrite fix_sgn. cbn [Decimal.coef].
      rewrite !Z.sgn_mul, !Z.sgn_sgn. reflexivity. }
  destruct Hweak as (y & Hy & Hs).
  destruct (Z.eq_dec y 0) as [->|].
  { change (Z.sgn 0) with 0 in Hs. rewrite Z.mul_0_r in Hs.
    exfalso. apply Hnz. apply Z.sgn_null_iff. exact Hs. }
  rewrite (Z.sgn_pos y) in Hs by lia. lia.
Qed.

Lemma round_sgn x n p :
  Decimal.round x n = Ok p ->
  (0 <= Decimal.coef x -> 0 <= Decimal.coef p) /\
  (Decimal.coef x <= 0 -> Decimal.coef p <= 0).
Proof.
  unfold Decimal.round, Decimal.quantize.
  destruct (Z.eqb_spec (Decimal.coef x) 0) as [Hz|Hnz].
  { rewrite DecimalFacts.fix_zero. intros [= <-]. cbn [Decimal.coef]. lia. }
  destruct (_ >? Decimal.prec); [discriminate|].
  destruct (_ >? Decimal.prec); [discriminate|].
  intros [= <-].
  pose proof (fix_sgn (Decimal.rescale x (- n))) as Hs.
  assert (Hr : exists y, 0 <= y /\
            Decimal.coef (Decimal.rescale x (- n)) = Z.sgn (Decimal.coef x) * y).
  { unfold Decimal.rescale. destruct (Z.geb_spec (Decimal.dexp x) (- n)) as [Hge|Hlt].
    - exists (Z.abs (Decimal.coef x) * 10 ^ (Decimal.dexp x - - n)). cbn.
      split; [apply Z.mul_nonneg_nonneg; [lia|apply Z.pow_nonneg; lia]|].
      rewrite Z.mul_assoc. f_equal. rewrite Z.mul_comm. symmetry. apply Z.abs_sgn.
    - eexists. split; [|reflexivity]. apply round_half_even_nonneg; lia. }
  destruct Hr as (y & Hy & Hc). rewrite Hc in Hs.
  rewrite sgn_sgn_mul in Hs by done.
  split; intros Hx.
  - apply Z.sgn_nonneg. rewrite Hs.
    apply Z.mul_nonneg_nonneg; apply Z.sgn_nonneg; lia.
  - apply Z.sgn_nonpos. rewrite Hs.
    apply Z.mul_nonpos_nonneg; [apply Z.sgn_nonpos; lia|apply Z.sgn_nonneg; lia].
Qed.

(** X2. [pl_percent] never raises on a stored holding.  It is the int 0 when
    the total cost is zero or when no current price counts (absent or zero);
    otherwise it is a value on two decimals, and with a positive buying price
    it is not negative for a price at or above the buying price and not
    positive for a price at or below it. *)
Theorem pl_percent_defined (t : Trade.t) :
  stored_trade t ->
  let q := Trade.quantity t in
  let cb := Decimal.coef (Trade.buying_price t) in
  exists p, Trade.pl_percent t = Ok p /\
    match if_set (Stock.current_price (Trade.stock t)) with
    | None => p = Int0
    | Some price =>
        if q * cb =? 0 then p = Int0
        else exists c, p = Dec (Decimal.cents c) /\
               (0 < cb ->
                (cb <= Decimal.coef price -> 0 <= c) /\
                (Decimal.coef price <= cb -> c <= 0))
    end.
Proof.
  intros Hst q cb.
  unfold Trade.pl_percent, Trade.unrealized_pl, Trade.current_value,
    Trade.current_price.
  rewrite (stored_cost t Hst). fold q cb.
  unfold Decimal.truthy at 1. cbn [Decimal.coef Decimal.cents].
  pose proof (TradeFacts.if_set_spec (Stock.current_price (Trade.stock t))) as Hset.
  destruct (Z.eqb_spec (q * cb) 0) as [Hz|Hnz]; cbn [negb].
  { exists Int0. split; [done|]. by destruct (if_set _). }
  destruct (if_set (Stock.current_price (Trade.stock t))) as [price|];
    [|by exists Int0].
  destruct Hset as (Hprice & Hpnz).
  pose proof (stored_value t price Hst Hprice) as Hv. fold q in Hv. rewrite Hv.
  pose proof (stored_difference t price Hst Hprice) as Hd. cbv zeta in Hd.
  fold q cb in Hd. set (cp := Decimal.coef price) in *.
  rewrite DecimalFacts.sub_cents.
  2:{ unfold Decimal.prec. change (10 ^ 21) with 1000000000000000000000 in Hd.
      change (10 ^ 28) with 10000000000000000000000000000. lia. }
  destruct (DecimalFacts.percent_defined
              (Decimal.cents (q * cp - q * cb)) (Decimal.cents (q * cb)) Hnz)
    as (r & p & Hdiv & Hround).
  { intros _.
    pose proof (DecimalFacts.adjusted_cents_le _ 21 ltac:(lia) Hd).
    pose proof (DecimalFacts.adjusted_cents_ge (q * cb)). lia. }
  rewrite Hdiv. cbn [rbind]. rewrite Hround. cbn [rbind].
  exists (Dec p). split; [done|].
  exists (Decimal.coef p). split; [f_equal; by eapply round_two_places|].
  intros Hcb.
  assert (Hq : 0 < q).
  { destruct Hst as (Hq & _). fold q in Hq. destruct (Z.eq_dec q 0); [subst q; lia|lia]. }
  pose proof (div_sgn _ _ _ Hdiv) as Hsr.
  pose proof (mul_sgn r (Decimal.of_int 100)) as Hsm.
  destruct (round_sgn _ _ _ Hround) as (Hpos & Hneg).
  cbn [Decimal.coef Decimal.cents Decimal.of_int] in Hsr, Hsm.
  rewrite (Z.sgn_pos (q * cb)) in Hsr by nia.
  rewrite (Z.sgn_pos 100) in Hsm by lia.
  rewrite !Z.mul_1_r in *.
  split; intros Hle.
  - apply Hpos. apply Z.sgn_nonneg. rewrite Hsm, Hsr. apply Z.sgn_nonneg. nia.
  - apply Hneg. apply Z.sgn_nonpos. rewrite Hsm, Hsr. apply Z.sgn_nonpos. nia.
Qed.

Lemma pl_percent_defined_witness :
  let t := demo_trade "PSO" 10 (Decimal.cents 10000) None None
             (Some (Decimal.cents 9500)) in
  exists c, Trade.pl_percent t = Ok (Dec (Decimal.cents c)) /\ c <= 0.
Proof.
  intros t.
  assert (Hst : stored_trade t).
  { split; [cbn; lia|]. split; [split; [reflexivity|cbn; lia]|].
    intros p [= <-]. split; [reflexivity|cbn; lia]. }
  destruct (pl_percent_defined t Hst) as (p & Hp & Hshape).
  cbn in Hshape. destruct Hshape as (c & -> & Hsign).
  exists c. split; [exact Hp|]. apply Hsign; lia.
Defined.

End ValuationFacts.

(* ===================================================================== *)
(** * Trade.save on stored values *)
(* ===================================================================== *)

Module SaveFacts.
Import Valuation TradeDefs DashboardDefs ValuationFacts.

(** On stored inputs the six fields [save] leaves are the six formulas. *)
Lemma save_fields (super_save : Trade.M unit) (t : Trade.t) :
  Trade.orm_write super_save ->
  stored_inputs t ->
  let t' := (Trade.save super_save t).2 in
  Trade.profit_expected t' = profit_expected_of t /\
  profit_percent_of t = Ok (Trade.profit_percent t') /\
  Trade.loss_expected t' = loss_expected_of t /\
  pl_ratio_of t = Ok (Trade.pl_ratio t') /\
  Trade.rate_difference t' = rate_difference_of t /\
  Trade.loss_recent t' = loss_recent_of t.
Proof.
  intros Horm Hst.
  destruct (TradeFacts.save_reaches_orm super_save t Hst) as (pp & r & Hpp & Hr & Hsave).
  cbv zeta. rewrite Hsave.
  match goal with |- context [super_save ?big] => set (t1 := big) end.
  destruct (Horm t1) as
    (_ & _ & _ & _ & _ & _ & _ & Hpe & Hppc & Hle & Hlr & Hplr & Hrd & _).
  rewrite Hpe, Hppc, Hle, Hlr, Hplr, Hrd, Hpp, Hr. subst t1. cbn.
  repeat split; reflexivity.
Qed.

Lemma column_diff_times (a b : decimal) (q : Z) :
  column a -> column b -> 0 <= q < 2 ^ 31 ->
  Decimal.mul (Decimal.sub a b) (Decimal.of_int q)
  = Decimal.cents ((Decimal.coef a - Decimal.coef b) * q).
Proof.
  intros Ha Hb Hq. destruct (TradeFacts.column_sub a b Ha Hb) as (-> & Hd).
  apply DecimalFacts.mul_cents_int. unfold Decimal.prec.
  rewrite Z.abs_mul.
  assert (Z.abs (Decimal.coef a - Decimal.coef b) * Z.abs q <= 10 ^ 11 * 2 ^ 31)
    by (apply Z.mul_le_mono_nonneg; lia).
  change (10 ^ 11 * 2 ^ 31) with 214748364800000000000 in *.
  change (10 ^ 28) with 10000000000000000000000000000. lia.
Qed.

(** X3. On stored inputs (two-decimal prices of at most ten digits, a
    quantity below 2^31) the amounts [save] computes are exact, in
    hundredths: profit_expected is (target - buying price) x quantity and
    loss_expected is (buying price - stop) x quantity, each when the target
    or the stop is set and not zero; rate_difference is current price -
    buying price when the price is set and not zero; loss_recent is (buying
    price - current price) x quantity when stop and price are set and not
    zero and the price is below the buying price.  Each is undefined
    otherwise. *)
Theorem save_amounts_in_hundredths (super_save : Trade.M unit) (t : Trade.t) :
  Trade.orm_write super_save ->
  stored_inputs t ->
  0 <= Trade.quantity t < 2 ^ 31 ->
  (forall p, Stock.current_price (Trade.stock t) = Some p -> column p) ->
  let t' := (Trade.save super_save t).2 in
  let q := Trade.quantity t in
  let b := Decimal.coef (Trade.buying_price t) in
  Trade.profit_expected t'
  = match if_set (Trade.mtp t) with
    | Some m => Some (Decimal.cents ((Decimal.coef m - b) * q))
    | None => None
    end /\
  Trade.loss_expected t'
  = match if_set (Trade.msl t) with
    | Some s => Some (Decimal.cents ((b - Decimal.coef s) * q))
    | None => None
    end /\
  Trade.rate_difference t'
  = match if_set (Stock.current_price (Trade.stock t)) with
    | Some p => Some (Decimal.cents (Decimal.coef p - b))
    | None => None
    end /\
  Trade.loss_recent t'
  = match if_set (Trade.msl t), if_set (Stock.current_price (Trade.stock t)) with
    | Some _, Some p =>
        if Decimal.coef p <? b
        then Some (Decimal.cents ((b - Decimal.coef p) * q))
        else None
    | _, _ => None
    end.
Proof.
  intros Horm Hst Hq Hprice t' q b.
  destruct (save_fields super_save t Horm Hst)
    as (Hpe & _ & Hle & _ & Hrd & Hlr).
  fold t' in Hpe, Hle, Hrd, Hlr. rewrite Hpe, Hle, Hrd, Hlr.
  unfold profit_expected_of, loss_expected_of, rate_difference_of,
    loss_recent_of, Trade.current_price.
  destruct Hst as (Hb & Hm & Hs).
  pose proof (TradeFacts.if_set_spec (Trade.mtp t)) as Hsm.
  pose proof (TradeFacts.if_set_spec (Trade.msl t)) as Hss.
  pose proof (TradeFacts.if_set_spec (Stock.current_price (Trade.stock t))) as Hsp.
  split.
  { destruct (if_set (Trade.mtp t)) as [m|]; [|reflexivity].
    destruct Hsm as (Hmtp & _). f_equal.
    apply column_diff_times; [by apply Hm|exact Hb|exact Hq]. }
  split.
  { destruct (if_set (Trade.msl t)) as [s|]; [|reflexivity].
    destruct Hss as (Hmsl & _). f_equal.
    apply column_diff_times; [exact Hb|by apply Hs|exact Hq]. }
  split.
  { destruct (if_set (Stock.current_price (Trade.stock t))) as [p|]; [|reflexivity].
    destruct Hsp as (Hp & _). f_equal.
    by destruct (TradeFacts.column_sub p (Trade.buying_price t) (Hprice p Hp) Hb). }
  destruct (if_set (Trade.msl t)) as [s|]; [|reflexivity].
  destruct (if_set (Stock.current_price (Trade.stock t))) as [p|]; [|reflexivity].
  destruct Hsp as (Hp & _).
  rewrite (DecimalFacts.column_cents p (Hprice p Hp)) at 1.
  rewrite (DecimalFacts.column_cents (Trade.buying_price t) Hb) at 1.
  rewrite ltb_cents. fold b.
  destruct (Decimal.coef p <? b); [|reflexivity].
  f_equal. apply column_diff_times; [exact Hb|by apply Hprice|exact Hq].
Qed.

Lemma demo_stored_inputs (sym : string) (q cb cm cs : Z) (price : option decimal) :
  Z.abs cb < 10 ^ 10 -> Z.abs cm < 10 ^ 10 -> Z.abs cs < 10 ^ 10 ->
  stored_inputs (demo_trade sym q (Decimal.cents cb) (Some (Decimal.cents cm))
                            (Some (Decimal.cents cs)) price).
Proof.
  intros Hb Hm Hs. split; [by split|].
  split; intros x [= <-]; by split.
Qed.

Lemma save_amounts_in_hundredths_witness :
  let t := demo_trade "PSO" 10 (Decimal.cents 10000)
             (Some (Decimal.cents 12000)) (Some (Decimal.cents 9000))
             (Some (Decimal.cents 9500)) in
  let t' := (Trade.save (Trade.orm_insert 1700000000) t).2 in
  Trade.profit_expected t' = Some (Decimal.cents 20000) /\
  Trade.loss_expected t' = Some (Decimal.cents 10000) /\
  Trade.rate_difference t' = Some (Decimal.cents (-500)) /\
  Trade.loss_recent t' = Some (Decimal.cents 5000).
Proof.
  intros t t'.
  assert (Hst : stored_inputs t)
    by (apply demo_stored_inputs; cbn; lia).
  assert (Hq : 0 <= Trade.quantity t < 2 ^ 31) by (cbn; lia).
  assert (Hp : forall p, Stock.current_price (Trade.stock t) = Some p -> column p).
  { intros p [= <-]. split; [reflexivity|cbn; lia]. }
  exact (save_amounts_in_hundredths (Trade.orm_insert 1700000000) t
           (TradeFacts.orm_insert_write _) Hst Hq Hp).
Defined.

(** The sign of a percentage and of a ratio of two-decimal values. *)
Lemma percent_sgn (x y : Z) (r p : decimal) :
  Decimal.div (Decimal.cents x) (Decimal.cents y) = Ok r ->
  Decimal.round (Decimal.mul r (Decimal.of_int 100)) 2 = Ok p ->
  0 < y ->
  (0 <= x -> 0 <= Decimal.coef p) /\ (x <= 0 -> Decimal.coef p <= 0).
Proof.
  intros Hdiv Hround Hy.
  pose proof (div_sgn _ _ _ Hdiv) as Hsr.
  pose proof (mul_sgn r (Decimal.of_int 100)) as Hsm.
  destruct (round_sgn _ _ _ Hround) as (Hpos & Hneg).
  cbn [Decimal.coef Decimal.cents Decimal.of_int] in Hsr, Hsm.
  rewrite (Z.sgn_pos y) in Hsr by exact Hy.
  rewrite (Z.sgn_pos 100) in Hsm by lia.
  rewrite !Z.mul_1_r in *.
  split; intros Hx.
  - apply Hpos. apply Z.sgn_nonneg. rewrite Hsm, Hsr. by apply Z.sgn_nonneg.
  - apply Hneg. apply Z.sgn_nonpos. rewrite Hsm, Hsr. by apply Z.sgn_nonpos.
Qed.

Lemma ratio_sgn (x y : Z) (r p : decimal) :
  Decimal.div (Decimal.cents x) (Decimal.cents y) = Ok r ->
  Decimal.round r 2 = Ok p ->
  0 < y ->
  (0 <= x -> 0 <= Decimal.coef p) /\ (x <= 0 -> Decimal.coef p <= 0).
Proof.
  intros Hdiv Hround Hy.
  pose proof (div_sgn _ _ _ Hdiv) as Hsr.
  destruct (round_sgn _ _ _ Hround) as (Hpos & Hneg).
  cbn [Decimal.coef Decimal.cents] in Hsr.
  rewrite (Z.sgn_pos y) in Hsr by exact Hy.
  rewrite Z.mul_1_r in Hsr.
  split; intros Hx.
  - apply Hpos. apply Z.sgn_nonneg. rewrite Hsr. by apply Z.sgn_nonneg.
  - apply Hneg. apply Z.sgn_nonpos. rewrite Hsr. by apply Z.sgn_nonpos.
Qed.

(** X4. On stored inputs, after [save]: profit_percent is set exactly when
    the target is set and not zero and the buying price is not zero;
    pl_ratio is set exactly when target and stop are set and not zero, the
    buying price is not zero and the stop is below the buying price, so a
    stop at or above the buying price never gives a ratio.  Both have two
    decimals, and neither is negative for a target at or above a positive
    buying price, nor positive for a target at or below it. *)
Theorem save_ratios (super_save : Trade.M unit) (t : Trade.t) :
  Trade.orm_write super_save ->
  stored_inputs t ->
  let t' := (Trade.save super_save t).2 in
  let b := Decimal.coef (Trade.buying_price t) in
  match Trade.profit_percent t' with
  | Some p =>
      exists m, if_set (Trade.mtp t) = Some m /\ b <> 0 /\
        p = Decimal.cents (Decimal.coef p) /\
        (0 < b ->
         (b <= Decimal.coef m -> 0 <= Decimal.coef p) /\
         (Decimal.coef m <= b -> Decimal.coef p <= 0))
  | None => if_set (Trade.mtp t) = None \/ b = 0
  end /\
  match Trade.pl_ratio t' with
  | Some r =>
      exists m s, if_set (Trade.mtp t) = Some m /\ if_set (Trade.msl t) = Some s /\
        b <> 0 /\ Decimal.coef s < b /\
        r = Decimal.cents (Decimal.coef r) /\
        (b <= Decimal.coef m -> 0 <= Decimal.coef r) /\
        (Decimal.coef m <= b -> Decimal.coef r <= 0)
  | None =>
      if_set (Trade.mtp t) = None \/ if_set (Trade.msl t) = None \/ b = 0 \/
      exists s, Trade.msl t = Some s /\ b <= Decimal.coef s
  end.
Proof.
  intros Horm Hst t' b.
  destruct (save_fields super_save t Horm Hst)
    as (_ & Hpp & _ & Hr & _ & _).
  fold t' in Hpp, Hr.
  destruct Hst as (Hb & Hm & Hs).
  pose proof (TradeFacts.if_set_spec (Trade.mtp t)) as Hsm.
  pose proof (TradeFacts.if_set_spec (Trade.msl t)) as Hss.
  pose proof (TradeFacts.if_set_spec (Some (Trade.buying_price t))) as Hsb.
  unfold profit_percent_of in Hpp. unfold pl_ratio_of in Hr.
  split.
  - clear Hr. destruct (if_set (Trade.mtp t)) as [m|].
    2:{ injection Hpp as <-. by left. }
    destruct (if_set (Some (Trade.buying_price t))) as [b0|].
    2:{ injection Hpp as <-. right.
        destruct Hsb as [|(p & [= <-] & Hz)]; [discriminate|exact Hz]. }
    destruct Hsm as (Hmtp & _), Hsb as ([= <-] & Hbz).
    destruct (TradeFacts.column_sub m (Trade.buying_price t) (Hm m Hmtp) Hb)
      as (Hsub & _).
    rewrite Hsub in Hpp.
    rewrite (DecimalFacts.column_cents (Trade.buying_price t) Hb) in Hpp at 2.
    fold b in Hpp, Hbz.
    destruct (Decimal.div _ _) as [r|] eqn:Hdiv; [|discriminate].
    cbn [rbind] in Hpp.
    destruct (Decimal.round _ 2) as [p|] eqn:Hround; [|discriminate].
    cbn [rbind] in Hpp. injection Hpp as <-.
    exists m. split; [reflexivity|]. split; [exact Hbz|].
    split; [by eapply round_two_places|].
    intros Hpos. destruct (percent_sgn _ _ _ _ Hdiv Hround Hpos) as (H1 & H2).
    split; intros Hle; [apply H1|apply H2]; lia.
  - clear Hpp. destruct (if_set (Trade.mtp t)) as [m|].
    2:{ injection Hr as <-. by left. }
    destruct (if_set (Trade.msl t)) as [s|].
    2:{ injection Hr as <-. right. by left. }
    destruct (if_set (Some (Trade.buying_price t))) as [b0|].
    2:{ injection Hr as <-. right. right. left.
        destruct Hsb as [|(p & [= <-] & Hz)]; [discriminate|exact Hz]. }
    destruct Hsm as (Hmtp & _), Hss as (Hmsl & _), Hsb as ([= <-] & Hbz).
    destruct (TradeFacts.column_sub m (Trade.buying_price t) (Hm m Hmtp) Hb)
      as (Hsub & _).
    destruct (TradeFacts.column_sub (Trade.buying_price t) s Hb (Hs s Hmsl))
      as (Hsub' & _).
    rewrite Hsub, Hsub' in Hr. fold b in Hr, Hbz.
    rewrite gtb_cents_zero_iff in Hr.
    destruct (Z.ltb_spec 0 (b - Decimal.coef s)) as [Hlt|Hge].
    2:{ injection Hr as <-. right. right. right. exists s. split; [exact Hmsl|lia]. }
    destruct (Decimal.div _ _) as [r|] eqn:Hdiv; [|discriminate].
    cbn [rbind] in Hr.
    destruct (Decimal.round _ 2) as [p|] eqn:Hround; [|discriminate].
    cbn [rbind] in Hr. injection Hr as <-.
    exists m, s. split; [reflexivity|]. split; [reflexivity|].
    split; [exact Hbz|]. split; [lia|].
    split; [by eapply round_two_places|].
    destruct (ratio_sgn _ _ _ _ Hdiv Hround Hlt) as (H1 & H2).
    split; intros Hle; [apply H1|apply H2]; lia.
Qed.

Lemma save_ratios_witness :
  let t := demo_trade "PSO" 10 (Decimal.cents 10000)
             (Some (Decimal.cents 12000)) (Some (Decimal.cents 10000))
             (Some (Decimal.cents 9500)) in
  let t' := (Trade.save (Trade.orm_insert 1700000000) t).2 in
  Trade.profit_percent t' = Some (Decimal.cents 2000) /\
  Trade.pl_ratio t' = None /\
  (if_set (Trade.mtp t) = None \/ if_set (Trade.msl t) = None \/
   Decimal.coef (Trade.buying_price t) = 0 \/
   exists s, Trade.msl t = Some s /\
             Decimal.coef (Trade.buying_price t) <= Decimal.coef s).
Proof.
  intros t t'.
  assert (Hst : stored_inputs t)
    by (apply demo_stored_inputs; cbn; lia).
  pose proof (save_ratios (Trade.orm_insert 1700000000) t
                (TradeFacts.orm_insert_write _) Hst) as (_ & H).
  change (Trade.pl_ratio (Trade.save (Trade.orm_insert 1700000000) t).2)
    with (@None decimal) in H.
  split; [reflexivity|]. split; [reflexivity|exact H].
Defined.

End SaveFacts.

(* ===================================================================== *)
(** * fetch_stock_from_psx: when it returns a quote, what it raises *)
(* ===================================================================== *)

Module FetchFacts.
Import Services Samples.

Lemma upper_ascii_idem (c : ascii) : upper_ascii (upper_ascii c) = upper_ascii c.
Proof.
  destruct c as [[] [] [] [] [] [] [] []]; reflexivity.
Qed.

Lemma upper_idem (s : string) : upper (upper s) = upper s.
Proof.
  induction s as [|c s IH]; [reflexivity|]. cbn [upper].
  by rewrite upper_ascii_idem, IH.
Qed.

Lemma upper_empty (s : string) : upper s = EmptyString <-> s = EmptyString.
Proof. destruct s; cbn [upper]; split; by intros. Qed.

Lemma dict_or_not (v : pyval) :
  (exists items, v = PDict items) \/ (forall items, v <> PDict items).
Proof. destruct v; try (right; intros items H; discriminate H). left. by eexists. Qed.

Section Fetch.
Variable COMPANY_NAMES : gmap string string.
Variable requests_get : string -> list (string * string) -> Z -> result Response.
Variable symbol : string.

Let url : string := ("https://psxterminal.com/api/ticks/REG/" ++ upper symbol)%string.
Let fetch := fetch_stock_from_psx COMPANY_NAMES requests_get.

(** What a returned quote says of the symbol and of the provider's answer. *)
Lemma fetch_quote_inv (q : Quote) :
  fetch symbol = Ok (Some q) ->
  symbol <> "" /\
  exists (response : Response) (items fields : list (string * pyval)),
    requests_get url headers 10 = Ok response /\
    status_code response = 200 /\
    content response = Json (PDict items) /\
    truthy (default PNone (assoc "success" items)) = true /\
    assoc "data" items = Some (PDict fields) /\
    fields <> [] /\
    is_none (default PNone (assoc "price" fields)) = false /\
    q = {| q_symbol := symbol;
           q_name := default (upper symbol) (COMPANY_NAMES !! upper symbol);
           q_price := default PNone (assoc "price" fields);
           q_change := default PNone (assoc "change" fields);
           q_change_percent := default PNone (assoc "changePercent" fields);
           q_volume := default PNone (assoc "volume" fields);
           q_high := default PNone (assoc "high" fields);
           q_low := default PNone (assoc "low" fields) |}.
Proof.
  intros Hq.
  destruct (decide (symbol = "")) as [Hs|Hs].
  { unfold fetch in Hq.
    rewrite (ServicesFacts.fetch_empty_symbol _ _ _ Hs) in Hq. discriminate. }
  split; [exact Hs|].
  destruct (requests_get url headers 10) as [response|e] eqn:Hget.
  2:{ unfold fetch in Hq. rewrite ServicesFacts.fetch_unfold in Hq by exact Hs.
      fold url in Hq. rewrite Hget in Hq. cbn in Hq.
      by destruct (decide (exn_cls e = RequestException)). }
  destruct (decide (status_code response = 200)) as [Hst|Hst].
  2:{ unfold fetch in Hq.
      rewrite (ServicesFacts.fetch_bad_status _ _ _ _ Hget Hst) in Hq.
      discriminate. }
  destruct (content response) as [|v] eqn:Hc.
  { unfold fetch in Hq.
    rewrite (ServicesFacts.fetch_not_json _ _ _ _ Hget Hc) in Hq. discriminate. }
  destruct (dict_or_not v) as [(items & ->)|Hv].
  2:{ unfold fetch in Hq.
      rewrite (ServicesFacts.fetch_not_an_object _ _ _ _ v Hs Hget Hst Hc Hv) in Hq.
      discriminate. }
  unfold fetch in Hq.
  rewrite (ServicesFacts.fetch_object _ _ _ _ items Hs Hget Hst Hc) in Hq.
  destruct (truthy (default PNone (assoc "success" items))) eqn:Hsuccess;
    cbn [negb] in Hq; [|discriminate].
  cbv zeta in Hq.
  destruct (assoc "data" items) as [data|] eqn:Hdata;
    cbn [default from_option id] in Hq; [|discriminate].
  destruct (truthy data) eqn:Htruthy; cbn [negb] in Hq; [|discriminate].
  destruct data as [| | | | | | |fields]; try discriminate.
  destruct (is_none (default PNone (assoc "price" fields))) eqn:Hprice;
    [discriminate|].
  injection Hq as <-.
  exists response, items, fields.
  repeat split; try reflexivity; try assumption.
  intros ->. discriminate.
Qed.

(** X5. [fetch_stock_from_psx] returns a quote exactly when the symbol is
    not empty and the provider answers the one request (the upper-cased
    symbol, the fixed headers, a timeout of 10) with status 200 and a JSON
    object whose "success" is true and whose "data" is an object, not empty,
    with a "price" that is not null.  The quote then echoes the symbol as it
    was given, names the company by the table entry of the upper-cased symbol
    (the upper-cased symbol itself when there is none), and carries the six
    values of "data", null for a missing one. *)
Theorem fetch_quote_iff (q : Quote) :
  fetch symbol = Ok (Some q) <->
  symbol <> "" /\
  exists (response : Response) (items fields : list (string * pyval)),
    requests_get url headers 10 = Ok response /\
    status_code response = 200 /\
    content response = Json (PDict items) /\
    truthy (default PNone (assoc "success" items)) = true /\
    assoc "data" items = Some (PDict fields) /\
    fields <> [] /\
    is_none (default PNone (assoc "price" fields)) = false /\
    q = {| q_symbol := symbol;
           q_name := default (upper symbol) (COMPANY_NAMES !! upper symbol);
           q_price := default PNone (assoc "price" fields);
           q_change := default PNone (assoc "change" fields);
           q_change_percent := default PNone (assoc "changePercent" fields);
           q_volume := default PNone (assoc "volume" fields);
           q_high := default PNone (assoc "high" fields);
           q_low := default PNone (assoc "low" fields) |}.
Proof.
  split.
  - apply fetch_quote_inv.
  - intros (Hs & response & items & fields & Hget & Hst & Hc & Hsuccess & Hdata
            & Hne & Hprice & ->).
    unfold fetch.
    rewrite (ServicesFacts.fetch_object _ _ _ _ items Hs Hget Hst Hc).
    rewrite Hsuccess, Hdata. cbn [negb default from_option id]. cbv zeta.
    destruct fields as [|field rest]; [done|].
    cbn [truthy negb]. by rewrite Hprice.
Qed.


End Fetch.

Lemma fetch_quote_iff_witness :
  exists q, fetch_stock_from_psx ∅ flat_provider "pso" = Ok (Some q) /\
            q_symbol q = "pso" /\ q_name q = "PSO" /\ q_change q = PNone.
Proof.
  eexists. split.
  - apply fetch_quote_iff. split; [discriminate|].
    eexists _, _, _. repeat split; try reflexivity. discriminate.
  - repeat split; reflexivity.
Defined.


End FetchFacts.

(* ===================================================================== *)
(** * portfolio_dashboard: whose holdings, in which order *)
(* ===================================================================== *)

Module HoldingsFacts.
Import Views DashboardDefs Samples.

(** The view up to the totals: the holdings of a rendered report are the
    sorted trades of the user, filtered. *)
Lemma dashboard_holdings (nulls_low : bool) (Trade_objects : list Trade.t)
    (request : Request) (template : string) (ctx : DashboardContext) :
  portfolio_dashboard nulls_low Trade_objects request = Ok (Render template ctx) ->
  exists u,
    req_user request = Some u /\
    user_name ctx = username u /\
    ctx_sort_by ctx = GET_get request "sort" "symbol" /\
    sorted_trades nulls_low (GET_get request "sort" "symbol")
      (filtered_holdings Trade_objects u request) = Ok (holdings ctx).
Proof.
  unfold portfolio_dashboard. destruct (req_user request) as [u|]; [|done].
  cbv zeta. fold (filtered_holdings Trade_objects u request).
  destruct (sorted_trades nulls_low _ _) as [trades|e] eqn:Hsorted; [|done].
  cbn [rbind].
  match goal with |- context [pl_percentage_of ?a ?b] =>
    destruct (pl_percentage_of a b) as [pct|e] end; [|done].
  cbn [rbind]. intros [= <- <-]. exists u. cbn. by rewrite Hsorted.
Qed.

Lemma sorted_trades_profit (nulls_low : bool) (trades : list Trade.t) :
  is_ok (sorted_trades nulls_low "profit" trades) = false.
Proof. reflexivity. Qed.

(** X7. A rendered dashboard lists the trades of the user who asked, and of
    nobody else: a trade is among the holdings exactly when it is a row of
    the table, belongs to that user and, when a stock filter is given, is on
    the stock whose symbol equals the filter up to letter case.  Each such
    trade is listed as often as the table holds it. *)
Theorem dashboard_own_holdings (nulls_low : bool) (Trade_objects : list Trade.t)
    (request : Request) (template : string) (ctx : DashboardContext) :
  portfolio_dashboard nulls_low Trade_objects request = Ok (Render template ctx) ->
  exists u,
    req_user request = Some u /\
    user_name ctx = username u /\
    let stock_filter := strip (GET_get request "stock" "") in
    (forall t,
       t ∈ holdings ctx <->
       t ∈ Trade_objects /\ Trade.user t = u /\
       (stock_filter = "" \/
        upper (Stock.symbol (Trade.stock t)) = upper stock_filter)) /\
    holdings ctx ≡ₚ filtered_holdings Trade_objects u request.
Proof.
  intros Hview.
  destruct (dashboard_holdings _ _ _ _ _ Hview) as (u & Hu & Hname & _ & Hsorted).
  exists u. split; [exact Hu|]. split; [exact Hname|]. cbv zeta.
  assert (Hperm : holdings ctx ≡ₚ filtered_holdings Trade_objects u request).
  { destruct (decide (GET_get request "sort" "symbol" = "profit")) as [Hp|Hp].
    { rewrite Hp in Hsorted.
      pose proof (sorted_trades_profit nulls_low
                    (filtered_holdings Trade_objects u request)) as Hno.
      by rewrite Hsorted in Hno. }
    destruct (DashboardFacts.sorted_trades_perm nulls_low _
                (filtered_holdings Trade_objects u request) Hp) as (l & Hl & Hperm).
    rewrite Hsorted in Hl. by injection Hl as ->. }
  split; [|exact Hperm].
  intros t. rewrite Hperm. unfold filtered_holdings.
  destruct (String.eqb_spec (strip (GET_get request "stock" "")) "") as [He|Hne];
    cbn [negb].
  - rewrite list_elem_of_filter. split.
    + intros (Ht & Hin). split; [exact Hin|]. split; [exact Ht|by left].
    + intros (Hin & Ht & _). by split.
  - rewrite !list_elem_of_filter. split.
    + intros (Hsym & Ht & Hin). split; [exact Hin|]. split; [exact Ht|by right].
    + intros (Hin & Ht & [He|Hsym]); [done|]. by repeat split.
Qed.

Lemma dashboard_own_holdings_witness :
  exists u,
    req_user (dashboard_request TradeDefs.demo_user "symbol") = Some u /\
    user_name two_holdings_context = username u /\
    holdings two_holdings_context
      ≡ₚ filtered_holdings two_holdings u
           (dashboard_request TradeDefs.demo_user "symbol").
Proof.
  assert (Hview : portfolio_dashboard true two_holdings
                    (dashboard_request TradeDefs.demo_user "symbol")
                  = Ok (Render "App/portfolio/dashboard.html" two_holdings_context))
    by (vm_compute; reflexivity).
  destruct (dashboard_own_holdings _ _ _ _ _ Hview) as (u & Hu & Hname & _ & Hperm).
  exists u. split; [exact Hu|]. split; [exact Hname|exact Hperm].
Defined.

(** ** Order *)

Section Sorted.
Context {A K : Type} (leb : K -> K -> bool) (key : A -> K).
Hypothesis leb_total : forall a b, leb a b = false -> leb b a = true.

Lemma insert_sorted_ascending (x : A) (l : list A) :
  ascending leb (map key l) = true ->
  ascending leb (map key (insert_sorted leb key x l)) = true.
Proof.
  induction l as [|y l IH]; [reflexivity|]. intros Hasc.
  cbn [insert_sorted]. destruct (leb (key x) (key y)) eqn:Hxy.
  { cbn [map ascending] in Hasc |- *. rewrite Hxy.
    destruct (map key l); exact Hasc. }
  cbn [map]. specialize (leb_total _ _ Hxy).
  assert (Htail : ascending leb (map key l) = true).
  { cbn [map ascending] in Hasc. destruct (map key l) as [|z ks]; [reflexivity|].
    by apply andb_true_iff in Hasc as [_ ?]. }
  specialize (IH Htail).
  destruct l as [|z l'].
  { cbn. by rewrite leb_total. }
  cbn [insert_sorted] in IH |- *.
  destruct (leb (key x) (key z)) eqn:Hxz.
  - cbn [map ascending] in IH |- *. by rewrite leb_total.
  - cbn [map ascending] in Hasc, IH |- *.
    apply andb_true_iff in Hasc as [Hyz _]. by rewrite Hyz.
Qed.

Lemma sort_by_ascending (l : list A) :
  ascending leb (map key (sort_by leb key l)) = true.
Proof.
  induction l as [|x l IH]; [reflexivity|].
  unfold sort_by in *. cbn [foldr]. apply insert_sorted_ascending. exact IH.
Qed.

End Sorted.

Lemma string_leb_total (a b : string) : String.leb a b = false -> String.leb b a = true.
Proof.
  unfold String.leb. rewrite (String.compare_antisym b a).
  destruct (String.compare a b); cbn; congruence.
Qed.

Lemma geb_total (a b : Z) : Z.geb a b = false -> Z.geb b a = true.
Proof. lia. Qed.

Lemma decimal_leb_total (a b : decimal) :
  Decimal.leb a b = false -> Decimal.leb b a = true.
Proof.
  unfold Decimal.leb, Decimal.gtb, Decimal.compare.
  rewrite (Z.min_comm (Decimal.dexp b)).
  set (m := Z.min (Decimal.dexp a) (Decimal.dexp b)).
  rewrite (Z.compare_antisym (Decimal.coef a * 10 ^ (Decimal.dexp a - m))).
  destruct (_ ?= _); cbn; congruence.
Qed.

Lemma sql_leb_total (nulls_low : bool) (a b : sql) :
  sql_leb nulls_low a b = false -> sql_leb nulls_low b a = true.
Proof.
  destruct a as [x|], b as [y|]; cbn; try done.
  - apply decimal_leb_total.
  - by destruct nulls_low.
  - by destruct nulls_low.
Qed.

(** X8. The holdings of a rendered dashboard are in the order asked for:
    with sort=symbol, or with no sort parameter, in ascending order of the
    stock symbols; with sort=date, from the latest buy date to the earliest;
    with a sort key the view does not know, in the order of the table. *)
Theorem dashboard_order (nulls_low : bool) (Trade_objects : list Trade.t)
    (request : Request) (template : string) (ctx : DashboardContext) :
  portfolio_dashboard nulls_low Trade_objects request = Ok (Render template ctx) ->
  let sort := GET_get request "sort" "symbol" in
  ctx_sort_by ctx = sort /\
  (sort = "symbol" ->
   ascending String.leb
     (map (fun t => Stock.symbol (Trade.stock t)) (holdings ctx)) = true) /\
  (sort = "date" ->
   ascending Z.geb (map Trade.buy_date (holdings ctx)) = true) /\
  (sort <> "symbol" -> sort <> "date" -> sort <> "loss" ->
   exists u, req_user request = Some u /\
     holdings ctx = filtered_holdings Trade_objects u request).
Proof.
  intros Hview sort.
  destruct (dashboard_holdings _ _ _ _ _ Hview) as (u & Hu & _ & Hsort & Hsorted).
  fold sort in Hsort, Hsorted. split; [exact Hsort|].
  unfold sorted_trades in Hsorted.
  split; [|split].
  - intros Hs. rewrite Hs in Hsorted. cbn in Hsorted. injection Hsorted as <-.
    apply (sort_by_ascending String.leb (fun t => Stock.symbol (Trade.stock t))).
    exact string_leb_total.
  - intros Hs. rewrite Hs in Hsorted. cbn in Hsorted. injection Hsorted as <-.
    apply (sort_by_ascending Z.geb Trade.buy_date). exact geb_total.
  - intros H1 H2 H3. exists u. split; [exact Hu|]. revert Hsorted.
    destruct (String.eqb_spec sort "symbol"); [done|].
    destruct (String.eqb_spec sort "date"); [done|].
    destruct (String.eqb_spec sort "profit"); [cbn; discriminate|].
    destruct (String.eqb_spec sort "loss"); [done|].
    by intros [= <-].
Qed.

Lemma dashboard_order_witness :
  ascending String.leb
    (map (fun t => Stock.symbol (Trade.stock t)) (holdings two_holdings_context))
  = true.
Proof.
  assert (Hview : portfolio_dashboard true two_holdings
                    (dashboard_request TradeDefs.demo_user "symbol")
                  = Ok (Render "App/portfolio/dashboard.html" two_holdings_context))
    by (vm_compute; reflexivity).
  destruct (dashboard_order _ _ _ _ _ Hview) as (_ & Hsym & _).
  apply Hsym. reflexivity.
Defined.

(** The ranking term of a quoted holding is its rank in the loss order. *)
Lemma loss_pl_ranking_term (t : Trade.t) :
  Stock.current_price (Trade.stock t) <> None ->
  loss_pl t = Some (ranking_term t).
Proof.
  unfold loss_pl, ranking_term.
  destruct (Stock.current_price (Trade.stock t)) as [p|]; [|done]. reflexivity.
Qed.

Lemma ascending_map_fst (nulls_low : bool) (rows : list (Trade.t * sql)) :
  Forall (fun row => row.2 = Some (ranking_term row.1)) rows ->
  ascending (sql_leb nulls_low) (map snd rows) = true ->
  ascending Decimal.leb (map ranking_term (map fst rows)) = true.
Proof.
  induction rows as [|[t r] rows IH]; [reflexivity|].
  intros Hall Hasc. apply Forall_cons in Hall as [Hr Hall]. cbn [fst snd] in Hr.
  destruct rows as [|[t' r'] rows']; [reflexivity|].
  pose proof Hall as Hall'. apply Forall_cons in Hall' as [Hr' _].
  cbn [fst snd] in Hr'.
  cbn [map ascending fst snd] in Hasc |- *.
  apply andb_true_iff in Hasc as [Hle Hrest].
  rewrite Hr, Hr' in Hle. cbn [sql_leb] in Hle. rewrite Hle. cbn [andb].
  apply (IH Hall). exact Hrest.
Qed.

(** X9. With sort=loss and every listed holding quoted, the holdings of a
    rendered dashboard are in ascending order of the ranking term, quantity x
    current price - quantity x buying price: the largest loss comes first. *)
Theorem loss_order_when_quoted (nulls_low : bool) (Trade_objects : list Trade.t)
    (request : Request) (template : string) (ctx : DashboardContext) :
  portfolio_dashboard nulls_low Trade_objects request = Ok (Render template ctx) ->
  GET_get request "sort" "symbol" = "loss" ->
  Forall (fun t => Stock.current_price (Trade.stock t) <> None) (holdings ctx) ->
  ascending Decimal.leb (map ranking_term (holdings ctx)) = true.
Proof.
  intros Hview Hsort Hquoted.
  destruct (dashboard_holdings _ _ _ _ _ Hview) as (u & _ & _ & _ & Hsorted).
  rewrite Hsort in Hsorted. cbn in Hsorted.
  set (held := filtered_holdings Trade_objects u request) in *.
  set (rows := sort_by (sql_leb nulls_low) snd (annotate loss_pl held)) in *.
  injection Hsorted as Hholdings.
  rewrite <- Hholdings in Hquoted |- *.
  apply (ascending_map_fst nulls_low).
  - assert (Hrows : Forall (fun row => row.2 = loss_pl row.1) rows).
    { subst rows. rewrite (DashboardFacts.sort_by_perm (sql_leb nulls_low) snd).
      unfold annotate. apply Forall_forall. intros row Hin.
      apply list_elem_of_fmap in Hin as (t & -> & _). reflexivity. }
    rewrite Forall_forall in Hrows. rewrite Forall_forall in Hquoted.
    rewrite Forall_forall. intros row Hin.
    cbv beta. transitivity (loss_pl row.1); [exact (Hrows row Hin)|].
    apply loss_pl_ranking_term.
    apply Hquoted. by apply (list_elem_of_fmap_2 fst) in Hin.
  - subst rows.
    apply (sort_by_ascending (sql_leb nulls_low) (@snd Trade.t sql)).
    apply sql_leb_total.
Qed.

Lemma loss_order_when_quoted_witness :
  exists ctx,
    portfolio_dashboard true quoted_holdings
      (dashboard_request TradeDefs.demo_user "loss")
    = Ok (Render "App/portfolio/dashboard.html" ctx) /\
    map (fun t => Stock.symbol (Trade.stock t)) (holdings ctx) = ["BBB"; "CCC"] /\
    ascending Decimal.leb (map ranking_term (holdings ctx)) = true.
Proof.
  destruct (portfolio_dashboard true quoted_holdings
              (dashboard_request TradeDefs.demo_user "loss"))
    as [[|template ctx|]|] eqn:Hview; try (vm_compute in Hview; discriminate Hview).
  exists ctx.
  assert (Hctx : template = "App/portfolio/dashboard.html" /\
                 map (fun t => Stock.symbol (Trade.stock t)) (holdings ctx)
                 = ["BBB"; "CCC"] /\
                 Forall (fun t => Stock.current_price (Trade.stock t) <> None)
                        (holdings ctx)).
  { vm_compute in Hview. injection Hview as <- <-.
    split; [reflexivity|]. split; [reflexivity|].
    repeat constructor; discriminate. }
  destruct Hctx as (-> & Hsyms & Hquoted).
  split; [reflexivity|]. split; [exact Hsyms|].
  exact (loss_order_when_quoted true quoted_holdings _ _ ctx Hview eq_refl Hquoted).
Defined.

End HoldingsFacts.

(* ===================================================================== *)
(** * refresh_stock_prices_api: the answers, the selection *)
(* ===================================================================== *)

Module AnswerFacts.
Import Services Views RefreshDefs Samples.

Section Answers.
Variable COMPANY_NAMES : gmap string string.
Variable requests_get : string -> list (string * string) -> Z -> result Response.
Variable py_float : pyval -> result spec_float.
Variable py_int : pyval -> result Z.
Variable Stock_save : StockInstance -> result Stock.t.

Let refresh := refresh_stock_prices_api COMPANY_NAMES requests_get py_float py_int
                 Stock_save.

(** X10. Every outcome of the batch refresh is one of these: the login
    redirect for an anonymous request; status 405 for a method other than
    GET; status 400 when no selection is given or an id is not a number;
    status 404 when the selection is empty; status 200 with success true and
    the count of the listed records; or an exception of [int] other than a
    [ValueError].  Except for status 200 the table is left as it was. *)
Theorem refresh_answers (request : Request) (db : gmap Z Stock.t) :
  match (refresh request db).1 with
  | Ok RedirectToLogin => req_user request = None /\ (refresh request db).2 = db
  | Ok (JsonResponse status (JError msg)) =>
      (refresh request db).2 = db /\
      ((status = 405 /\ method request <> "GET") \/
       (status = 400 /\ method request = "GET") \/
       (status = 404 /\ method request = "GET" /\
        select_stocks py_int request db = Ok (inr [])))
  | Ok (JsonResponse status (JRefreshed success count updated errs)) =>
      status = 200 /\ success = true /\ count = length updated /\
      method request = "GET" /\
      exists stocks, select_stocks py_int request db = Ok (inr stocks) /\
        (length updated + length errs = length stocks)%nat /\ stocks <> []
  | Ok (Render _ _) => False
  | Raise e =>
      (refresh request db).2 = db /\ exn_cls e <> ValueError /\
      select_stocks py_int request db = Raise e
  end.
Proof.
  unfold refresh, refresh_stock_prices_api.
  destruct (req_user request) as [u|]; [|done].
  destruct (String.eqb_spec (method request) "GET") as [Hm|Hm]; cbn [negb fst snd].
  2:{ split; [reflexivity|]. by left. }
  destruct (select_stocks py_int request db) as [[response|stocks]|e] eqn:Hsel.
  - destruct (RefreshFacts.select_stocks_rejects _ _ _ _ Hsel) as (msg & ->).
    cbn. split; [reflexivity|]. right. by left.
  - destruct stocks as [|item rest] eqn:Hstocks.
    { cbn. split; [reflexivity|]. right. right. done. }
    rewrite <- Hstocks. cbn [fst snd].
    split; [reflexivity|]. split; [reflexivity|]. split; [reflexivity|].
    split; [exact Hm|]. exists stocks. split; [by rewrite Hstocks|].
    split; [|by rewrite Hstocks].
    destruct (RefreshFacts.refresh_loop_outcomes COMPANY_NAMES requests_get
                py_float py_int Stock_save db stocks) as (_ & -> & ->).
    apply RefreshFacts.outcomes_length.
  - cbn. split; [reflexivity|]. split; [|reflexivity].
    unfold select_stocks in Hsel.
    destruct (String.eqb (lower (GET_get request "all" "")) "true"); [done|].
    destruct (negb (String.eqb (strip (GET_get request "ids" "")) "")).
    { destruct (id_list_of py_int _) as [ids|e']; [done|].
      destruct (decide (exn_cls e' = ValueError)); [done|].
      by injection Hsel as <-. }
    by destruct (negb (String.eqb (strip (GET_get request "symbols" "")) "")).
Qed.

(** X11. When the provider cannot be reached (every request raises a
    [RequestException]) a batch refresh over a selection that is not empty
    still answers 200 with success true: nothing is updated, every selected
    stock has the error "No data available from API" under its symbol, in the
    order of the selection, and the table is left as it was. *)
Theorem refresh_provider_down (request : Request) (db : gmap Z Stock.t)
    (stocks : list (Z * Stock.t)) (u : User) :
  (forall url hdrs timeout, exists e,
      requests_get url hdrs timeout = Raise e /\ exn_cls e = RequestException) ->
  req_user request = Some u ->
  method request = "GET" ->
  select_stocks py_int request db = Ok (inr stocks) ->
  stocks <> [] ->
  refresh request db
  = (Ok (JsonResponse 200
           (JRefreshed true 0 []
              (map (fun item => {| err_symbol := Stock.symbol item.2;
                                   err_error := "No data available from API" |})
                   stocks))),
     db).
Proof.
  intros Hdown Hu Hm Hsel Hne. unfold refresh.
  rewrite (RefreshFacts.refresh_selected _ _ _ _ _ _ _ _ u Hu Hm Hsel Hne).
  destruct (RefreshFacts.refresh_loop_outcomes COMPANY_NAMES requests_get
              py_float py_int Stock_save db stocks) as (Ht & Hupd & Herr).
  assert (Hout : forall item,
            RefreshDefs.outcome_of COMPANY_NAMES requests_get py_float py_int
              Stock_save item
            = Failed None "No data available from API").
  { intros [k s]. unfold RefreshDefs.outcome_of. cbn [fst snd].
    destruct (Hdown ("https://psxterminal.com/api/ticks/REG/"
                     ++ upper (Stock.symbol s))%string headers 10)
      as (e & Hget & Hcls).
    by rewrite (ServicesFacts.fetch_request_exception COMPANY_NAMES requests_get
                  (Stock.symbol s) e Hget Hcls). }
  assert (Hupd' : updated_stocks (refresh_loop COMPANY_NAMES requests_get py_float
                                    py_int Stock_save db stocks) = []).
  { rewrite Hupd. clear -Hout. induction stocks as [|item rest IH]; [done|].
    rewrite DashboardFacts.omap_cons, Hout. exact IH. }
  assert (Herr' : errors (refresh_loop COMPANY_NAMES requests_get py_float
                            py_int Stock_save db stocks)
                  = map (fun item => {| err_symbol := Stock.symbol item.2;
                                        err_error := "No data available from API" |})
                        stocks).
  { rewrite Herr. clear -Hout. induction stocks as [|item rest IH]; [done|].
    rewrite DashboardFacts.omap_cons, Hout. cbn [error_of map]. by rewrite IH. }
  assert (Ht' : table (refresh_loop COMPANY_NAMES requests_get py_float
                         py_int Stock_save db stocks) = db).
  { rewrite Ht. clear -Hout. revert db.
    induction stocks as [|item rest IH]; intros db; [done|].
    cbn [fold_left]. unfold RefreshDefs.write_outcome at 2. rewrite Hout.
    cbn [written_of]. apply IH. }
  by rewrite Hupd', Herr', Ht'.
Qed.

(** X12. A selection by symbols takes the rows whose stored symbol is the
    upper-cased, stripped text of one of the comma-separated parts of the
    parameter that is not blank, and no other row.  The comparison is exact,
    so a stock whose stored symbol has a lower-case letter is never selected
    by its symbol, however it is written in the request. *)
Theorem select_by_symbols (request : Request) (db : gmap Z Stock.t)
    (stocks : list (Z * Stock.t)) :
  lower (GET_get request "all" "") <> "true" ->
  strip (GET_get request "ids" "") = "" ->
  select_stocks py_int request db = Ok (inr stocks) ->
  (forall k s,
     (k, s) ∈ stocks <->
     db !! k = Some s /\
     exists part, part ∈ split "," (strip (GET_get request "symbols" "")) /\
       strip part <> "" /\ Stock.symbol s = upper (strip part)) /\
  (forall k s, (k, s) ∈ stocks -> upper (Stock.symbol s) = Stock.symbol s).
Proof.
  intros Hall Hids Hsel.
  assert (Hrows : forall k s,
     (k, s) ∈ stocks <->
     db !! k = Some s /\
     exists part, part ∈ split "," (strip (GET_get request "symbols" "")) /\
       strip part <> "" /\ Stock.symbol s = upper (strip part)).
  2:{ split; [exact Hrows|]. intros k s Hin.
      apply Hrows in Hin as (_ & part & _ & _ & ->).
      apply FetchFacts.upper_idem. }
  intros k s. unfold select_stocks in Hsel.
  destruct (String.eqb_spec (lower (GET_get request "all" "")) "true"); [done|].
  rewrite Hids in Hsel. cbn [String.eqb negb] in Hsel.
  destruct (negb (String.eqb (strip (GET_get request "symbols" "")) ""));
    [|done].
  injection Hsel as <-. rewrite list_elem_of_filter, elem_of_map_to_list.
  cbn [snd]. unfold symbol_list_of. rewrite list_elem_of_fmap.
  split.
  - intros ((part & Hsym & Hin) & Hdb). split; [exact Hdb|].
    apply list_elem_of_filter in Hin as (Hne & Hin). by exists part.
  - intros (Hdb & part & Hin & Hne & Hsym). split; [|exact Hdb].
    exists part. split; [exact Hsym|]. by apply list_elem_of_filter.
Qed.

End Answers.

Lemma refresh_provider_down_witness :
  refresh_stock_prices_api ∅ unreachable_provider demo_float demo_int demo_save
    refresh_all_request demo_table
  = (Ok (JsonResponse 200
           (JRefreshed true 0 []
              (map (fun item => {| err_symbol := Stock.symbol item.2;
                                   err_error := "No data available from API" |})
                   demo_selection))),
     demo_table).
Proof.
  assert (Hsel : select_stocks demo_int refresh_all_request demo_table
                 = Ok (inr demo_selection)) by (vm_compute; reflexivity).
  apply (refresh_provider_down ∅ unreachable_provider demo_float demo_int
           demo_save refresh_all_request demo_table demo_selection
           TradeDefs.demo_user).
  - intros url hdrs timeout. eexists. split; reflexivity.
  - reflexivity.
  - reflexivity.
  - exact Hsel.
  - discriminate.
Defined.

Lemma select_by_symbols_witness :
  exists stocks,
    select_stocks demo_int symbols_request demo_table = Ok (inr stocks) /\
    (1, TradeDefs.demo_stock "PSO" (Some (Decimal.cents 10000))) ∈ stocks.
Proof.
  destruct (select_stocks demo_int symbols_request demo_table)
    as [[response|stocks]|e] eqn:Hsel;
    try (vm_compute in Hsel; discriminate Hsel).
  exists stocks. split; [reflexivity|].
  apply (select_by_symbols demo_int symbols_request demo_table stocks);
    [by vm_compute | by vm_compute | exact Hsel |].
  split; [by vm_compute|].
  exists "pso". split; [vm_compute; left|]. split; [by vm_compute|by vm_compute].
Defined.

End AnswerFacts.

(* ===================================================================== *)
(** * TradeForm: what the field checks accept *)
(* ===================================================================== *)

Module FormFacts.
Import Forms Forms.TradeForm.

(** The sign of a decimal against [0] is the sign of its coefficient,
    whatever the exponent. *)
Lemma decimal_compare_zero (d : decimal) :
  Decimal.compare d (Decimal.of_int 0) = (Decimal.coef d ?= 0).
Proof.
  unfold Decimal.compare, Decimal.of_int. cbn [Decimal.coef Decimal.dexp].
  rewrite Z.mul_0_l.
  set (k := Decimal.dexp d - Z.min (Decimal.dexp d) 0).
  assert (Hk : 0 <= k) by (unfold k; lia).
  assert (Hp : 0 < 10 ^ k) by (apply Z.pow_pos_nonneg; lia).
  destruct (Z.compare_spec (Decimal.coef d) 0) as [H|H|H].
  - rewrite H. reflexivity.
  - apply Z.compare_lt_iff. nia.
  - apply Z.compare_gt_iff. nia.
Qed.

Lemma decimal_ltb_zero (d : decimal) :
  Decimal.ltb d (Decimal.of_int 0) = (Decimal.coef d <? 0).
Proof.
  unfold Decimal.ltb. rewrite decimal_compare_zero. unfold Z.ltb.
  by destruct (Decimal.coef d ?= 0).
Qed.

(** X13. The field checks of [TradeForm].  A quantity passes exactly when
    it is above zero, and a missing or null quantity is refused like a zero
    one; it passes unchanged.  Each of the three prices (buying_price,
    mtp, msl) may be missing or null and passes then as null; a decimal
    price passes unchanged exactly when its coefficient is not negative,
    whatever its exponent, so zero passes; a refusal carries the message of
    its field. *)
Theorem trade_form_checks (cleaned_data : gmap string pyval) :
  (forall n : Z, cleaned_data !! "quantity" = Some (PInt n) ->
     clean_quantity cleaned_data
     = if 0 <? n then Ok (PInt n)
       else Raise (validation_error "Quantity must be greater than zero.")) /\
  (cleaned_data !! "quantity" = None \/ cleaned_data !! "quantity" = Some PNone ->
     clean_quantity cleaned_data
     = Raise (validation_error "Quantity must be greater than zero.")) /\
  (forall d : decimal,
     (cleaned_data !! "buying_price" = Some (PDec d) ->
        clean_buying_price cleaned_data
        = if Decimal.coef d <? 0
          then Raise (validation_error "Buying price cannot be negative.")
          else Ok (PDec d)) /\
     (cleaned_data !! "mtp" = Some (PDec d) ->
        clean_mtp cleaned_data
        = if Decimal.coef d <? 0
          then Raise (validation_error "Target price cannot be negative.")
          else Ok (PDec d)) /\
     (cleaned_data !! "msl" = Some (PDec d) ->
        clean_msl cleaned_data
        = if Decimal.coef d <? 0
          then Raise (validation_error "Stop loss cannot be negative.")
          else Ok (PDec d))) /\
  (cleaned_data !! "buying_price" = None \/
   cleaned_data !! "buying_price" = Some PNone ->
     clean_buying_price cleaned_data = Ok PNone) /\
  (cleaned_data !! "mtp" = None \/ cleaned_data !! "mtp" = Some PNone ->
     clean_mtp cleaned_data = Ok PNone) /\
  (cleaned_data !! "msl" = None \/ cleaned_data !! "msl" = Some PNone ->
     clean_msl cleaned_data = Ok PNone).
Proof.
  repeat split.
  - intros n Hq. unfold clean_quantity, cleaned_get. rewrite Hq.
    cbn [default from_option id is_none py_le0 rbind].
    rewrite Z.leb_antisym. by destruct (0 <? n).
  - intros [Hq|Hq]; unfold clean_quantity, cleaned_get; rewrite Hq; reflexivity.
  - intros Hp. unfold clean_buying_price, cleaned_get. rewrite Hp.
    cbn [default from_option id is_none py_lt0 rbind].
    rewrite decimal_ltb_zero. by destruct (Decimal.coef d <? 0).
  - intros Hp. unfold clean_mtp, cleaned_get. rewrite Hp.
    cbn [default from_option id is_none py_lt0 rbind].
    rewrite decimal_ltb_zero. by destruct (Decimal.coef d <? 0).
  - intros Hp. unfold clean_msl, cleaned_get. rewrite Hp.
    cbn [default from_option id is_none py_lt0 rbind].
    rewrite decimal_ltb_zero. by destruct (Decimal.coef d <? 0).
  - intros [Hp|Hp]; unfold clean_buying_price, cleaned_get; rewrite Hp; reflexivity.
  - intros [Hp|Hp]; unfold clean_mtp, cleaned_get; rewrite Hp; reflexivity.
  - intros [Hp|Hp]; unfold clean_msl, cleaned_get; rewrite Hp; reflexivity.
Qed.

End FormFacts.

(* ===================================================================== *)
(** * fetch_stock_price_ajax: the answers *)
(* ===================================================================== *)

Module PriceFacts.
Import Services Views PriceView Samples.

Section Ajax.
Variable COMPANY_NAMES : gmap string string.
Variable requests_get : string -> list (string * string) -> Z -> result Response.
Variable py_float : pyval -> result spec_float.
Variable py_int : pyval -> result Z.

Let fetch := fetch_stock_from_psx COMPANY_NAMES requests_get.
Let view := fetch_stock_price_ajax COMPANY_NAMES requests_get py_float py_int.

(** [float(v) if v else ""], as a relation between the quote's value and
    the answer's. *)
Lemma float_or_blank_spec (v out : pyval) :
  float_or_blank py_float v = Ok out ->
  if truthy v then exists f, py_float v = Ok f /\ out = PFloat f
  else out = PStr "".
Proof.
  unfold float_or_blank. destruct (truthy v).
  - destruct (py_float v) as [f|e]; cbn [rbind]; [|discriminate].
    intros [= <-]. by exists f.
  - by intros [= <-].
Qed.

Lemma int_or_blank_spec (v out : pyval) :
  int_or_blank py_int v = Ok out ->
  if truthy v then exists n, py_int v = Ok n /\ out = PInt n
  else out = PStr "".
Proof.
  unfold int_or_blank. destruct (truthy v).
  - destruct (py_int v) as [n|e]; cbn [rbind]; [|discriminate].
    intros [= <-]. by exists n.
  - by intros [= <-].
Qed.

(** X14. The answers of [fetch_stock_price_ajax].  Nobody logged in: the
    login redirect.  Otherwise the symbol is the "symbol" parameter, stripped
    and upper-cased.  An empty symbol: status 400.  Status 404 is given
    exactly for a symbol the service returns no quote for (the view's own
    test of a null price never decides, the service returns no such quote).
    Status 200 carries the symbol, the company name of the table (the symbol
    itself when the table has none), the price as a float even when it is 0,
    and high, low and volume as a float, a float and an int, or the empty
    string when the quote's value is missing, null, zero or empty.  The view
    never renders a template, and what it raises was raised by the service
    or by a conversion of a value of the quote. *)
Theorem price_answers (request : Request) :
  let symbol := upper (strip (GET_get request "symbol" "")) in
  match view request with
  | Ok RedirectToLogin => req_user request = None
  | Ok (Render _ _) => False
  | Ok (JsonResponse status data) =>
      req_user request <> None /\
      ((status = 400 /\ symbol = "" /\
        data = PDict [("error", PStr "Symbol is required")]) \/
       (status = 404 /\ symbol <> "" /\ fetch symbol = Ok None /\
        data = PDict [("error", PStr ("No data found for symbol " ++ symbol))]) \/
       (status = 200 /\ symbol <> "" /\
        exists (q : Quote) (price : spec_float) (high low volume : pyval),
          fetch symbol = Ok (Some q) /\
          is_none (q_price q) = false /\
          py_float (q_price q) = Ok price /\
          (if truthy (q_high q)
           then exists f, py_float (q_high q) = Ok f /\ high = PFloat f
           else high = PStr "") /\
          (if truthy (q_low q)
           then exists f, py_float (q_low q) = Ok f /\ low = PFloat f
           else low = PStr "") /\
          (if truthy (q_volume q)
           then exists n, py_int (q_volume q) = Ok n /\ volume = PInt n
           else volume = PStr "") /\
          data = PDict [("symbol", PStr symbol);
                        ("name", PStr (default symbol (COMPANY_NAMES !! symbol)));
                        ("price", PFloat price);
                        ("high", high); ("low", low); ("volume", volume)]))
  | Raise e =>
      req_user request <> None /\ symbol <> "" /\
      (fetch symbol = Raise e \/
       exists q : Quote,
         fetch symbol = Ok (Some q) /\
         (py_float (q_price q) = Raise e \/
          (truthy (q_high q) = true /\ py_float (q_high q) = Raise e) \/
          (truthy (q_low q) = true /\ py_float (q_low q) = Raise e) \/
          (truthy (q_volume q) = true /\ py_int (q_volume q) = Raise e)))
  end.
Proof.
  intros symbol. unfold view, fetch_stock_price_ajax.
  destruct (req_user request) as [u|] eqn:Hu; [|reflexivity].
  fold symbol.
  destruct (String.eqb_spec symbol "") as [Hs|Hs].
  { split; [discriminate|]. left. done. }
  fold fetch.
  destruct (fetch symbol) as [[q|]|e] eqn:Hfetch; cbn [rbind].
  3:{ repeat split; [discriminate|exact Hs|by left]. }
  2:{ split; [discriminate|]. right; left. done. }
  destruct (FetchFacts.fetch_quote_inv _ _ _ _ Hfetch)
    as (_ & response & items & fields & _ & _ & _ & _ & _ & _ & Hprice & Hq).
  assert (Hsym : q_symbol q = symbol) by (by rewrite Hq).
  assert (Hname : q_name q = default symbol (COMPANY_NAMES !! symbol)).
  { rewrite Hq. cbn [q_name]. unfold symbol. by rewrite FetchFacts.upper_idem. }
  assert (Hnone : is_none (q_price q) = false) by (by rewrite Hq).
  rewrite Hnone.
  destruct (py_float (q_price q)) as [price|e] eqn:Hp; cbn [rbind].
  2:{ repeat split; [discriminate|exact Hs|]. right. exists q. split; [done|by left]. }
  destruct (float_or_blank py_float (q_high q)) as [high|e] eqn:Hh; cbn [rbind].
  2:{ repeat split; [discriminate|exact Hs|]. right. exists q. split; [done|].
      right; left. unfold float_or_blank in Hh.
      destruct (truthy (q_high q)); [|discriminate]. split; [done|].
      destruct (py_float (q_high q)) as [?|e0]; cbn [rbind] in Hh; [discriminate|].
      by injection Hh as ->. }
  destruct (float_or_blank py_float (q_low q)) as [low|e] eqn:Hl; cbn [rbind].
  2:{ repeat split; [discriminate|exact Hs|]. right. exists q. split; [done|].
      right; right; left. unfold float_or_blank in Hl.
      destruct (truthy (q_low q)); [|discriminate]. split; [done|].
      destruct (py_float (q_low q)) as [?|e0]; cbn [rbind] in Hl; [discriminate|].
      by injection Hl as ->. }
  destruct (int_or_blank py_int (q_volume q)) as [volume|e] eqn:Hv; cbn [rbind].
  2:{ repeat split; [discriminate|exact Hs|]. right. exists q. split; [done|].
      right; right; right. unfold int_or_blank in Hv.
      destruct (truthy (q_volume q)); [|discriminate]. split; [done|].
      destruct (py_int (q_volume q)) as [?|e0]; cbn [rbind] in Hv; [discriminate|].
      by injection Hv as ->. }
  split; [discriminate|]. right; right. split; [done|]. split; [exact Hs|].
  exists q, price, high, low, volume.
  rewrite Hsym, Hname.
  repeat split; try done.
  - by apply float_or_blank_spec.
  - by apply float_or_blank_spec.
  - by apply int_or_blank_spec.
Qed.

End Ajax.

End PriceFacts.

(* ===================================================================== *)
(** * trade_delete_view, stock_delete_view: what a request can remove *)
(* ===================================================================== *)

Module DeleteFacts.
Import Views DeleteViews Samples.

(** The view deletes in one case only. *)
Lemma trade_delete_cases (request : Request) (pk : Z) (db : Tables) :
  (exists u row,
     req_user request = Some u /\ Trade_objects db !! pk = Some row /\
     Trade.user (columns row) = u /\ method request = "POST" /\
     trade_delete_view request pk db
     = (Redirect "portfolio_dashboard", delete_trade db pk)) \/
  ((trade_delete_view request pk db).2 = db /\
   (trade_delete_view request pk db).1 <> Redirect "portfolio_dashboard" /\
   ~ (exists u row,
        req_user request = Some u /\ Trade_objects db !! pk = Some row /\
        Trade.user (columns row) = u /\ method request = "POST")).
Proof.
  unfold trade_delete_view, get_trade.
  destruct (req_user request) as [u|] eqn:Hu.
  2:{ right. repeat split; try done. by intros (? & ? & ? & _). }
  destruct (Trade_objects db !! pk) as [row|] eqn:Hrow.
  2:{ right. repeat split; try done. by intros (? & ? & _ & ? & _). }
  destruct (decide (Trade.user (columns row) = u)) as [Hown|Hown].
  2:{ right. repeat split; try done.
      intros (u' & row' & [= <-] & [= <-] & Hown' & _). by apply Hown. }
  destruct (String.eqb_spec (method request) "POST") as [Hm|Hm].
  - left. by exists u, row.
  - right. repeat split; try done. intros (? & ? & _ & _ & _ & Hm'). by apply Hm.
Qed.

Lemma stock_delete_cases (request : Request) (pk : Z) (db : Tables) :
  (req_user request <> None /\ is_Some (Stock_objects db !! pk) /\
   method request = "POST" /\
   stock_delete_view request pk db
   = (Redirect "portfolio_dashboard", delete_stock db pk)) \/
  ((stock_delete_view request pk db).2 = db /\
   ~ (req_user request <> None /\ is_Some (Stock_objects db !! pk) /\
      method request = "POST")).
Proof.
  unfold stock_delete_view.
  destruct (req_user request) as [u|] eqn:Hu.
  2:{ right. split; [done|]. by intros (H & _). }
  destruct (Stock_objects db !! pk) as [stock|] eqn:Hstock.
  2:{ right. split; [done|]. intros (_ & H & _). by destruct H. }
  destruct (String.eqb_spec (method request) "POST") as [Hm|Hm].
  - left. repeat split; done.
  - right. split; [done|]. intros (_ & _ & Hm'). by apply Hm.
Qed.

(** X15. [trade_delete_view] removes a trade only for its own user.  A
    trade of the table is gone afterwards exactly when the request is a POST
    of the user who holds it, at its key; the answer is then the redirect to
    the dashboard.  No other row of either table changes, nothing is added,
    and a key that is no trade of the user who asks is answered 404. *)
Theorem trade_delete_own_only (request : Request) (pk : Z) (db : Tables) :
  let r := (trade_delete_view request pk db).1 in
  let db' := (trade_delete_view request pk db).2 in
  Stock_objects db' = Stock_objects db /\
  (forall k, Trade_objects db' !! k = Trade_objects db !! k \/
             Trade_objects db' !! k = None) /\
  (forall k row, Trade_objects db !! k = Some row ->
     (Trade_objects db' !! k = None <->
      k = pk /\ method request = "POST" /\
      req_user request = Some (Trade.user (columns row)))) /\
  (r = Redirect "portfolio_dashboard" <->
   exists row, Trade_objects db !! pk = Some row /\ method request = "POST" /\
               req_user request = Some (Trade.user (columns row))) /\
  (forall u, req_user request = Some u ->
     (r = Http404 <->
      ~ exists row, Trade_objects db !! pk = Some row /\
                    Trade.user (columns row) = u)).
Proof.
  intros r db'. subst r db'.
  destruct (trade_delete_cases request pk db)
    as [(u & row & Hu & Hrow & Hown & Hm & ->)|(Hdb & Hr & Hnot)].
  - cbn [fst snd delete_trade Stock_objects Trade_objects].
    split; [reflexivity|]. split.
    { intros k. destruct (decide (k = pk)) as [->|Hk].
      - right. apply lookup_delete_eq.
      - left. by apply lookup_delete_ne. }
    split.
    { intros k row' Hk. split.
      - intros Hgone. destruct (decide (k = pk)) as [->|Hne].
        + rewrite Hrow in Hk. injection Hk as <-. by rewrite Hown.
        + rewrite lookup_delete_ne in Hgone by done. congruence.
      - intros (-> & _). apply lookup_delete_eq. }
    split.
    { split; [|done]. intros _. exists row. by rewrite Hown. }
    intros u' Hu'. split; [discriminate|].
    intros Hnone. exfalso. apply Hnone. exists row. split; [done|]. congruence.
  - rewrite Hdb. split; [reflexivity|]. split; [by left|]. split.
    { intros k row Hk. split.
      - congruence.
      - intros (-> & Hm & Hu). exfalso. apply Hnot.
        by exists (Trade.user (columns row)), row. }
    split.
    { split; [done|]. intros (row & Hrow & Hm & Hu). exfalso. apply Hnot.
      by exists (Trade.user (columns row)), row. }
    intros u Hu. clear Hdb Hr Hnot.
    unfold trade_delete_view, get_trade. rewrite Hu.
    destruct (Trade_objects db !! pk) as [row|] eqn:Hrow.
    2:{ split; [|done]. by intros _ (? & ? & _). }
    destruct (decide (Trade.user (columns row) = u)) as [Hown|Hown].
    + split.
      * by destruct (String.eqb (method request) "POST").
      * intros Hnone. exfalso. apply Hnone. by exists row.
    + split; [|done]. intros _ (row' & [= <-] & Hown'). by apply Hown.
Qed.

(** X16. [stock_delete_view] removes the stock for any logged-in user, and
    with it every trade that refers to it, whoever holds the trade.  A stock
    of the table is gone afterwards exactly when it is the stock of the key
    and the request is a POST of a logged-in user; a trade is gone exactly
    when it refers to that stock and the stock was there to delete.  Nothing
    else changes and nothing is added. *)
Theorem stock_delete_cascades (request : Request) (pk : Z) (db : Tables) :
  let db' := (stock_delete_view request pk db).2 in
  (forall k, Stock_objects db' !! k = Stock_objects db !! k \/
             Stock_objects db' !! k = None) /\
  (forall k, Trade_objects db' !! k = Trade_objects db !! k \/
             Trade_objects db' !! k = None) /\
  (forall k stock, Stock_objects db !! k = Some stock ->
     (Stock_objects db' !! k = None <->
      k = pk /\ method request = "POST" /\ req_user request <> None)) /\
  (forall k row, Trade_objects db !! k = Some row ->
     (Trade_objects db' !! k = None <->
      stock_id row = pk /\ is_Some (Stock_objects db !! pk) /\
      method request = "POST" /\ req_user request <> None)).
Proof.
  intros db'. subst db'.
  destruct (stock_delete_cases request pk db)
    as [(Hu & Hstock & Hm & ->)|(Hdb & Hnot)].
  - cbn [snd delete_stock Stock_objects Trade_objects].
    split.
    { intros k. destruct (decide (k = pk)) as [->|Hk].
      - right. apply lookup_delete_eq.
      - left. by apply lookup_delete_ne. }
    split.
    { intros k.
      destruct (filter (λ kv : Z * TradeRow, stock_id kv.2 ≠ pk) (Trade_objects db) !! k)
        as [row|] eqn:Hk; [|by right].
      left. apply map_lookup_filter_Some in Hk as [Hk _]. by rewrite Hk. }
    split.
    { intros k stock Hk. split.
      - intros Hgone. destruct (decide (k = pk)) as [->|Hne]; [done|].
        rewrite lookup_delete_ne in Hgone by done. congruence.
      - intros (-> & _). apply lookup_delete_eq. }
    intros k row Hk. split.
    + intros Hgone. destruct (decide (stock_id row = pk)) as [Heq|Hne]; [done|].
      exfalso.
      assert (Hin : filter (λ kv : Z * TradeRow, stock_id kv.2 ≠ pk)
                      (Trade_objects db) !! k = Some row).
      { apply map_lookup_filter_Some. by split. }
      congruence.
    + intros (Heq & _). apply map_lookup_filter_None. right.
      intros row' Hk'. cbn [snd]. rewrite Hk in Hk'. injection Hk' as <-.
      intros Hne. by apply Hne.
  - rewrite Hdb. split; [by left|]. split; [by left|]. split.
    + intros k stock Hk. split; [congruence|].
      intros (-> & Hm & Hu). exfalso. apply Hnot. repeat split; done.
    + intros k row Hk. split; [congruence|].
      intros (_ & Hs & Hm & Hu). exfalso. by apply Hnot.
Qed.

(** X17. Neither delete view leaves a trade without its stock: when every
    trade of the tables refers to a stock before the request, every trade
    does after it. *)
Theorem delete_keeps_references (request : Request) (pk : Z) (db : Tables) :
  references_hold db ->
  references_hold (trade_delete_view request pk db).2 /\
  references_hold (stock_delete_view request pk db).2.
Proof.
  intros Hrefs. split.
  - destruct (trade_delete_cases request pk db)
      as [(u & row & _ & _ & _ & _ & ->)|(-> & _)]; [|exact Hrefs].
    intros k row' Hk. cbn [snd delete_trade Stock_objects Trade_objects] in *.
    destruct (decide (k = pk)) as [->|Hne].
    + by rewrite lookup_delete_eq in Hk.
    + rewrite lookup_delete_ne in Hk by done. by apply (Hrefs k).
  - destruct (stock_delete_cases request pk db)
      as [(_ & _ & _ & ->)|(-> & _)]; [|exact Hrefs].
    intros k row Hk. cbn [snd delete_stock Stock_objects Trade_objects] in *.
    apply map_lookup_filter_Some in Hk as [Hk Hne]. cbn [snd] in Hne.
    rewrite lookup_delete_ne by done. by apply (Hrefs k).
Qed.

Lemma demo_tables_references : references_hold demo_tables.
Proof.
  intros k row Hk. unfold demo_tables in *. cbn [Trade_objects Stock_objects] in *.
  destruct (decide (k = 10)) as [->|H10].
  { rewrite lookup_insert_eq in Hk. injection Hk as <-. by eexists. }
  rewrite lookup_insert_ne in Hk by done.
  destruct (decide (k = 11)) as [->|H11].
  { rewrite lookup_insert_eq in Hk. injection Hk as <-. by eexists. }
  rewrite lookup_insert_ne in Hk by done. by rewrite lookup_empty in Hk.
Qed.

(** The guest deletes the first stock, and with it the trader's trade. *)
Lemma delete_keeps_references_witness :
  references_hold demo_tables /\
  references_hold (stock_delete_view (delete_request other_user) 1 demo_tables).2 /\
  Trade_objects (stock_delete_view (delete_request other_user) 1 demo_tables).2
  = ∅.
Proof.
  split; [exact demo_tables_references|]. split.
  - exact (proj2 (delete_keeps_references (delete_request other_user) 1 demo_tables
                    demo_tables_references)).
  - apply map_eq. intros k. rewrite lookup_empty.
    cbn [stock_delete_view delete_request req_user method demo_tables
         Stock_objects Trade_objects snd].
    vm_compute. reflexivity.
Defined.

End DeleteFacts.
